(** * flit.sdist: building a source distribution

    A shallow embedding of [flit/sdist.py] and the properties of its
    requirement normaliser ([_parse_req], [convert_requires]), of its package
    discovery ([auto_packages]), of its tracked-file filter ([include_path],
    [find_tracked_files]) and of the archive builder ([SdistBuilder.build]).

    Python [str] values are [string]s of characters with code points below
    256. Package discovery is written for any platform: it takes [os.sep]
    and the two [os.path] functions it calls from a class, because
    [find_nearest_pkg] uses both [os.sep] and ["/"]; a statement that names
    no platform is about [posix]. The archive builder is the one of a POSIX
    host, where [os.sep] is ["/"]. *)

From Stdlib Require Import ZArith Ascii.
From stdpp Require Import gmap strings list sorting pretty.

#[local] Set Warnings "-clear-no-such-hyp".

Local Open Scope Z_scope.
Local Open Scope nat_scope.

(** ** Python string primitives *)

Module Str.

(** [s.startswith(pre)] *)
Definition startswith (s pre : string) : bool := String.prefix pre s.

(** [s.endswith(suf)]: some tail of [s] is [suf]. *)
Fixpoint endswith (s suf : string) : bool :=
  String.eqb s suf ||
  match s with
  | "" => false
  | String _ s' => endswith s' suf
  end.

(** [sub in s] *)
Fixpoint contains (sub s : string) : bool :=
  String.prefix sub s ||
  match s with
  | "" => false
  | String _ s' => contains sub s'
  end.

(** [c in s] for a single character. *)
Definition has_char (c : ascii) (s : string) : bool :=
  contains (String c "") s.

(** [s.split(c, 1)] when [c in s]: the text before and after the first [c];
    [None] when [c] does not occur. *)
Fixpoint split_first (c : ascii) (s : string) : option (string * string) :=
  match s with
  | "" => None
  | String a s' =>
      if Ascii.eqb a c then Some ("", s')
      else match split_first c s' with
           | Some (l, r) => Some (String a l, r)
           | None => None
           end
  end.

(** [s.split(c)] *)
Fixpoint split (c : ascii) (s : string) : list string :=
  match s with
  | "" => [""]
  | String a s' =>
      if Ascii.eqb a c then "" :: split c s'
      else match split c s' with
           | [] => [String a ""]
           | w :: ws => String a w :: ws
           end
  end.

(** [sep.join(ls)] *)
Definition join (sep : string) (ls : list string) : string :=
  String.concat sep ls.
#[global] Arguments join : simpl never.

(** [s.replace(c, new)] for a single character [c]. *)
Fixpoint replace (c : ascii) (new : string) (s : string) : string :=
  match s with
  | "" => ""
  | String a s' =>
      if Ascii.eqb a c then new +:+ replace c new s'
      else String a (replace c new s')
  end.

(** [str.isspace] on one character: the white space of Latin-1. *)
Definition isspace (a : ascii) : bool :=
  let n := nat_of_ascii a in
  ((9 <=? n) && (n <=? 13)) || ((28 <=? n) && (n <=? 32))
  || (n =? 133) || (n =? 160).

Fixpoint lstrip (s : string) : string :=
  match s with
  | "" => ""
  | String a s' => if isspace a then lstrip s' else s
  end.

Fixpoint rstrip (s : string) : string :=
  match s with
  | "" => ""
  | String a s' =>
      match rstrip s' with
      | "" => if isspace a then "" else String a ""
      | r => String a r
      end
  end.

(** [s.strip()] *)
Definition strip (s : string) : string := rstrip (lstrip s).

(** Every character of [s] is white space. *)
Fixpoint blank (s : string) : bool :=
  match s with
  | "" => true
  | String a s' => isspace a && blank s'
  end.

(** [sorted(l)] on strings: ascending code-point order. *)
Definition sorted (l : list string) : list string := merge_sort String.le l.

(** [s.lstrip(c)] for a single character. *)
Fixpoint lstrip_char (c : ascii) (s : string) : string :=
  match s with
  | "" => ""
  | String a s' => if Ascii.eqb a c then lstrip_char c s' else s
  end.

Definition digit (a : ascii) : option Z :=
  let n := nat_of_ascii a in
  if (48 <=? n) && (n <=? 57) then Some (Z.of_nat (n - 48)) else None.

(** Decimal digits, single underscores allowed between two digits. *)
Fixpoint int_digits (acc : Z) (after_digit : bool) (s : string) : option Z :=
  match s with
  | "" => if after_digit then Some acc else None
  | String a s' =>
      match digit a with
      | Some d => int_digits (10 * acc + d)%Z true s'
      | None =>
          if Ascii.eqb a "_" && after_digit then int_digits acc false s'
          else None
      end
  end.

(** [int(s)] on ASCII text; [None] is [ValueError]. *)
Definition int (s : string) : option Z :=
  match strip s with
  | String "+" r => int_digits 0 false r
  | String "-" r => Z.opp <$> int_digits 0 false r
  | r => int_digits 0 false r
  end.

(** [s.encode('utf-8')] *)
Fixpoint encode_utf8 (s : string) : string :=
  match s with
  | "" => ""
  | String a s' =>
      let n := nat_of_ascii a in
      if n <? 128 then String a (encode_utf8 s')
      else String (ascii_of_nat (192 + n / 64))
             (String (ascii_of_nat (128 + n mod 64)) (encode_utf8 s'))
  end.

(** The line feed. *)
Definition nl : string := String "010" "".

(** An assignment as [make_setup_py] writes it: the name, an equals sign, a
    backslash to continue the line, and the value on the next line. *)
Definition assignment (name value : string) : string :=
  name +:+ " = " +:+ String "092" "" +:+ nl +:+ value +:+ nl.

End Str.

(** ** Dependency normaliser *)

(** [_parse_req]: the test [';' in requires_dist] and the unpacking of
    [requires_dist.split(';', 1)] are one [split_first]; likewise for ['(']. *)
Definition _parse_req (requires_dist : string) : string * option string :=
  let '(name_version, env_mark) :=
    match Str.split_first ";" requires_dist with
    | Some (name_version, env_mark) => (name_version, Some (Str.strip env_mark))
    | None => (requires_dist, None)
    end in
  let name_version :=
    match Str.split_first "(" name_version with
    | Some (name, version) =>
        let name := Str.strip name in
        let version := Str.strip (Str.replace ")" "" version) in
        let version :=
          if negb (existsb (fun c => Str.has_char c version)
                           (String.list_ascii_of_string "=<>"))
          then "==" +:+ version else version in
        name +:+ version
    | None => name_version
    end in
  (name_version, env_mark).

(** ** Insertion-ordered dictionaries

    The items of a Python [dict] in iteration order, one item per key. *)

Module Dict.
Section dict.
Context {K V : Type} `{EqDecision K}.

Fixpoint get (k : K) (d : list (K * V)) : option V :=
  match d with
  | [] => None
  | (k', v) :: d' => if decide (k = k') then Some v else get k d'
  end.

(** [d.pop(k, default)] *)
Fixpoint pop (k : K) (default : V) (d : list (K * V)) : V * list (K * V) :=
  match d with
  | [] => (default, [])
  | (k', v) :: d' =>
      if decide (k = k') then (v, d')
      else let '(r, d'') := pop k default d' in (r, (k', v) :: d'')
  end.
End dict.

(** [d[k].append(x)] on a [defaultdict(list)] *)
Fixpoint append {K A : Type} `{EqDecision K}
    (k : K) (x : A) (d : list (K * list A)) : list (K * list A) :=
  match d with
  | [] => [(k, [x])]
  | (k', xs) :: d' =>
      if decide (k = k') then (k', xs ++ [x]) :: d'
      else (k', xs) :: append k x d'
  end.

(** The list under [k], empty when [k] is absent. *)
Definition values_of {K A : Type} `{EqDecision K}
    (k : K) (d : list (K * list A)) : list A :=
  default [] (get k d).

Definition append_all {K A : Type} `{EqDecision K}
    (d : list (K * list A)) (l : list (K * A)) : list (K * list A) :=
  foldl (fun d '(k, x) => append k x d) d l.
End Dict.

(** The grouping loop of [convert_requires]. *)
Definition group_reqs (reqs_by_extra : list (string * list string))
  : list ((string * option string) * list string) :=
  foldl (fun grouping '(extra, reqs) =>
           foldl (fun grouping req =>
                    let '(name_version, env_mark) := _parse_req req in
                    Dict.append (extra, env_mark) name_version grouping)
                 grouping reqs)
        [] reqs_by_extra.

(** The key under which a group is filed in [extra_reqs]. *)
Definition extras_key (extra : string) (env_mark : option string) : string :=
  let extra := if decide (extra = ".none") then "" else extra in
  match env_mark with
  | None => extra
  | Some env_mark => extra +:+ ":" +:+ env_mark
  end.

(** [convert_requires]: [extra_reqs] is only printed with [pformat], which
    orders the keys, so it is a [gmap]; later assignments to a key win. *)
Definition convert_requires (reqs_by_extra : list (string * list string))
  : list string * gmap string (list string) :=
  let grouping := group_reqs reqs_by_extra in
  let '(install_reqs, grouping) := Dict.pop (".none", None) [] grouping in
  let extra_reqs :=
    foldl (fun (extra_reqs : gmap string (list string)) '((extra, env_mark), reqs) =>
             <[extras_key extra env_mark := reqs]> extra_reqs)
          ∅ grouping in
  (install_reqs, extra_reqs).

(** The requirements with no extra and no environment marker, normalised,
    in the order they are declared: the base requirements of the
    specification. *)
Definition base_requirements (reqs_by_extra : list (string * list string))
  : list string :=
  '(extra, reqs) ← reqs_by_extra;
  if decide (extra = ".none")
  then req ← reqs;
       match (_parse_req req).2 with
       | None => [(_parse_req req).1]
       | Some _ => []
       end
  else [].

(** The group a requirement is filed in, with its normalised text, and the
    filings of a whole mapping in the order [convert_requires] meets them. *)
Definition filed (extra req : string) : (string * option string) * string :=
  ((extra, (_parse_req req).2), (_parse_req req).1).

Definition filings (reqs_by_extra : list (string * list string))
  : list ((string * option string) * string) :=
  '(extra, reqs) ← reqs_by_extra; filed extra <$> reqs.

(** The normalised texts filed in the group [k], in the order they are met,
    duplicates kept. *)
Definition group_texts (k : string * option string)
    (reqs_by_extra : list (string * list string)) : list string :=
  (filter (fun kx => kx.1 = k) (filings reqs_by_extra)).*2.

(** ** Package tree discovery *)

(** A directory: the names of its files and its sub-directories, in the
    order the directory is listed. *)
#[local] Unset Elimination Schemes.
Inductive dir := Dir (filenames : list string) (subdirs : list (string * dir)).
#[local] Set Elimination Schemes.

(** What [os.walk] yields: the directory (as its components below the top),
    [dirnames] and [filenames]. *)
Definition walk_entry : Type := list string * list string * list string.

(** [os.walk(top, topdown=True)]: a directory before its sub-directories. *)
Fixpoint os_walk (rel : list string) (d : dir) : list walk_entry :=
  match d with
  | Dir filenames subdirs =>
      (rel, subdirs.*1, filenames) ::
      (fix walk_all (l : list (string * dir)) : list walk_entry :=
         match l with
         | [] => []
         | (n, d') :: l' => os_walk (rel ++ [n]) d' ++ walk_all l'
         end) subdirs
  end.

(** What [auto_packages] takes from the [os] module: the separator, and
    [os.path.normpath] and [os.path.basename], which it calls on the
    directory it is given. *)
Module os.
Class flavour := {
  sep : ascii;
  path_normpath : string -> string;
  path_basename : string -> string;
}.
End os.

(** [posixpath], and [os.path] on the directories of a walk. *)
Module os_path.

(** [os.path.basename] *)
Definition basename (p : string) : string :=
  default "" (last (Str.split "/" p)).

(** [posixpath.join(a, b)] *)
Definition join (a b : string) : string :=
  if Str.startswith b "/" then b
  else if bool_decide (a = "") || Str.endswith a "/" then a +:+ b
  else a +:+ "/" +:+ b.

(** [os.path.normpath] *)
Definition normpath (path : string) : string :=
  if bool_decide (path = "") then "." else
  let initial_slashes :=
    if Str.startswith path "/" then
      if Str.startswith path "//" && negb (Str.startswith path "///")
      then 2 else 1
    else 0 in
  let comps :=
    foldl (fun new_comps comp =>
             if bool_decide (comp = "") || bool_decide (comp = ".") then new_comps
             else if negb (bool_decide (comp = ".."))
                     || ((initial_slashes =? 0) && bool_decide (new_comps = []))
                     || bool_decide (last new_comps = Some "..")
             then new_comps ++ [comp]
             else removelast new_comps)
          [] (Str.split "/" path) in
  let path := Str.join "/" comps in
  let path := Str.join "" (replicate initial_slashes "/") +:+ path in
  if bool_decide (path = "") then "." else path.

(** [os.path.basename(path)] of a directory that [os.walk(pkgdir)] yields. *)
Definition walk_basename `{os.flavour} (pkgdir : string) (rel : list string) : string :=
  default (os.path_basename pkgdir) (last rel).

(** [os.path.relpath(path, pkgdir)] of a directory that [os.walk(pkgdir)]
    yields. *)
Definition walk_relpath `{os.flavour} (rel : list string) : string :=
  match rel with
  | [] => "."
  | _ => Str.join (String os.sep "") rel
  end.

End os_path.

(** A POSIX host. *)
#[global] Instance posix : os.flavour :=
  {| os.sep := "/";
     os.path_normpath := os_path.normpath;
     os.path_basename := os_path.basename |}.

(** [ntpath], on paths without a drive letter or a UNC prefix. *)
Module ntpath.

(** The backslash. *)
Definition sep : ascii := "092".

(** [ntpath.basename]: what follows the last separator of either kind. *)
Definition basename (p : string) : string :=
  default "" (last (Str.split sep (Str.replace "/" (String sep "") p))).

(** [ntpath.normpath] *)
Definition normpath (path : string) : string :=
  let path := Str.replace "/" (String sep "") path in
  let rooted := Str.startswith path (String sep "") in
  let comps :=
    foldl (fun new_comps comp =>
             if bool_decide (comp = "") || bool_decide (comp = ".") then new_comps
             else if bool_decide (comp = "..") then
               match last new_comps with
               | Some prev =>
                   if bool_decide (prev = "..") then new_comps ++ [comp]
                   else removelast new_comps
               | None => if rooted then new_comps else new_comps ++ [comp]
               end
             else new_comps ++ [comp])
          [] (Str.split sep (Str.lstrip_char sep path)) in
  if negb rooted && bool_decide (comps = []) then "."
  else (if rooted then String sep "" else "") +:+ Str.join (String sep "") comps.

End ntpath.

(** A Windows host. *)
Definition windows : os.flavour :=
  {| os.sep := ntpath.sep;
     os.path_normpath := ntpath.normpath;
     os.path_basename := ntpath.basename |}.

(** The closure [find_nearest_pkg] of [auto_packages], with the variables
    it captures. *)
Definition find_nearest_pkg `{os.flavour} (pkg_name : string)
    (subpkg_paths : gset string) (rel_path : string) : string * string :=
  let parts := Str.split os.sep rel_path in
  match find (fun i => bool_decide (Str.join "/" (take i parts) ∈ subpkg_paths))
             (reverse (seq 1 (length parts - 1))) with
  | Some i => (Str.join "." (pkg_name :: take i parts), Str.join "/" (drop i parts))
  | None => (pkg_name, rel_path)
  end.

(** The local variables of [auto_packages]; [pkg_data] is a
    [defaultdict(list)]. *)
Record discovery := {
  pkg_data : gmap string (list string);
  packages : list string;
  subpkg_paths : gset string;
}.

Definition discovery_init (pkg_name : string) : discovery :=
  {| pkg_data := {[ "" := ["*"] ]};
     packages := [pkg_name];
     subpkg_paths := ∅ |}.

(** One iteration of the [os.walk] loop. *)
Definition walk_step `{os.flavour} (pkgdir pkg_name : string) (st : discovery)
    (e : walk_entry) : discovery :=
  let '(path, dirnames, filenames) := e in
  if bool_decide (os_path.walk_basename pkgdir path = "__pycache__") then st else
  let from_top_level := os_path.walk_relpath path in
  if bool_decide (from_top_level = ".") then st else
  let is_subpkg := bool_decide ("__init__.py" ∈ filenames) in
  if is_subpkg then
    let parts := Str.split os.sep from_top_level in
    {| pkg_data := pkg_data st;
       packages := packages st ++ [Str.join "." (pkg_name :: parts)];
       subpkg_paths := {[ from_top_level ]} ∪ subpkg_paths st |}
  else
    let '(pkg, from_nearest_pkg) :=
      find_nearest_pkg pkg_name (subpkg_paths st) from_top_level in
    {| pkg_data := <[pkg := (pkg_data st !!! pkg) ++ [os_path.join from_nearest_pkg "*"]]>
                     (pkg_data st);
       packages := packages st;
       subpkg_paths := subpkg_paths st |}.

(** [auto_packages(pkgdir)], on the directory tree found at [pkgdir]. *)
Definition auto_packages `{os.flavour} (pkgdir : string) (tree : dir)
  : list string * gmap string (list string) :=
  let pkgdir := os.path_normpath pkgdir in
  let pkg_name := os.path_basename pkgdir in
  let st := foldl (walk_step pkgdir pkg_name) (discovery_init pkg_name)
                  (os_walk [] tree) in
  (Str.sorted (packages st), Str.sorted <$> pkg_data st).

(** *** Directory trees as a file system has them *)

(** A directory name is not empty, is not [.] or [..] and holds no [/] and
    no separator. *)
Definition wf_name `{os.flavour} (n : string) : bool :=
  negb (Str.has_char "/" n) && negb (Str.has_char os.sep n)
  && negb (bool_decide (n = ""))
  && negb (bool_decide (n = ".")) && negb (bool_decide (n = "..")).

(** The sub-directories of a directory have distinct, well-formed names. *)
Fixpoint wf_dir `{os.flavour} (d : dir) : bool :=
  match d with
  | Dir _ subdirs =>
      bool_decide (NoDup subdirs.*1) &&
      (fix all (l : list (string * dir)) : bool :=
         match l with
         | [] => true
         | (n, d') :: l' => wf_name n && wf_dir d' && all l'
         end) subdirs
  end.

(** The directories yielded below [rel], one sub-directory after another. *)
Definition os_walk_all (rel : list string) (l : list (string * dir))
  : list walk_entry :=
  '(n, d') ← l; os_walk (rel ++ [n]) d'.

(** The loop of [auto_packages] records the directory of this entry as a
    sub-package. *)
Definition registers `{os.flavour} (pkgdir : string) (e : walk_entry) : Prop :=
  os_path.walk_basename pkgdir e.1.1 <> "__pycache__"
  /\ os_path.walk_relpath e.1.1 <> "."
  /\ "__init__.py" ∈ e.2.

(** The loop attributes the directory of this entry as package data. *)
Definition attributes `{os.flavour} (pkgdir : string) (e : walk_entry) : Prop :=
  os_path.walk_basename pkgdir e.1.1 <> "__pycache__"
  /\ os_path.walk_relpath e.1.1 <> "."
  /\ "__init__.py" ∉ e.2.

(** The directory at [p] below the top holds [__init__.py] and is not named
    [__pycache__]: a sub-package boundary. *)
Definition is_subpkg (tree : dir) (p : list string) : Prop :=
  p <> [] /\ last p <> Some "__pycache__"
  /\ exists dirnames filenames,
       (p, dirnames, filenames) ∈ os_walk [] tree /\ "__init__.py" ∈ filenames.

(** The package name [auto_packages] derives from [pkgdir]. *)
Definition pkg_name_of `{os.flavour} (pkgdir : string) : string :=
  os.path_basename (os.path_normpath pkgdir).

(** The state of the loop after the entries [entries]. *)
Definition discovery_after `{os.flavour} (pkgdir : string)
    (entries : list walk_entry) : discovery :=
  foldl (walk_step (os.path_normpath pkgdir) (pkg_name_of pkgdir))
        (discovery_init (pkg_name_of pkgdir)) entries.

(** What the loop keeps true: package data is filed under the catch-all key
    or under a package; a known sub-package is a package; the top-level
    package is one. *)
Definition keys_are_packages `{os.flavour} (pkg_name : string) (st : discovery) : Prop :=
  (forall k, is_Some (pkg_data st !! k) -> k = "" \/ k ∈ packages st)
  /\ (forall x, x ∈ subpkg_paths st ->
        Str.join "." (pkg_name :: Str.split os.sep x) ∈ packages st)
  /\ pkg_name ∈ packages st.

#[global] Instance attributes_dec `{os.flavour} pkgdir e : Decision (attributes pkgdir e).
Proof. unfold attributes. apply _. Defined.

(** The number of patterns filed in [pkg_data], all keys together. *)
Definition pattern_count (m : gmap string (list string)) : nat :=
  sum_list_with (fun kv : string * list string => length kv.2) (map_to_list m).

(** What the loop takes from an entry: the directory, and whether it holds
    [__init__.py]. *)
Definition shape (e : walk_entry) : list string * bool :=
  (e.1.1, bool_decide ("__init__.py" ∈ e.2)).

(** The package the loop registers for a directory of this shape, if it
    registers one. *)
Definition registration `{os.flavour} (pkgdir pkg_name : string)
    (s : list string * bool) : option string :=
  if bool_decide (os_path.walk_basename pkgdir s.1 = "__pycache__") then None else
  if bool_decide (os_path.walk_relpath s.1 = ".") then None else
  if s.2 then Some (Str.join "." (pkg_name :: Str.split os.sep (os_path.walk_relpath s.1)))
  else None.

(** The key and the pattern the loop files for a directory of this shape,
    if it files one, when the sub-packages met so far are [known]. *)
Definition filed_data `{os.flavour} (pkgdir pkg_name : string) (known : gset string)
    (s : list string * bool) : option (string * string) :=
  if bool_decide (os_path.walk_basename pkgdir s.1 = "__pycache__") then None else
  if bool_decide (os_path.walk_relpath s.1 = ".") then None else
  if s.2 then None else
  let '(pkg, from_nearest_pkg) :=
    find_nearest_pkg pkg_name known (os_path.walk_relpath s.1) in
  Some (pkg, os_path.join from_nearest_pkg "*").

(** [pkg_data[pkg].append(pattern)], one pair after the other. *)
Definition file_all (m : gmap string (list string)) (l : list (string * string))
  : gmap string (list string) :=
  foldl (fun (m : gmap string (list string)) '(pkg, pattern) =>
           <[pkg := (m !!! pkg) ++ [pattern]]> m) m l.

(** ** Tracked-file filter *)

Definition include_path (p : string) : bool :=
  negb (Str.startswith p ("dist" +:+ "/")
        || Str.contains ("/" +:+ "__pycache__") p
        || Str.endswith p ".pyc").

(** ** Paths, files and archives *)

(** [pathlib.PurePosixPath] *)
Module Path.

Record t := { absolute : bool; parts : list string }.

Definition of_str (s : string) : t :=
  {| absolute := Str.startswith s "/";
     parts := filter (fun c => c <> "" /\ c <> ".") (Str.split "/" s) |}.

(** [p / s] *)
Definition div (p : t) (s : string) : t :=
  let q := of_str s in
  if absolute q then q
  else {| absolute := absolute p; parts := parts p ++ parts q |}.

Definition parent (p : t) : t :=
  {| absolute := absolute p; parts := removelast (parts p) |}.

(** [str(p)] *)
Definition str (p : t) : string :=
  if absolute p then "/" +:+ Str.join "/" (parts p)
  else match parts p with
       | [] => "."
       | _ => Str.join "/" (parts p)
       end.

Definition is_absolute (p : t) : bool := absolute p.

End Path.

Inductive tar_type := REGTYPE | LNKTYPE | DIRTYPE | SYMTYPE | FIFOTYPE.

(** [tarfile.TarInfo] *)
Module TarInfo.

Record t := {
  name : string;
  mode : Z;
  uid : Z;
  gid : Z;
  size : nat;
  mtime : Z;
  type : tar_type;
  linkname : string;
  uname : string;
  gname : string;
}.

(** [tarfile.TarInfo(name)] *)
Definition new (name : string) : t :=
  {| name := name; mode := 420; uid := 0; gid := 0; size := 0; mtime := 0;
     type := REGTYPE; linkname := ""; uname := ""; gname := "" |}.

Definition isreg (ti : t) : bool :=
  match type ti with REGTYPE => true | _ => false end.

Definition set_size (n : nat) (ti : t) : t :=
  {| name := name ti; mode := mode ti; uid := uid ti; gid := gid ti;
     size := n; mtime := mtime ti; type := type ti;
     linkname := linkname ti; uname := uname ti; gname := gname ti |}.

End TarInfo.

(** A gzip-compressed tar archive, kept in structured form: the time stamp
    and file name of the gzip header, the members in the order they were
    added, each with the bytes that follow its header, and whether the
    end-of-archive blocks and the gzip trailer have been written. *)
Record gzip_tar := {
  gz_mtime : Z;
  gz_fname : string;
  members : list (TarInfo.t * string);
  closed : bool;
}.

Inductive file_data := Bytes (b : string) | Packed (a : gzip_tar).

Record stat_result := {
  st_mode : Z;
  st_ino : Z;
  st_dev : Z;
  st_nlink : Z;
  st_uid : Z;
  st_gid : Z;
  st_mtime : Z;
}.

Inductive node :=
| RegularFile (st : stat_result) (data : file_data)
| Directory (st : stat_result)
| SymbolicLink (st : stat_result) (target : string)
| Fifo (st : stat_result)
| Socket (st : stat_result).

Definition node_stat (nd : node) : stat_result :=
  match nd with
  | RegularFile st _ | Directory st | SymbolicLink st _ | Fifo st | Socket st => st
  end.

(** The two lists a version-control module reports for a directory. *)
Record vcs_mod := {
  vcs_name : string;
  list_untracked_deleted_files : list string;
  list_tracked_files : list string;
}.

Inductive log_record := LogInfo (msg : string) | LogWarning (msg : string).

(** What a build reads and does not change: the directory trees [os.walk]
    finds, the process environment and identity, the clock, the user and
    group names, and the version-control state of each directory. *)
Record host := {
  trees : gmap string dir;
  environ : gmap string string;
  now : Z;
  euid : Z;
  egid : Z;
  passwd : gmap Z string;
  group : gmap Z string;
  vcs : gmap string vcs_mod;
}.

(** The state a build runs in: the host, the files by path, and the log. *)
Record world := {
  on : host;
  fs : gmap string node;
  log : list log_record;
}.

Definition with_fs (f : gmap string node) (w : world) : world :=
  {| on := on w; fs := f; log := log w |}.

Definition with_log (l : list log_record) (w : world) : world :=
  {| on := on w; fs := fs w; log := l |}.

(** Python library code and [flit.common.normalize_file_permissions], which
    [sdist.py] calls and does not define. *)
Inductive pyval :=
| PyStr (s : string)
| PyList (l : list string)
| PyDict (d : gmap string (list string)).

Class Externals := {
  normalize_file_permissions : Z -> Z;
  pformat : pyval -> string;
  repr : pyval -> string;
  gzip_tar_bytes : gzip_tar -> string;
}.

(** ** Exceptions and the build monad *)

Inductive exn :=
| VCSError (msg : string) (directory : Path.t)
| ValueError
| StructError
| AttributeError
| FileNotFoundError (p : string)
| FileExistsError (p : string)
| NotADirectoryError (p : string)
| IsADirectoryError (p : string)
| OSError (p : string).

Inductive result (A : Type) := Ok (a : A) | Raise (e : exn).
Arguments Ok {A} a.
Arguments Raise {A} e.

Definition M (A : Type) : Type := world -> result A * world.

Definition ret {A} (a : A) : M A := fun w => (Ok a, w).
Definition raise {A} (e : exn) : M A := fun w => (Raise e, w).
Definition bind {A B} (m : M A) (k : A -> M B) : M B :=
  fun w => match m w with
           | (Ok a, w') => k a w'
           | (Raise e, w') => (Raise e, w')
           end.

Notation "'let*' x ':=' m 'in' k" := (bind m (fun x => k))
  (at level 10, x pattern, m at level 100, k at level 200).
Notation "m ';;' k" := (bind m (fun _ => k))
  (at level 100, k at level 200, right associativity).

(** [try: body finally: cleanup] *)
Definition try_finally {A} (body : M A) (cleanup : M unit) : M A :=
  fun w => match body w with
           | (r, w') =>
               match cleanup w' with
               | (Ok _, w'') => (r, w'')
               | (Raise e, w'') => (Raise e, w'')
               end
           end.

(** [for x in l: body x], where the body changes the state [s] of an
    object it works on. *)
Fixpoint for_each {A S} (l : list A) (s : S) (body : S -> A -> M S) : M S :=
  match l with
  | [] => ret s
  | x :: l' => let* s' := body s x in for_each l' s' body
  end.

Definition get_world : M world := fun w => (Ok w, w).
Definition put_fs (f : gmap string node) : M unit := fun w => (Ok tt, with_fs f w).
Definition log_info (msg : string) : M unit :=
  fun w => (Ok tt, with_log (log w ++ [LogInfo msg]) w).
Definition log_warning (msg : string) : M unit :=
  fun w => (Ok tt, with_log (log w ++ [LogWarning msg]) w).

(** ** File-system operations *)

(** The status a newly created file or directory gets. It has one link;
    its inode number is not modelled and reads as 0, the number
    [gettarinfo] does not record. *)
Definition creation_stat (mode : Z) (w : world) : stat_result :=
  {| st_mode := mode; st_ino := 0; st_dev := 0; st_nlink := 1;
     st_uid := euid (on w); st_gid := egid (on w); st_mtime := now (on w) |}.

Definition touch (st : stat_result) (w : world) : stat_result :=
  {| st_mode := st_mode st; st_ino := st_ino st; st_dev := st_dev st;
     st_nlink := st_nlink st; st_uid := st_uid st; st_gid := st_gid st;
     st_mtime := now (on w) |}.

(** The current directory and the root always exist. *)
Definition is_dir (w : world) (p : Path.t) : bool :=
  match Path.parts p with
  | [] => true
  | _ => match fs w !! Path.str p with
         | Some (Directory _) => true
         | _ => false
         end
  end.

(** [p.exists()] *)
Definition exists_ (p : Path.t) : M bool :=
  fun w => (Ok (match Path.parts p with
                | [] => true
                | _ => bool_decide (is_Some (fs w !! Path.str p))
                end), w).

(** [p.mkdir(parents=True)] for a [p] that does not exist: the missing
    ancestors are created from the top; a component of the path that is not
    a directory stops it. *)
Fixpoint mkdir_from (absolute : bool) (above below : list string) : M unit :=
  match below with
  | [] => ret tt
  | c :: below' =>
      let p := {| Path.absolute := absolute; Path.parts := above ++ [c] |} in
      let* w := get_world in
      match fs w !! Path.str p with
      | Some (Directory _) => mkdir_from absolute (above ++ [c]) below'
      | Some _ =>
          match below' with
          | [] => raise (FileExistsError (Path.str p))
          | _ => raise (NotADirectoryError (Path.str p))
          end
      | None =>
          put_fs (<[Path.str p := Directory (creation_stat 16877 w)]> (fs w));;
          mkdir_from absolute (above ++ [c]) below'
      end
  end.

Definition mkdir_parents (p : Path.t) : M unit :=
  mkdir_from (Path.absolute p) [] (Path.parts p).

(** The name a gzip header records: the base name without [.gz]. *)
Definition gzip_header_name (filename : string) : string :=
  let fname := os_path.basename filename in
  if Str.endswith fname ".gz"
  then String.substring 0 (String.length fname - 3) fname
  else fname.

(** [GzipFile(filename, mode='wb', mtime=mtime)]: the file is created or
    truncated, then the header is written, whose time stamp is an unsigned
    32-bit field holding [mtime], or the current time for [None]. Opening a
    symbolic link or a special file for writing is not modelled. *)
Definition GzipFile (target : Path.t) (mtime : option Z) : M unit :=
  fun w =>
    let filename := Path.str target in
    let opened (st : stat_result) :=
      let stamp := default (now (on w)) mtime in
      let archive (c : bool) :=
        {| gz_mtime := stamp; gz_fname := gzip_header_name filename;
           members := []; closed := c |} in
      if bool_decide (0 <= stamp < 2 ^ 32)%Z
      then (Ok tt, with_fs (<[filename := RegularFile st (Packed (archive false))]> (fs w)) w)
      else (Raise StructError,
            with_fs (<[filename := RegularFile st (Bytes "")]> (fs w)) w) in
    match fs w !! filename with
    | Some (RegularFile st _) => opened (touch st w)
    | Some (Directory _) => (Raise (IsADirectoryError filename), w)
    | Some _ => (Raise (OSError filename), w)
    | None =>
        match Path.parts target with
        | [] => (Raise (IsADirectoryError filename), w)
        | _ =>
            if is_dir w (Path.parent target)
            then opened (creation_stat 33188 w)
            else (Raise (FileNotFoundError filename), w)
        end
    end.

(** ** The builder's data *)

Module Metadata.
Record t := {
  name : string;
  version : string;
  summary : string;
  author : string;
  author_email : string;
  home_page : string;
  requires_python : option string;
}.
End Metadata.

Module Module_.
Record t := { name : string; path : string; is_package : bool }.
End Module_.

Module IniInfo.
Record t := {
  reqs_by_extra : list (string * list string);
  entrypoints : list (string * list (string * string));
}.
End IniInfo.

Module SdistBuilder.
Record t := {
  ini_path : Path.t;
  ini_info : IniInfo.t;
  module : Module_.t;
  metadata : Metadata.t;
}.

(** [self.srcdir], set by [__init__]. *)
Definition srcdir (self : t) : Path.t := Path.parent (ini_path self).
End SdistBuilder.

Definition SETUP (before name version description author author_email url extra : string)
  : string :=
  Str.join Str.nl
    [ "#!/usr/bin/env python";
      "# setup.py generated by flit for tools that don't yet use PEP 517";
      "";
      "from distutils.core import setup";
      "";
      before;
      "setup(name=" +:+ name +:+ ",";
      "      version=" +:+ version +:+ ",";
      "      description=" +:+ description +:+ ",";
      "      author=" +:+ author +:+ ",";
      "      author_email=" +:+ author_email +:+ ",";
      "      url=" +:+ url +:+ ",";
      "      " +:+ extra;
      "     )";
      "" ].

Definition PKG_INFO (name version summary home_page author author_email : string)
  : string :=
  Str.join Str.nl
    [ "Metadata-Version: 1.1";
      "Name: " +:+ name;
      "Version: " +:+ version;
      "Summary: " +:+ summary;
      "Home-page: " +:+ home_page;
      "Author: " +:+ author;
      "Author-email: " +:+ author_email;
      "" ].

Section externals.
Context `{Externals}.

Definition read_bytes (d : file_data) : string :=
  match d with
  | Bytes b => b
  | Packed a => gzip_tar_bytes a
  end.

(** [TarFile.inodes]: the member name under which a regular file, known by
    its inode number and device, was first added to the archive. *)
Definition inode_table := gmap (Z * Z) string.

(** What [gettarinfo] makes of the status of a file, and the inode table it
    leaves; [None] for a file type that tar cannot hold. A regular file
    with more than one link whose inode is in the table under another
    name becomes a hard-link member, without content; any other regular
    file is entered in the table, unless its inode number is 0. *)
Definition tarinfo_of_node (h : host) (inodes : inode_table) (nd : node)
    (arcname : string) : option (TarInfo.t * inode_table) :=
  let st := node_stat nd in
  let info (type : tar_type) (size : nat) (linkname : string) :=
    {| TarInfo.name := arcname;
       TarInfo.mode := st_mode st;
       TarInfo.uid := st_uid st;
       TarInfo.gid := st_gid st;
       TarInfo.size := size;
       TarInfo.mtime := st_mtime st;
       TarInfo.type := type;
       TarInfo.linkname := linkname;
       TarInfo.uname := default "" (passwd h !! st_uid st);
       TarInfo.gname := default "" (group h !! st_gid st) |} in
  match nd with
  | RegularFile _ data =>
      let inode := (st_ino st, st_dev st) in
      let first :=
        if bool_decide (1 < st_nlink st)%Z then
          match inodes !! inode with
          | Some first =>
              if bool_decide (arcname = first) then None else Some first
          | None => None
          end
        else None in
      match first with
      | Some first => Some (info LNKTYPE 0 first, inodes)
      | None =>
          Some (info REGTYPE (String.length (read_bytes data)) "",
                if bool_decide (st_ino st = 0%Z) then inodes
                else <[inode := arcname]> inodes)
      end
  | Directory _ => Some (info DIRTYPE 0 "", inodes)
  | SymbolicLink _ target => Some (info SYMTYPE 0 target, inodes)
  | Fifo _ => Some (info FIFOTYPE 0 "", inodes)
  | Socket _ => None
  end.

(** The name [gettarinfo] gives the member. *)
Definition member_name (arcname : string) : string :=
  Str.lstrip_char "/" (Str.replace "/" "/" arcname).

(** [tf.gettarinfo(name, arcname)], from [os.lstat(name)]; [inodes] is
    the table of [tf], returned as the call leaves it. *)
Definition gettarinfo (inodes : inode_table) (name arcname : string)
  : M (option TarInfo.t * inode_table) :=
  fun w =>
    match fs w !! name with
    | None => (Raise (FileNotFoundError name), w)
    | Some nd =>
        (Ok match tarinfo_of_node (on w) inodes nd (member_name arcname) with
            | Some (ti, inodes') => (Some ti, inodes')
            | None => (None, inodes)
            end, w)
    end.

(** [path.open('rb')] and the bytes read from it. *)
Definition open_rb (path : Path.t) : M string :=
  fun w =>
    match fs w !! Path.str path with
    | Some (RegularFile _ data) => (Ok (read_bytes data), w)
    | Some (Directory _) => (Raise (IsADirectoryError (Path.str path)), w)
    | Some _ => (Raise (OSError (Path.str path)), w)
    | None => (Raise (FileNotFoundError (Path.str path)), w)
    end.

(** [tf.addfile(ti, fileobj)] on the archive opened at [target]: the header,
    then [ti.size] bytes of the file object. *)
Definition addfile (target : Path.t) (ti : TarInfo.t) (fileobj : option string)
  : M unit :=
  fun w =>
    match fs w !! Path.str target with
    | Some (RegularFile st (Packed a)) =>
        let payload :=
          match fileobj with
          | Some b => String.substring 0 (TarInfo.size ti) b
          | None => ""
          end in
        let a' := {| gz_mtime := gz_mtime a; gz_fname := gz_fname a;
                     members := members a ++ [(ti, payload)];
                     closed := closed a |} in
        (Ok tt, with_fs (<[Path.str target := RegularFile st (Packed a')]> (fs w)) w)
    | _ => (Raise (OSError (Path.str target)), w)
    end.

(** [tf.close(); gz.close()] *)
Definition close (target : Path.t) : M unit :=
  fun w =>
    match fs w !! Path.str target with
    | Some (RegularFile st (Packed a)) =>
        let a' := {| gz_mtime := gz_mtime a; gz_fname := gz_fname a;
                     members := members a; closed := true |} in
        (Ok tt, with_fs (<[Path.str target := RegularFile st (Packed a')]> (fs w)) w)
    | _ => (Ok tt, w)
    end.

(** ** The source distribution builder *)

Definition clean_tarinfo (ti : TarInfo.t) (mtime : option Z) : TarInfo.t :=
  {| TarInfo.name := TarInfo.name ti;
     TarInfo.mode := normalize_file_permissions (TarInfo.mode ti);
     TarInfo.uid := 0;
     TarInfo.gid := 0;
     TarInfo.size := TarInfo.size ti;
     TarInfo.mtime := default (TarInfo.mtime ti) mtime;
     TarInfo.type := TarInfo.type ti;
     TarInfo.linkname := TarInfo.linkname ti;
     TarInfo.uname := "";
     TarInfo.gname := "" |}.

(** The order of [(name, ep)] tuples. *)
Definition item_le (a b : string * string) : Prop :=
  String.le a.1 b.1 /\ (a.1 = b.1 -> String.le a.2 b.2).

#[local] Instance item_le_dec : RelDecision item_le.
Proof. intros a b. unfold item_le. apply _. Defined.

(** [prep_entry_points] *)
Definition prep_entry_points (self : SdistBuilder.t) : gmap string (list string) :=
  foldl (fun (res : gmap string (list string)) '(groupname, group) =>
           foldl (fun (res : gmap string (list string)) '(name, ep) =>
                    <[groupname := (res !!! groupname) ++ [name +:+ " = " +:+ ep]]> res)
                 res
                 (merge_sort item_le group))
        ∅ (IniInfo.entrypoints (SdistBuilder.ini_info self)).

(** The line [prep_entry_points] makes of an entry point. *)
Definition entry_line (item : string * string) : string :=
  item.1 +:+ " = " +:+ item.2.

Definition find_tracked_files (self : SdistBuilder.t) : M (list string) :=
  let srcdir := SdistBuilder.srcdir self in
  let* w := get_world in
  match vcs (on w) !! Path.str srcdir with
  | None => raise (VCSError "Directory does not appear to be in a VCS" srcdir)
  | Some vcs_mod =>
      let untracked_deleted := list_untracked_deleted_files vcs_mod in
      if negb (bool_decide (List.filter include_path untracked_deleted = []))
      then raise (VCSError
                    ("Untracked or deleted files in the source directory. "
                     +:+ "Commit, undo or ignore these files in your VCS.")
                    srcdir)
      else
        let files := list_tracked_files vcs_mod in
        log_info ("Found " +:+ pretty (length files) +:+ " files tracked in "
                  +:+ vcs_name vcs_mod);;
        ret (Str.sorted (List.filter include_path files))
  end.

(** [os.walk] yields nothing for a directory it cannot list. *)
Definition tree_at (h : host) (pkgdir : string) : dir :=
  default (Dir [] []) (trees h !! os_path.normpath pkgdir).

(** [make_setup_py]: of the host it reads the package directory only. *)
Definition make_setup_py (self : SdistBuilder.t) (h : host) : string :=
  let module := SdistBuilder.module self in
  let metadata := SdistBuilder.metadata self in
  let '(before, extra) :=
    if Module_.is_package module then
      let pkgdir := Module_.path module in
      let '(packages, package_data) := auto_packages pkgdir (tree_at h pkgdir) in
      ([ Str.assignment "packages" (pformat (PyList (Str.sorted packages)));
         Str.assignment "package_data" (pformat (PyDict package_data)) ],
       [ "packages=packages,"; "package_data=package_data," ])
    else
      ([], [ "py_modules=" +:+ repr (PyList [Module_.name module]) +:+ "," ]) in
  let '(install_reqs, extra_reqs) :=
    convert_requires (IniInfo.reqs_by_extra (SdistBuilder.ini_info self)) in
  let '(before, extra) :=
    if bool_decide (install_reqs <> [])
    then (before ++ [ Str.assignment "install_requires" (pformat (PyList install_reqs)) ],
          extra ++ [ "install_requires=install_requires," ])
    else (before, extra) in
  let '(before, extra) :=
    if bool_decide (extra_reqs <> ∅)
    then (before ++ [ Str.assignment "extras_require" (pformat (PyDict extra_reqs)) ],
          extra ++ [ "extras_require=extras_require," ])
    else (before, extra) in
  let entrypoints := prep_entry_points self in
  let '(before, extra) :=
    if bool_decide (entrypoints <> ∅)
    then (before ++ [ Str.assignment "entry_points" (pformat (PyDict entrypoints)) ],
          extra ++ [ "entry_points=entry_points," ])
    else (before, extra) in
  let extra :=
    match Metadata.requires_python metadata with
    | Some r => if bool_decide (r <> "")
                then extra ++ [ "python_requires=" +:+ repr (PyStr r) +:+ "," ]
                else extra
    | None => extra
    end in
  Str.encode_utf8
    (SETUP (Str.join Str.nl before)
           (repr (PyStr (Metadata.name metadata)))
           (repr (PyStr (Metadata.version metadata)))
           (repr (PyStr (Metadata.summary metadata)))
           (repr (PyStr (Metadata.author metadata)))
           (repr (PyStr (Metadata.author_email metadata)))
           (repr (PyStr (Metadata.home_page metadata)))
           (Str.join (Str.nl +:+ "      ") extra)).

(** What [make_setup_py] puts into the template: the assignments that go
    before the call of [setup] and the keyword arguments that follow the
    fixed ones. *)
Definition setup_sections (self : SdistBuilder.t) (h : host)
  : list string * list string :=
  let module := SdistBuilder.module self in
  let metadata := SdistBuilder.metadata self in
  let '(before, extra) :=
    if Module_.is_package module then
      let pkgdir := Module_.path module in
      let '(packages, package_data) := auto_packages pkgdir (tree_at h pkgdir) in
      ([ Str.assignment "packages" (pformat (PyList (Str.sorted packages)));
         Str.assignment "package_data" (pformat (PyDict package_data)) ],
       [ "packages=packages,"; "package_data=package_data," ])
    else
      ([], [ "py_modules=" +:+ repr (PyList [Module_.name module]) +:+ "," ]) in
  let '(install_reqs, extra_reqs) :=
    convert_requires (IniInfo.reqs_by_extra (SdistBuilder.ini_info self)) in
  let '(before, extra) :=
    if bool_decide (install_reqs <> [])
    then (before ++ [ Str.assignment "install_requires" (pformat (PyList install_reqs)) ],
          extra ++ [ "install_requires=install_requires," ])
    else (before, extra) in
  let '(before, extra) :=
    if bool_decide (extra_reqs <> ∅)
    then (before ++ [ Str.assignment "extras_require" (pformat (PyDict extra_reqs)) ],
          extra ++ [ "extras_require=extras_require," ])
    else (before, extra) in
  let entrypoints := prep_entry_points self in
  let '(before, extra) :=
    if bool_decide (entrypoints <> ∅)
    then (before ++ [ Str.assignment "entry_points" (pformat (PyDict entrypoints)) ],
          extra ++ [ "entry_points=entry_points," ])
    else (before, extra) in
  let extra :=
    match Metadata.requires_python metadata with
    | Some r => if bool_decide (r <> "")
                then extra ++ [ "python_requires=" +:+ repr (PyStr r) +:+ "," ]
                else extra
    | None => extra
    end in
  (before, extra).

(** The variables the generated script may pass to [setup] by name. *)
Definition setup_variables : list string :=
  ["packages"; "package_data"; "install_requires"; "extras_require"; "entry_points"].

(** [name-version], the directory inside the archive. *)
Definition tf_dir (self : SdistBuilder.t) : string :=
  Metadata.name (SdistBuilder.metadata self) +:+ "-"
  +:+ Metadata.version (SdistBuilder.metadata self).

Definition target_path (self : SdistBuilder.t) (target_dir : option Path.t) : Path.t :=
  let target_dir :=
    match target_dir with
    | None => Path.div (Path.parent (SdistBuilder.ini_path self)) "dist"
    | Some d => d
    end in
  Path.div target_dir (tf_dir self +:+ ".tar.gz").

(** The body of the [for relpath in files_to_add] loop; [inodes] is the
    inode table of [tf]. *)
Definition add_tracked_file (self : SdistBuilder.t) (target : Path.t)
    (mtime : option Z) (inodes : inode_table) (relpath : string)
  : M inode_table :=
  let path := Path.div (SdistBuilder.srcdir self) relpath in
  let* found :=
    gettarinfo inodes (Path.str path) (os_path.join (tf_dir self) relpath) in
  match found with
  | (None, _) => raise AttributeError
  | (Some ti, inodes) =>
      let ti := clean_tarinfo ti mtime in
      (if TarInfo.isreg ti then
         let* f := open_rb path in
         addfile target ti (Some f)
       else addfile target ti None);;
      ret inodes
  end.

(** The bytes of the generated [PKG-INFO]. *)
Definition pkg_info_bytes (self : SdistBuilder.t) : string :=
  let metadata := SdistBuilder.metadata self in
  Str.encode_utf8
    (PKG_INFO (Metadata.name metadata) (Metadata.version metadata)
              (Metadata.summary metadata) (Metadata.home_page metadata)
              (Metadata.author metadata) (Metadata.author_email metadata)).

(** The block under [try] in [build]. *)
Definition build_body (self : SdistBuilder.t) (target : Path.t) (mtime : option Z)
  : M unit :=
  let* files_to_add := find_tracked_files self in
  for_each files_to_add (∅ : inode_table) (add_tracked_file self target mtime);;
  (if bool_decide ("setup.py" ∈ files_to_add) then
     log_warning "Using setup.py from repository, not generating setup.py"
   else
     let* w := get_world in
     let setup_py := make_setup_py self (on w) in
     log_info "Writing generated setup.py";;
     let ti := TarInfo.new (os_path.join (tf_dir self) "setup.py") in
     let ti := TarInfo.set_size (String.length setup_py) ti in
     addfile target ti (Some setup_py));;
  let pkg_info := pkg_info_bytes self in
  let ti := TarInfo.new (os_path.join (tf_dir self) "PKG-INFO") in
  let ti := TarInfo.set_size (String.length pkg_info) ti in
  addfile target ti (Some pkg_info).

Definition build (self : SdistBuilder.t) (target_dir : option Path.t) : M Path.t :=
  let target_dir :=
    match target_dir with
    | None => Path.div (Path.parent (SdistBuilder.ini_path self)) "dist"
    | Some d => d
    end in
  let* there := exists_ target_dir in
  (if there then ret tt else mkdir_parents target_dir);;
  let target := Path.div target_dir (tf_dir self +:+ ".tar.gz") in
  let* w := get_world in
  let source_date_epoch := default "" (environ (on w) !! "SOURCE_DATE_EPOCH") in
  let* mtime :=
    if bool_decide (source_date_epoch <> "") then
      match Str.int source_date_epoch with
      | Some n => ret (Some n)
      | None => raise ValueError
      end
    else ret None in
  GzipFile target mtime;;
  try_finally (build_body self target mtime) (close target);;
  log_info ("Built sdist: " +:+ Path.str target);;
  ret target.

(** *** Auxiliary definitions for the proofs *)

(** The destination directory of a build. *)
Definition destination (self : SdistBuilder.t) (target_dir : option Path.t) : Path.t :=
  match target_dir with
  | None => Path.div (Path.parent (SdistBuilder.ini_path self)) "dist"
  | Some d => d
  end.

(** The first statements of [build]: the destination directory is made,
    with its missing ancestors, when nothing is there. *)
Definition ensure_destination (self : SdistBuilder.t) (target_dir : option Path.t)
  : M unit :=
  let* there := exists_ (destination self target_dir) in
  if there then ret tt else mkdir_parents (destination self target_dir).

(** The value of [mtime] in [build]: [None] when [SOURCE_DATE_EPOCH] is
    absent or empty; [ValueError] when it is not an integer. *)
Definition source_date_epoch (h : host) : string :=
  default "" (environ h !! "SOURCE_DATE_EPOCH").

Definition parse_epoch (h : host) : M (option Z) :=
  if bool_decide (source_date_epoch h <> "") then
    match Str.int (source_date_epoch h) with
    | Some n => ret (Some n)
    | None => raise ValueError
    end
  else ret None.

(** What [build] does before the [try]: the destination directory, the
    time stamp, the archive opened for writing. *)
Definition prepare (self : SdistBuilder.t) (target_dir : option Path.t)
  : M (option Z) :=
  let* there := exists_ (destination self target_dir) in
  (if there then ret tt else mkdir_parents (destination self target_dir));;
  let* w := get_world in
  let* mtime := parse_epoch (on w) in
  GzipFile (target_path self target_dir) mtime;;
  ret mtime.

(** The archive [GzipFile] starts, and a member added to it. *)
Definition empty_archive (h : host) (target : Path.t) (mtime : option Z) (c : bool)
  : gzip_tar :=
  {| gz_mtime := default (now h) mtime;
     gz_fname := gzip_header_name (Path.str target);
     members := [];
     closed := c |}.

Definition with_members (ms : list (TarInfo.t * string)) (c : bool) (a : gzip_tar)
  : gzip_tar :=
  {| gz_mtime := gz_mtime a; gz_fname := gz_fname a; members := ms; closed := c |}.

(** The world with the archive at [target] replaced. *)
Definition set_archive (target : Path.t) (st : stat_result) (a : gzip_tar)
    (w : world) : world :=
  with_fs (<[Path.str target := RegularFile st (Packed a)]> (fs w)) w.

(** The member the loop adds for the tracked file [relpath], found as the
    node [nd] when the inode table of the archive is [inodes]. *)
Definition tracked_member (h : host) (self : SdistBuilder.t) (mtime : option Z)
    (inodes : inode_table) (relpath : string) (nd : node)
  : option (TarInfo.t * string) :=
  match tarinfo_of_node h inodes nd
          (member_name (os_path.join (tf_dir self) relpath)) with
  | None => None
  | Some (ti, _) =>
      let ti := clean_tarinfo ti mtime in
      Some (ti, match nd with
                | RegularFile _ data =>
                    if TarInfo.isreg ti then
                      String.substring 0 (TarInfo.size ti) (read_bytes data)
                    else ""
                | _ => ""
                end)
  end.

(** The inode table after that member. *)
Definition inodes_after (h : host) (self : SdistBuilder.t)
    (inodes : inode_table) (relpath : string) (nd : node) : inode_table :=
  match tarinfo_of_node h inodes nd
          (member_name (os_path.join (tf_dir self) relpath)) with
  | None => inodes
  | Some (_, inodes') => inodes'
  end.

(** The generated members. *)
Definition generated_member (name : string) (content : string) : TarInfo.t * string :=
  (TarInfo.set_size (String.length content) (TarInfo.new name),
   String.substring 0 (String.length content) content).

Definition generated_members (h : host) (self : SdistBuilder.t)
    (files_to_add : list string) : list (TarInfo.t * string) :=
  (if bool_decide ("setup.py" ∈ files_to_add) then []
   else [generated_member (os_path.join (tf_dir self) "setup.py")
                          (make_setup_py self h)])
  ++ [generated_member (os_path.join (tf_dir self) "PKG-INFO") (pkg_info_bytes self)].

(** The path of a tracked file. *)
Definition source_path (self : SdistBuilder.t) (relpath : string) : string :=
  Path.str (Path.div (SdistBuilder.srcdir self) relpath).

(** What a build takes from a source file: its kind, content or link
    target, mode, inode and number of links; not its owner or its time
    stamp. *)
Definition source_view (nd : node) : node :=
  let blank (st : stat_result) :=
    {| st_mode := st_mode st; st_ino := st_ino st; st_dev := st_dev st;
       st_nlink := st_nlink st; st_uid := 0; st_gid := 0; st_mtime := 0 |} in
  match nd with
  | RegularFile st data => RegularFile (blank st) data
  | Directory st => Directory (blank st)
  | SymbolicLink st target => SymbolicLink (blank st) target
  | Fifo st => Fifo (blank st)
  | Socket st => Socket (blank st)
  end.

(** The node [nd] is what the loop finds at [relpath]: the one of the
    world [w], unless the file is the archive itself. *)
Definition found_in (w : world) (self : SdistBuilder.t) (target : Path.t)
    (relpath : string) (nd : node) : Prop :=
  source_path self relpath <> Path.str target ->
  fs w !! source_path self relpath = Some nd.

(** The same, seen from the world [w] the build started in: a file present
    there is the node found. *)
Definition found_from (w : world) (self : SdistBuilder.t) (target : Path.t)
    (relpath : string) (nd : node) : Prop :=
  source_path self relpath <> Path.str target ->
  forall nd0, fs w !! source_path self relpath = Some nd0 -> nd0 = nd.

(** The members [ms] the loop adds for the tracked files [files], each
    found as a node that [found] accepts, starting with the inode table
    [inodes]. *)
Inductive tracked_run (found : string -> node -> Prop) (h : host)
    (self : SdistBuilder.t) (mtime : option Z)
  : inode_table -> list string -> list (TarInfo.t * string) -> Prop :=
| tracked_run_nil inodes : tracked_run found h self mtime inodes [] []
| tracked_run_cons inodes relpath nd m files ms :
    found relpath nd ->
    tracked_member h self mtime inodes relpath nd = Some m ->
    tracked_run found h self mtime (inodes_after h self inodes relpath nd)
                files ms ->
    tracked_run found h self mtime inodes (relpath :: files) (m :: ms).

(** [m] is the member added for [relpath]: made from some node, which is
    the one of the world [w] unless the file is the archive itself. *)
Definition member_for (w : world) (self : SdistBuilder.t) (target : Path.t)
    (mtime : option Z) (relpath : string) (m : TarInfo.t * string) : Prop :=
  exists nd inodes,
    tracked_member (on w) self mtime inodes relpath nd = Some m
    /\ found_in w self target relpath nd.

(** The same, seen from the world [w] the build started in. *)
Definition member_from (w : world) (self : SdistBuilder.t) (target : Path.t)
    (mtime : option Z) (relpath : string) (m : TarInfo.t * string) : Prop :=
  exists nd inodes,
    tracked_member (on w) self mtime inodes relpath nd = Some m
    /\ found_from w self target relpath nd.

(** The error [find_tracked_files] raises for untracked or deleted files. *)
Definition untracked_error (self : SdistBuilder.t) : exn :=
  VCSError ("Untracked or deleted files in the source directory. "
            +:+ "Commit, undo or ignore these files in your VCS.")
           (SdistBuilder.srcdir self).

(** The time stamp [build] derives from [SOURCE_DATE_EPOCH] is [mtime]. *)
Definition epoch_is (h : host) (mtime : option Z) : Prop :=
  (source_date_epoch h = "" /\ mtime = None)
  \/ (source_date_epoch h <> ""
      /\ exists n, Str.int (source_date_epoch h) = Some n /\ mtime = Some n).

(** The files a build adds, when version control has nothing untracked. *)
Definition files_to_add_of (v : vcs_mod) : list string :=
  Str.sorted (List.filter include_path (list_tracked_files v)).

End externals.

(** ** A reference instance of the external functions *)

Module Reference.

(** Modelled from the spec: [flit.common.normalize_file_permissions] is not
    part of [sdist.py]; the docstring of [clean_tarinfo] says "Normalise
    permissions to 644 or 755": the permission bits become 644, or 755 when
    the owner may execute, the higher bits stay. *)
Definition normalize_file_permissions (st_mode : Z) : Z :=
  let new_mode := Z.ldiff (Z.lor st_mode 420) 91 in
  if Z.testbit st_mode 6 then Z.lor new_mode 73 else new_mode.

Definition quote (s : string) : string := "'" +:+ s +:+ "'".

Definition repr_list (l : list string) : string :=
  "[" +:+ Str.join ", " (quote <$> l) +:+ "]".

(** [repr] of text without quotes or escapes, and of lists and dicts of
    such text, the keys of a dict in ascending order. *)
Definition repr (v : pyval) : string :=
  match v with
  | PyStr s => quote s
  | PyList l => repr_list l
  | PyDict d =>
      "{" +:+ Str.join ", "
                ((fun kv : string * list string => quote kv.1 +:+ ": " +:+ repr_list kv.2)
                   <$> merge_sort (fun a b : string * list string => String.le a.1 b.1)
                         (map_to_list d))
      +:+ "}"
  end.

(** A stand-in for the bytes of an archive: the members, not compressed. *)
Definition gzip_tar_bytes (a : gzip_tar) : string :=
  gz_fname a +:+ Str.nl +:+
  Str.join Str.nl
    ((fun m : TarInfo.t * string => TarInfo.name m.1 +:+ Str.nl +:+ m.2) <$> members a).

Definition externals : Externals :=
  Build_Externals normalize_file_permissions repr repr gzip_tar_bytes.

End Reference.

(** ** Sample inputs *)

Module Sample.

(** A package whose sub-package [a.b] holds nested data directories. *)
Definition nested_tree : dir :=
  Dir ["__init__.py"]
      [("a", Dir ["__init__.py"]
                 [("b", Dir ["__init__.py"]
                            [("static", Dir [] [("img", Dir ["logo.png"] [])])])])].

(** A sub-package below a directory that is not one. *)
Definition gap_tree : dir :=
  Dir ["__init__.py"]
      [("mid", Dir ["readme.txt"] [("deep", Dir ["__init__.py"; "mod.py"] [])])].

(** Data two levels below a sub-package that lies two levels down. *)
Definition deep_data_tree : dir :=
  Dir ["__init__.py"]
      [("mid",
        Dir ["readme.txt"]
            [("deep",
              Dir ["__init__.py"]
                  [("static", Dir [] [("img", Dir ["logo.png"] [])])])])].

(** A directory that is no package, between a sub-package two levels down
    and a sub-package below it. *)
Definition between_tree : dir :=
  Dir ["__init__.py"]
      [("a",
        Dir ["__init__.py"]
            [("b",
              Dir ["__init__.py"]
                  [("mid", Dir ["readme.txt"]
                               [("deep", Dir ["__init__.py"] [])])])])].

(** A byte-code cache that holds a directory tree of its own. *)
Definition pycache_tree : dir :=
  Dir ["__init__.py"]
      [("__pycache__",
        Dir ["__init__.cpython-36.pyc"]
            [("sub", Dir ["__init__.py"] [("data", Dir ["x.bin"] [])])])].

(** The module [foo.py] with its [flit.ini], as the spec's scenario has it. *)
Definition metadata : Metadata.t :=
  {| Metadata.name := "foo"; Metadata.version := "1.0";
     Metadata.summary := "Foo."; Metadata.author := "A";
     Metadata.author_email := "a@example.com"; Metadata.home_page := "";
     Metadata.requires_python := None |}.

Definition builder : SdistBuilder.t :=
  {| SdistBuilder.ini_path := Path.of_str "flit.ini";
     SdistBuilder.ini_info := {| IniInfo.reqs_by_extra := []; IniInfo.entrypoints := [] |};
     SdistBuilder.module :=
       {| Module_.name := "foo"; Module_.path := "foo.py"; Module_.is_package := false |};
     SdistBuilder.metadata := metadata |}.

Definition tracked_and (untracked : list string) : vcs_mod :=
  {| vcs_name := "git";
     list_untracked_deleted_files := untracked;
     list_tracked_files := ["foo.py"] |}.

(** A work tree with [foo.py] only, owned by user [uid], last changed at
    [changed], at the time [clock]. *)
Definition world_of (untracked : list string) (env : gmap string string)
    (uid changed clock : Z) : world :=
  {| on := {| trees := ∅; environ := env; now := clock;
              euid := uid; egid := uid;
              passwd := {[ uid := "dev" ]}; group := {[ uid := "dev" ]};
              vcs := {[ "." := tracked_and untracked ]} |};
     fs := {[ "foo.py" := RegularFile {| st_mode := 33204; st_ino := 271;
                                         st_dev := 2049; st_nlink := 1;
                                         st_uid := uid; st_gid := uid;
                                         st_mtime := changed |}
                                      (Bytes "print(1)") ]};
     log := [] |}.

Definition clean_world : world := world_of [] ∅ 1000 1500000000 1600000000.

(** The same work tree, a hundred million seconds later. *)
Definition clean_world_later : world := world_of [] ∅ 1000 1500000000 1700000000.

Definition dirty_world : world :=
  world_of ["notes.txt"] ∅ 1000 1500000000 1600000000.

Definition epoch_world : world :=
  world_of [] {[ "SOURCE_DATE_EPOCH" := "1000000000" ]} 1000 1500000000 1600000000.

(** The same sources, checked out later by another user. *)
Definition epoch_world_later : world :=
  world_of [] {[ "SOURCE_DATE_EPOCH" := "1000000000" ]} 2000 1555555555 1700000000.

(** The status of a file a checkout leaves, with one link. *)
Definition checkout_stat (mode ino : Z) : stat_result :=
  {| st_mode := mode; st_ino := ino; st_dev := 2049; st_nlink := 1;
     st_uid := 1000; st_gid := 1000; st_mtime := 1500000000 |}.

(** A regular file as a checkout leaves it. *)
Definition plain_file (ino : Z) (content : string) : node :=
  RegularFile (checkout_stat 33188 ino) (Bytes content).

(** One of the two names of a file. *)
Definition linked_file (ino : Z) (content : string) : node :=
  RegularFile {| st_mode := 33188; st_ino := ino; st_dev := 2049;
                 st_nlink := 2; st_uid := 1000; st_gid := 1000;
                 st_mtime := 1500000000 |} (Bytes content).

(** A work tree with the files [files], of which [tracked] are under
    version control and none is untracked. *)
Definition work_tree (tracked : list string) (files : gmap string node)
    (env : gmap string string) : world :=
  {| on := {| trees := ∅; environ := env; now := 1600000000;
              euid := 1000; egid := 1000;
              passwd := {[ 1000%Z := "dev" ]}; group := {[ 1000%Z := "dev" ]};
              vcs := {[ "." := {| vcs_name := "git";
                                  list_untracked_deleted_files := [];
                                  list_tracked_files := tracked |} ]} |};
     fs := files;
     log := [] |}.

(** A project that keeps a [setup.py] of its own under version control. *)
Definition own_setup_world : world :=
  work_tree ["setup.py"; "foo.py"]
            {[ "foo.py" := plain_file 301 "print(1)";
               "setup.py" := plain_file 302 "# mine" ]} ∅.

(** A tracked symbolic link. *)
Definition link_world : world :=
  work_tree ["foo.py"; "latest"]
            {[ "foo.py" := plain_file 301 "print(1)";
               "latest" := SymbolicLink (checkout_stat 41471 402) "foo.py" ]} ∅.

(** A tracked file that is not in the work tree, the destination directory
    being there. *)
Definition missing_file_world : world :=
  work_tree ["foo.py"; "gone.py"]
            {[ "foo.py" := plain_file 301 "print(1)";
               "dist" := Directory (checkout_stat 16877 403) ]} ∅.

(** A work tree in which [copy.py] is a second name of the file [foo.py]. *)
Definition hard_link_world : world :=
  work_tree ["foo.py"; "copy.py"]
            {[ "foo.py" := linked_file 301 "print(1)";
               "copy.py" := linked_file 301 "print(1)" ]} ∅.

(** [SOURCE_DATE_EPOCH] set to the empty text, at two times. *)
Definition empty_epoch_world : world :=
  world_of [] {[ "SOURCE_DATE_EPOCH" := "" ]}
           1000 1500000000 1600000000.

Definition empty_epoch_world_later : world :=
  world_of [] {[ "SOURCE_DATE_EPOCH" := "" ]}
           1000 1500000000 1700000000.

(** [SOURCE_DATE_EPOCH] that is not a number. *)
Definition bad_epoch_world : world :=
  world_of [] {[ "SOURCE_DATE_EPOCH" := "yesterday" ]} 1000 1500000000 1600000000.

(** Entry points in two groups, one of them empty. *)
Definition scripts_builder : SdistBuilder.t :=
  {| SdistBuilder.ini_path := Path.of_str "flit.ini";
     SdistBuilder.ini_info :=
       {| IniInfo.reqs_by_extra := [];
          IniInfo.entrypoints :=
            [("console_scripts", [("foo", "foo:main"); ("bar", "foo:bar")]);
             ("gui_scripts", [])] |};
     SdistBuilder.module :=
       {| Module_.name := "foo"; Module_.path := "foo.py"; Module_.is_package := false |};
     SdistBuilder.metadata := metadata |}.

(** One package tree, listed in two orders. *)
Definition listed_tree : dir :=
  Dir ["__init__.py"]
      [("a", Dir ["__init__.py"; "x.py"] [("data", Dir ["d.txt"] [])]);
       ("b", Dir ["notes.txt"] [])].

Definition relisted_tree : dir :=
  Dir ["__init__.py"]
      [("b", Dir ["notes.txt"] []);
       ("a", Dir ["x.py"; "__init__.py"] [("data", Dir ["d.txt"] [])])].

End Sample.

(** * Properties *)

(** ** Strings *)

Section string_facts.
Implicit Types (s t u : string) (c a : ascii).

Lemma sapp_nil_l s : "" +:+ s = s.
Proof. reflexivity. Qed.

Lemma sapp_cons a s t : String a s +:+ t = String a (s +:+ t).
Proof. reflexivity. Qed.

Lemma sapp_nil_r s : s +:+ "" = s.
Proof. induction s as [|a s IH]; [done|]. by rewrite sapp_cons, IH. Qed.

Lemma sapp_assoc s t u : (s +:+ t) +:+ u = s +:+ t +:+ u.
Proof. induction s as [|a s IH]; [done|]. by rewrite !sapp_cons, IH. Qed.

Lemma sapp_length s t : String.length (s +:+ t) = String.length s + String.length t.
Proof. induction s as [|a s IH]; [done|]. rewrite sapp_cons. simpl. by rewrite IH. Qed.

Lemma has_char_cons c a s :
  Str.has_char c (String a s) = Ascii.eqb a c || Str.has_char c s.
Proof.
  unfold Str.has_char. simpl.
  destruct (Ascii.ascii_dec c a) as [->|Hne].
  - rewrite Ascii.eqb_refl. by destruct s.
  - apply Ascii.eqb_neq in Hne. rewrite Ascii.eqb_sym in Hne. by rewrite Hne.
Qed.

Lemma has_char_nil c : Str.has_char c "" = false.
Proof. done. Qed.

Lemma has_char_app c s t :
  Str.has_char c (s +:+ t) = Str.has_char c s || Str.has_char c t.
Proof.
  induction s as [|a s IH]; [done|].
  rewrite sapp_cons, !has_char_cons, IH. by rewrite orb_assoc.
Qed.

Lemma split_first_none c s : Str.has_char c s = false -> Str.split_first c s = None.
Proof.
  induction s as [|a s IH]; [done|].
  rewrite has_char_cons. intros [Ha Hs]%orb_false_iff.
  simpl. by rewrite Ha, IH.
Qed.

Lemma split_first_app c s t :
  Str.has_char c s = false -> Str.split_first c (s +:+ String c t) = Some (s, t).
Proof.
  induction s as [|a s IH]; intros Hs.
  - rewrite sapp_nil_l. simpl. by rewrite Ascii.eqb_refl.
  - rewrite has_char_cons in Hs. apply orb_false_iff in Hs as [Ha Hs].
    rewrite sapp_cons. simpl. by rewrite Ha, IH.
Qed.

Lemma replace_app c new s t :
  Str.replace c new (s +:+ t) = Str.replace c new s +:+ Str.replace c new t.
Proof.
  induction s as [|a s IH]; [done|].
  rewrite sapp_cons. simpl. destruct (Ascii.eqb a c).
  - by rewrite IH, sapp_assoc.
  - by rewrite IH.
Qed.

Lemma replace_absent c new s : Str.has_char c s = false -> Str.replace c new s = s.
Proof.
  induction s as [|a s IH]; [done|].
  rewrite has_char_cons. intros [Ha Hs]%orb_false_iff.
  simpl. by rewrite Ha, IH.
Qed.

Lemma blank_has_char c s :
  Str.isspace c = false -> Str.blank s = true -> Str.has_char c s = false.
Proof.
  intros Hc. induction s as [|a s IH]; [done|].
  simpl. intros [Ha Hs]%andb_true_iff. rewrite has_char_cons, IH by done.
  rewrite orb_false_r. apply Ascii.eqb_neq. by intros ->; congruence.
Qed.

Lemma lstrip_blank_app w s : Str.blank w = true -> Str.lstrip (w +:+ s) = Str.lstrip s.
Proof.
  induction w as [|a w IH]; [done|].
  intros [Ha Hw]%andb_true_iff. rewrite sapp_cons. simpl. by rewrite Ha, IH.
Qed.

Lemma rstrip_blank w : Str.blank w = true -> Str.rstrip w = "".
Proof.
  induction w as [|a w IH]; [done|].
  simpl. intros [Ha Hw]%andb_true_iff. by rewrite IH, Ha.
Qed.

Lemma rstrip_app_blank s w : Str.blank w = true -> Str.rstrip (s +:+ w) = Str.rstrip s.
Proof.
  intros Hw. induction s as [|a s IH].
  - by apply rstrip_blank.
  - rewrite sapp_cons. simpl. by rewrite IH.
Qed.

Lemma lstrip_length s : String.length (Str.lstrip s) <= String.length s.
Proof. induction s as [|a s IH]; simpl; [lia|]. destruct (Str.isspace a); simpl; lia. Qed.

Lemma rstrip_length s : String.length (Str.rstrip s) <= String.length s.
Proof.
  induction s as [|a s IH]; simpl; [lia|].
  destruct (Str.rstrip s); [destruct (Str.isspace a)|]; simpl in *; lia.
Qed.

Lemma lstrip_fixed s : String.length (Str.lstrip s) = String.length s -> Str.lstrip s = s.
Proof.
  destruct s as [|a s]; [done|]. simpl. destruct (Str.isspace a); [|done].
  intros Hl. pose proof (lstrip_length s). lia.
Qed.

(** A stripped string is left alone by both halves of [strip]. *)
Lemma strip_fixed s : Str.strip s = s -> Str.lstrip s = s /\ Str.rstrip s = s.
Proof.
  unfold Str.strip. intros Hs.
  assert (Str.lstrip s = s) as Hl.
  { apply lstrip_fixed. pose proof (lstrip_length s).
    pose proof (rstrip_length (Str.lstrip s)). rewrite Hs in *. lia. }
  split; [done|]. by rewrite Hl in Hs.
Qed.

Lemma lstrip_blank w : Str.blank w = true -> Str.lstrip w = "".
Proof.
  induction w as [|a w IH]; [done|].
  simpl. intros [Ha Hw]%andb_true_iff. by rewrite Ha, IH.
Qed.

Lemma strip_padded w1 s w2 :
  Str.blank w1 = true -> Str.blank w2 = true -> Str.strip s = s ->
  Str.strip (w1 +:+ s +:+ w2) = s.
Proof.
  intros H1 H2 [Hl Hr]%strip_fixed. unfold Str.strip.
  rewrite lstrip_blank_app by done.
  destruct s as [|a s].
  - rewrite sapp_nil_l. by rewrite lstrip_blank.
  - simpl in Hl. destruct (Str.isspace a) eqn:Ha.
    + pose proof (lstrip_length s) as Hlen. rewrite Hl in Hlen. simpl in Hlen. lia.
    + rewrite sapp_cons. simpl Str.lstrip. rewrite Ha.
      rewrite <-sapp_cons, rstrip_app_blank by done. done.
Qed.

Lemma join_nil sep : Str.join sep [] = "".
Proof. reflexivity. Qed.

Lemma join_singleton sep s : Str.join sep [s] = s.
Proof. reflexivity. Qed.

Lemma join_cons_cons sep s t (l : list string) :
  Str.join sep (s :: t :: l) = s +:+ sep +:+ Str.join sep (t :: l).
Proof. reflexivity. Qed.

Lemma join_cons sep s (l : list string) :
  l <> [] -> Str.join sep (s :: l) = s +:+ sep +:+ Str.join sep l.
Proof. destruct l; [done|]. intros _. apply join_cons_cons. Qed.


Lemma join_app sep (l1 l2 : list string) :
  l1 <> [] -> l2 <> [] ->
  Str.join sep (l1 ++ l2) = Str.join sep l1 +:+ sep +:+ Str.join sep l2.
Proof.
  intros H1 H2. induction l1 as [|t l IH]; [done|].
  destruct l as [|t' l].
  - simpl app. by rewrite join_cons.
  - change ((t :: t' :: l) ++ l2) with (t :: (t' :: l) ++ l2).
    rewrite join_cons by done. rewrite IH by done.
    rewrite join_cons_cons. by rewrite !sapp_assoc.
Qed.

Lemma split_absent c s : Str.has_char c s = false -> Str.split c s = [s].
Proof.
  induction s as [|a s IH]; [done|].
  rewrite has_char_cons. intros [Ha Hs]%orb_false_iff.
  simpl. by rewrite Ha, IH.
Qed.

Lemma split_app c s t :
  Str.has_char c s = false -> Str.split c (s +:+ String c t) = s :: Str.split c t.
Proof.
  induction s as [|a s IH]; intros Hs.
  - rewrite sapp_nil_l. simpl. by rewrite Ascii.eqb_refl.
  - rewrite has_char_cons in Hs. apply orb_false_iff in Hs as [Ha Hs].
    rewrite sapp_cons. simpl. by rewrite Ha, IH.
Qed.

(** Splitting undoes joining when no component holds the separator. *)
Lemma split_join c (l : list string) :
  l <> [] -> Forall (fun s => Str.has_char c s = false) l ->
  Str.split c (Str.join (String c "") l) = l.
Proof.
  induction l as [|s l IH]; [done|]. intros _ [Hs Hl]%Forall_cons.
  destruct l as [|t l].
  - by apply split_absent.
  - rewrite join_cons_cons.
    change (String c "" +:+ ?r) with (String c r).
    rewrite split_app by done. by rewrite IH.
Qed.

Lemma join_inj c (l1 l2 : list string) :
  l1 <> [] -> l2 <> [] ->
  Forall (fun s => Str.has_char c s = false) l1 ->
  Forall (fun s => Str.has_char c s = false) l2 ->
  Str.join (String c "") l1 = Str.join (String c "") l2 -> l1 = l2.
Proof.
  intros ???? Heq. rewrite <-(split_join c l1), <-(split_join c l2) by done.
  by rewrite Heq.
Qed.

Lemma has_char_join c (l : list string) :
  Str.has_char c (Str.join (String c "") l) = false -> length l <= 1.
Proof.
  destruct l as [|s [|t l]]; [simpl; lia..|].
  rewrite join_cons_cons, !has_char_app, has_char_cons, Ascii.eqb_refl.
  simpl. by rewrite orb_true_r.
Qed.



Lemma prefix_iff s t : String.prefix s t = true <-> exists r, t = s +:+ r.
Proof.
  revert t. induction s as [|a s IH]; intros t.
  - split; [|by destruct t]. intros _. by exists t.
  - destruct t as [|b t]; simpl.
    + split; [done|]. by intros [r Hr].
    + destruct (Ascii.ascii_dec a b) as [->|Hne].
      * rewrite IH. split; intros [r Hr]; exists r.
        -- by rewrite sapp_cons, Hr.
        -- rewrite sapp_cons in Hr. by injection Hr.
      * split; [done|]. intros [r Hr]. rewrite sapp_cons in Hr. by injection Hr.
Qed.

Lemma startswith_iff s pre : Str.startswith s pre = true <-> exists r, s = pre +:+ r.
Proof. apply prefix_iff. Qed.

Lemma contains_iff sub s :
  Str.contains sub s = true <-> exists pre post : string, s = pre +:+ sub +:+ post.
Proof.
  induction s as [|c s IH].
  - change (Str.contains sub "") with (String.prefix sub "" || false).
    rewrite orb_false_r, prefix_iff. split.
    + intros [r Hr]. by exists "", r.
    + intros (pre & post & Hab). destruct pre; [by exists post|done].
  - change (Str.contains sub (String c s))
      with (String.prefix sub (String c s) || Str.contains sub s).
    rewrite orb_true_iff, prefix_iff, IH. split.
    + intros [[r Hr]|(pre & post & ->)].
      * by exists "", r.
      * by exists (String c pre), post.
    + intros (pre & post & Hab). destruct pre as [|c' pre].
      * left. by exists post.
      * right. rewrite sapp_cons in Hab. injection Hab as -> ->. by exists pre, post.
Qed.

Lemma endswith_iff s suf : Str.endswith s suf = true <-> exists pre : string, s = pre +:+ suf.
Proof.
  induction s as [|c s IH].
  - change (Str.endswith "" suf) with (String.eqb "" suf || false).
    rewrite orb_false_r, String.eqb_eq. split.
    + intros <-. by exists "".
    + intros [pre Ha]. destruct pre; [done|]. by rewrite sapp_cons in Ha.
  - change (Str.endswith (String c s) suf)
      with (String.eqb (String c s) suf || Str.endswith s suf).
    rewrite orb_true_iff, String.eqb_eq, IH. split.
    + intros [<-|[pre ->]].
      * by exists "".
      * by exists (String c pre).
    + intros [pre Ha]. destruct pre as [|c' pre].
      * by left.
      * right. rewrite sapp_cons in Ha. injection Ha as -> ->. by exists pre.
Qed.

End string_facts.

(** ** Dependency normaliser *)

Example parse_req_doc :
  _parse_req "Foo (v); python_version == '2.x'"
  = ("Foo==v", Some "python_version == '2.x'").
Proof. reflexivity. Qed.

Example parse_req_bound :
  _parse_req "bar (>=2.0); extra == 'test'" = ("bar>=2.0", Some "extra == 'test'").
Proof. reflexivity. Qed.

Example parse_req_bare_version : _parse_req "requests (2.18)" = ("requests==2.18", None).
Proof. reflexivity. Qed.

Lemma blank_app w1 w2 :
  Str.blank w1 = true -> Str.blank w2 = true -> Str.blank (w1 +:+ w2) = true.
Proof.
  intros H1 H2. induction w1 as [|a w IH]; [done|].
  simpl in H1. apply andb_true_iff in H1 as [Ha Hw].
  rewrite sapp_cons. simpl. by rewrite Ha, IH.
Qed.

(** A bare version in parentheses, with any white space around the name,
    the parentheses and the version. *)
Lemma parse_req_padded (name x w1 w2 w3 w4 : string) :
  Str.strip name = name -> Str.strip x = x ->
  Str.blank w1 = true -> Str.blank w2 = true ->
  Str.blank w3 = true -> Str.blank w4 = true ->
  Str.has_char ";" name = false -> Str.has_char "(" name = false ->
  Str.has_char ";" x = false -> Str.has_char ")" x = false ->
  Str.has_char "=" x = false -> Str.has_char "<" x = false ->
  Str.has_char ">" x = false ->
  _parse_req (name +:+ w1 +:+ "(" +:+ w2 +:+ x +:+ w3 +:+ ")" +:+ w4)
  = (name +:+ "==" +:+ x, None).
Proof.
  intros Hname Hx H1 H2 H3 H4 Hn1 Hn2 Hx1 Hx2 Hx3 Hx4 Hx5.
  unfold _parse_req.
  rewrite split_first_none; last first.
  { rewrite !has_char_app, Hn1, Hx1.
    rewrite (blank_has_char ";" w1), (blank_has_char ";" w2),
      (blank_has_char ";" w3), (blank_has_char ";" w4) by done.
    reflexivity. }
  rewrite <-(sapp_assoc name w1).
  change ("(" +:+ ?r) with (String "(" r).
  rewrite split_first_app; last first.
  { rewrite has_char_app, Hn2. by rewrite (blank_has_char "("). }
  rewrite <-(sapp_nil_l (name +:+ w1)) at 1.
  rewrite (strip_padded "" name w1) by done.
  rewrite !replace_app.
  rewrite (replace_absent _ _ w2), (replace_absent _ _ x), (replace_absent _ _ w3),
    (replace_absent _ _ w4) by (done || by apply blank_has_char).
  change (Str.replace ")" "" ")") with "". rewrite sapp_nil_l.
  rewrite (strip_padded w2 x (w3 +:+ w4)) by (done || by apply blank_app).
  simpl existsb. by rewrite Hx3, Hx4, Hx5.
Qed.

(** C6: a requirement [Name (X)], where [X] has no comparison symbol,
    normalises to [Name==X] with no environment marker. The requirement is
    well formed: name and version carry no white space at their ends, the
    name has no [;] or [(] and the version no [;] or [)]. *)
Theorem parse_req_exact_version (name x : string) :
  Str.strip name = name -> Str.strip x = x ->
  Str.has_char ";" name = false -> Str.has_char "(" name = false ->
  Str.has_char ";" x = false -> Str.has_char ")" x = false ->
  Str.has_char "=" x = false -> Str.has_char "<" x = false ->
  Str.has_char ">" x = false ->
  _parse_req (name +:+ " (" +:+ x +:+ ")") = (name +:+ "==" +:+ x, None).
Proof.
  intros. by apply (parse_req_padded name x " " "" "" "").
Qed.

Lemma parse_req_exact_version_witness :
  _parse_req ("requests" +:+ " (" +:+ "2.18.4" +:+ ")") = ("requests" +:+ "==" +:+ "2.18.4", None).
Proof. apply parse_req_exact_version; reflexivity. Defined.

(** *** Grouping *)

Section dict_facts.
Context {K A : Type} `{EqDecision K}.
Implicit Types (d : list (K * list A)) (k : K).

Lemma get_append k k' x d :
  Dict.get k (Dict.append k' x d)
  = if decide (k = k') then Some (Dict.values_of k d ++ [x]) else Dict.get k d.
Proof.
  unfold Dict.values_of. induction d as [|[k0 xs] d IH]; simpl.
  - repeat case_decide; naive_solver.
  - destruct (decide (k' = k0)) as [->|Hne]; simpl.
    + repeat case_decide; naive_solver.
    + rewrite IH. repeat case_decide; naive_solver.
Qed.

Lemma values_of_append k k' x d :
  Dict.values_of k (Dict.append k' x d)
  = Dict.values_of k d ++ (if decide (k = k') then [x] else []).
Proof.
  unfold Dict.values_of at 1. rewrite get_append. case_decide; simpl.
  - done.
  - by rewrite app_nil_r.
Qed.

Lemma keys_append k x d :
  NoDup d.*1 -> NoDup (Dict.append k x d).*1
  /\ forall k', k' ∈ (Dict.append k x d).*1 <-> k' = k \/ k' ∈ d.*1.
Proof.
  induction d as [|[k0 xs] d IH]; simpl.
  - intros _. split; [apply NoDup_singleton|]. intros k'. set_solver.
  - intros [Hk0 Hd]%NoDup_cons. destruct (IH Hd) as [IH1 IH2].
    case_decide as Hk; simpl.
    + subst. split; [by apply NoDup_cons|]. set_solver.
    + split.
      * apply NoDup_cons. split; [|done]. rewrite IH2. naive_solver.
      * intros k'. rewrite !elem_of_cons, IH2. naive_solver.
Qed.

Lemma values_of_append_all k d l :
  Dict.values_of k (Dict.append_all d l)
  = Dict.values_of k d ++ (filter (fun kx => kx.1 = k) l).*2.
Proof.
  unfold Dict.append_all. revert d. induction l as [|[k' x] l IH]; intros d; simpl.
  - by rewrite app_nil_r.
  - rewrite IH, values_of_append, <-app_assoc. f_equal.
    rewrite filter_cons. simpl. repeat case_decide; naive_solver.
Qed.

Lemma keys_append_all d l : NoDup d.*1 -> NoDup (Dict.append_all d l).*1.
Proof.
  unfold Dict.append_all. revert d.
  induction l as [|[k' x] l IH]; intros d Hd; simpl; [done|].
  apply IH. by apply keys_append.
Qed.

Lemma get_elem_of k xs d : NoDup d.*1 -> (k, xs) ∈ d -> Dict.get k d = Some xs.
Proof.
  induction d as [|[k0 ys] d IH]; simpl; [by intros _ ?%elem_of_nil|].
  intros [Hk0 Hd]%NoDup_cons [Heq|Hin]%elem_of_cons.
  - simplify_eq. by rewrite decide_True.
  - rewrite decide_False; [by apply IH|].
    intros ->. apply Hk0. apply list_elem_of_fmap. by exists (k0, xs).
Qed.

Lemma pop_value k (dflt : list A) d :
  (Dict.pop k dflt d).1 = default dflt (Dict.get k d).
Proof.
  induction d as [|[k0 ys] d IH]; simpl; [done|].
  case_decide; [done|]. destruct (Dict.pop k dflt d). by simpl in *.
Qed.

Lemma pop_rest k (dflt : list A) d k' xs :
  NoDup d.*1 -> (k', xs) ∈ (Dict.pop k dflt d).2 -> (k', xs) ∈ d /\ k' <> k.
Proof.
  induction d as [|[k0 ys] d IH]; simpl; [by intros _ ?%elem_of_nil|].
  intros [Hk0 Hd]%NoDup_cons. case_decide as Hk; simpl.
  - subst. intros Hin. split; [by right|].
    intros ->. apply Hk0. apply list_elem_of_fmap. by exists (k0, xs).
  - destruct (Dict.pop k dflt d) as [r d'] eqn:Hp. simpl in *.
    intros [Heq|Hin]%elem_of_cons.
    + simplify_eq. split; [by left|done].
    + destruct (IH Hd Hin). split; [by right|done].
Qed.

End dict_facts.

(** *** [convert_requires] *)

Lemma group_reqs_filings reqs_by_extra :
  group_reqs reqs_by_extra = Dict.append_all [] (filings reqs_by_extra).
Proof.
  unfold group_reqs, filings, Dict.append_all.
  generalize (@nil ((string * option string) * list string)) as g.
  induction reqs_by_extra as [|[extra reqs] l IH]; intros g; simpl; [done|].
  rewrite foldl_app, <-IH. f_equal.
  clear. revert g. induction reqs as [|req reqs IH]; intros g; simpl; [done|].
  rewrite <-IH. unfold filed. by destruct (_parse_req req).
Qed.

Lemma filings_elem_of k nv reqs_by_extra :
  (k, nv) ∈ filings reqs_by_extra <->
  exists extra reqs req,
    (extra, reqs) ∈ reqs_by_extra /\ req ∈ reqs /\ filed extra req = (k, nv).
Proof.
  unfold filings. rewrite list_elem_of_bind. split.
  - intros ([extra reqs] & (req & ? & ?)%list_elem_of_fmap & ?). naive_solver.
  - intros (extra & reqs & req & ? & ? & ?). exists (extra, reqs).
    split; [|done]. apply list_elem_of_fmap. naive_solver.
Qed.

Lemma base_requirements_filings reqs_by_extra :
  (filter (fun kx => kx.1 = (".none", None)) (filings reqs_by_extra)).*2
  = base_requirements reqs_by_extra.
Proof.
  unfold filings, base_requirements.
  induction reqs_by_extra as [|[extra reqs] l IH]; [done|].
  rewrite !bind_cons, filter_app, fmap_app, IH. f_equal.
  clear. simpl. destruct (decide (extra = ".none")) as [->|Hne].
  - induction reqs as [|req reqs IH]; [done|].
    rewrite fmap_cons, filter_cons, bind_cons, <-IH. unfold filed at 1. simpl.
    destruct (_parse_req req) as [nv [m|]] eqn:Hreq; simpl; [done|].
    by rewrite Hreq.
  - induction reqs as [|req reqs IH]; [done|].
    rewrite fmap_cons, filter_cons. unfold filed at 1. simpl.
    by rewrite decide_False by naive_solver.
Qed.

Lemma extras_lookup (l : list ((string * option string) * list string))
    (m0 : gmap string (list string)) key vs :
  foldl (fun (extra_reqs : gmap string (list string)) '((extra, env_mark), reqs) =>
           <[extras_key extra env_mark := reqs]> extra_reqs) m0 l !! key = Some vs ->
  m0 !! key = Some vs
  \/ exists extra env_mark, ((extra, env_mark), vs) ∈ l /\ key = extras_key extra env_mark.
Proof.
  revert m0. induction l as [|[[extra env_mark] reqs] l IH]; intros m0; simpl; [by left|].
  intros [Hm|(e & em & Hin & ->)]%IH.
  - apply lookup_insert_Some in Hm as [[<- <-]|[_ Hm]]; [|by left].
    right. exists extra, env_mark. split; [by left|done].
  - right. exists e, em. split; [by right|done].
Qed.

Lemma convert_requires_install reqs_by_extra :
  (convert_requires reqs_by_extra).1 = base_requirements reqs_by_extra.
Proof.
  unfold convert_requires.
  pose proof (pop_value (".none", None) [] (group_reqs reqs_by_extra)) as Hp.
  destruct (Dict.pop _ _ _) as [install_reqs grouping]. simpl in *. subst.
  rewrite group_reqs_filings.
  change (default [] (Dict.get ?k ?d)) with (Dict.values_of k d).
  by rewrite values_of_append_all, base_requirements_filings.
Qed.

(** C7: the requirements filed under [.none] with no environment marker are
    the install requirements, in order; every text in the extras mapping
    comes from a requirement of another group, filed under that group's
    key. *)
Theorem convert_requires_base (reqs_by_extra : list (string * list string)) :
  (convert_requires reqs_by_extra).1 = base_requirements reqs_by_extra
  /\ (forall reqs req,
        (".none", reqs) ∈ reqs_by_extra -> req ∈ reqs ->
        (_parse_req req).2 = None ->
        (_parse_req req).1 ∈ (convert_requires reqs_by_extra).1)
  /\ (forall key vs nv,
        (convert_requires reqs_by_extra).2 !! key = Some vs -> nv ∈ vs ->
        exists extra reqs req,
          (extra, reqs) ∈ reqs_by_extra /\ req ∈ reqs
          /\ (_parse_req req).1 = nv
          /\ ~ (extra = ".none" /\ (_parse_req req).2 = None)
          /\ key = extras_key extra (_parse_req req).2).
Proof.
  split; [apply convert_requires_install|]. split.
  - intros reqs req Hin Hreq Hm. rewrite convert_requires_install.
    unfold base_requirements. apply list_elem_of_bind.
    exists (".none", reqs). split; [|done].
    rewrite decide_True by done. apply list_elem_of_bind.
    exists req. split; [|done]. rewrite Hm. by left.
  - intros key vs nv. unfold convert_requires.
    pose proof (pop_rest (".none", None) [] (group_reqs reqs_by_extra)) as Hrest.
    destruct (Dict.pop _ _ _) as [install_reqs grouping]. simpl in *.
    intros [Hm|(extra & em & Hin & ->)]%extras_lookup Hnv; [done|].
    assert (NoDup (group_reqs reqs_by_extra).*1) as Hnd.
    { rewrite group_reqs_filings. apply keys_append_all. constructor. }
    destruct (Hrest _ _ Hnd Hin) as [Hg Hk].
    apply (get_elem_of _ _ _ Hnd) in Hg.
    assert (Dict.values_of (extra, em) (group_reqs reqs_by_extra) = vs) as Hv.
    { unfold Dict.values_of. by rewrite Hg. }
    rewrite group_reqs_filings, values_of_append_all in Hv. simpl in Hv. subst vs.
    apply list_elem_of_fmap in Hnv as ([k nv'] & -> & [Hk' Hf]%list_elem_of_filter).
    simpl in *. subst k.
    apply filings_elem_of in Hf as (extra' & reqs & req & ? & ? & Hfiled).
    unfold filed in Hfiled. simplify_eq.
    exists extra, reqs, req. repeat split; try done.
    intros [-> Hnone]. apply Hk. by rewrite Hnone.
Qed.

Lemma convert_requires_base_witness :
  "foo==1.0" ∈ (convert_requires
                  [(".none", ["foo (1.0)"; "bar (>=2.0); extra == 'test'"]);
                   ("test", ["pytest"])]).1.
Proof.
  apply (proj1 (proj2 (convert_requires_base _)) ["foo (1.0)"; "bar (>=2.0); extra == 'test'"] "foo (1.0)");
    [set_solver|set_solver|reflexivity].
Defined.

(** ** Package tree discovery *)

(** *** The walk *)

Lemma dir_ind (P : dir -> Prop) :
  (forall filenames subdirs,
     Forall (fun nd => P nd.2) subdirs -> P (Dir filenames subdirs)) ->
  forall d, P d.
Proof.
  intros HP. fix IH 1. intros [filenames subdirs]. apply HP.
  induction subdirs as [|[n d'] l IHl]; constructor; [apply IH|apply IHl].
Qed.

Lemma os_walk_Dir rel filenames subdirs :
  os_walk rel (Dir filenames subdirs)
  = (rel, subdirs.*1, filenames) :: os_walk_all rel subdirs.
Proof.
  simpl. f_equal. unfold os_walk_all.
  induction subdirs as [|[n d'] l IH]; [done|]. by rewrite bind_cons, <-IH.
Qed.

Lemma os_walk_all_cons rel n d' l :
  os_walk_all rel ((n, d') :: l) = os_walk (rel ++ [n]) d' ++ os_walk_all rel l.
Proof. reflexivity. Qed.

Lemma wf_dir_Dir filenames subdirs :
  wf_dir (Dir filenames subdirs) = true <->
  NoDup subdirs.*1
  /\ Forall (fun nd => wf_name nd.1 = true /\ wf_dir nd.2 = true) subdirs.
Proof.
  simpl. rewrite andb_true_iff, bool_decide_eq_true.
  apply and_iff_compat_l.
  induction subdirs as [|[n d'] l IH]; [by split; [constructor|]|].
  rewrite Forall_cons, !andb_true_iff, IH. simpl. tauto.
Qed.

(** Every directory yielded lies below the top, under well-formed names. *)
Lemma os_walk_below rel d e :
  wf_dir d = true -> e ∈ os_walk rel d ->
  exists s, e.1.1 = rel ++ s /\ Forall (fun n => wf_name n = true) s.
Proof.
  revert rel. induction d as [filenames subdirs IH] using dir_ind.
  intros rel [Hnd Hwf]%wf_dir_Dir. rewrite os_walk_Dir.
  intros [->|Hin]%elem_of_cons.
  { exists []. by rewrite app_nil_r. }
  unfold os_walk_all in Hin. apply list_elem_of_bind in Hin as ([n d'] & Hin & Hsub).
  rewrite Forall_forall in IH, Hwf.
  destruct (Hwf _ Hsub) as [Hn Hd']. simpl in *.
  destruct (IH _ Hsub _ Hd' Hin) as (s & -> & Hs).
  exists (n :: s). rewrite <-app_assoc. split; [done|]. by constructor.
Qed.

Lemma os_walk_all_below rel l e :
  Forall (fun nd => wf_name nd.1 = true /\ wf_dir nd.2 = true) l ->
  e ∈ os_walk_all rel l ->
  exists n d' s, (n, d') ∈ l /\ e ∈ os_walk (rel ++ [n]) d'
    /\ e.1.1 = rel ++ n :: s /\ Forall (fun n => wf_name n = true) (n :: s).
Proof.
  intros Hwf ([n d'] & Hin & Hsub)%list_elem_of_bind.
  rewrite Forall_forall in Hwf. destruct (Hwf _ Hsub) as [Hn Hd']. simpl in *.
  destruct (os_walk_below _ _ _ Hd' Hin) as (s & Hs & Hwfs).
  exists n, d', s. rewrite Hs, <-app_assoc. repeat split; try done. by constructor.
Qed.

(** No directory is yielded twice. *)
Lemma os_walk_NoDup rel d : wf_dir d = true -> NoDup (os_walk rel d).*1.*1.
Proof.
  revert rel. induction d as [filenames subdirs IH] using dir_ind.
  intros rel [Hnd Hwf]%wf_dir_Dir. rewrite os_walk_Dir, !fmap_cons. simpl.
  apply NoDup_cons. split.
  - intros (pe & Hpe & (e & -> & Hin)%list_elem_of_fmap)%list_elem_of_fmap.
    apply os_walk_all_below in Hin as (n & d' & s & _ & _ & Hs & _); [|done].
    rewrite Hs in Hpe. apply (f_equal length) in Hpe.
    rewrite length_app in Hpe. simpl in Hpe. lia.
  - clear filenames. induction subdirs as [|[n d'] l IHl]; [constructor|].
    apply Forall_cons in IH as [IHd IH]. apply Forall_cons in Hwf as [[Hn Hd'] Hwf].
    rewrite fmap_cons in Hnd. apply NoDup_cons in Hnd as [Hnl Hnd].
    rewrite os_walk_all_cons, !fmap_app. simpl in IHd, Hn, Hd', Hnl. apply NoDup_app. split; [by apply IHd|].
    split; [|by apply IHl].
    intros p (pe1 & -> & (e1 & -> & Hin1)%list_elem_of_fmap)%list_elem_of_fmap
             (pe2 & Hp & (e2 & -> & Hin2)%list_elem_of_fmap)%list_elem_of_fmap.
    apply os_walk_below in Hin1 as (s1 & Hs1 & _); [|done].
    apply os_walk_all_below in Hin2 as (n2 & d2 & s2 & Hl & _ & Hs2 & _); [|done].
    rewrite Hs1, Hs2, <-app_assoc in Hp. apply app_inv_head in Hp.
    simplify_eq/=. apply Hnl. apply list_elem_of_fmap. by exists (n2, d2).
Qed.

(** Top-down: the ancestors of a directory are yielded before it. *)
Lemma os_walk_ancestors rel d pre e post :
  wf_dir d = true -> os_walk rel d = pre ++ e :: post ->
  forall j, length rel <= j < length e.1.1 -> take j e.1.1 ∈ pre.*1.*1.
Proof.
  revert rel pre e post. induction d as [filenames subdirs IH] using dir_ind.
  intros rel pre e post [Hnd Hwf]%wf_dir_Dir. rewrite os_walk_Dir. intros Heq j Hj.
  destruct pre as [|h pre]; simpl in Heq.
  { injection Heq as <- _. simpl in Hj. lia. }
  injection Heq as <- Hrest.
  assert (e ∈ os_walk_all rel subdirs) as Hin.
  { rewrite Hrest. set_solver. }
  apply os_walk_all_below in Hin as (n & d' & s & _ & _ & Hs & _); [|done].
  destruct (decide (j = length rel)) as [->|Hne].
  { rewrite !fmap_cons, Hs, take_app_length. by left. }
  rewrite !fmap_cons. right. clear Hs n d' s Hnd filenames.
  revert pre post Hrest.
  induction subdirs as [|[n d'] l IHl]; intros pre post Heq.
  { by destruct pre. }
  apply Forall_cons in IH as [IHd IH]. apply Forall_cons in Hwf as [[Hn Hd'] Hwf].
  rewrite os_walk_all_cons in Heq. simpl in IHd, Hd'.
  apply app_eq_inv in Heq as [(k & HA & HB)|(k & -> & HB)].
  - destruct k as [|e' k]; simpl in HB.
    + symmetry in HB. specialize (IHl IH Hwf [] post HB).
      by apply elem_of_nil in IHl.
    + injection HB as <- _.
      apply (IHd (rel ++ [n]) pre e k Hd' HA). rewrite length_app. simpl. lia.
  - rewrite !fmap_app. apply elem_of_app. right. by apply (IHl IH Hwf k post).
Qed.

(** *** The nearest boundary *)



Lemma wf_name_no_sep n : wf_name n = true -> Str.has_char "/" n = false.
Proof. unfold wf_name. rewrite !andb_true_iff, negb_true_iff. tauto. Qed.

Lemma wf_names_no_sep (p : list string) :
  Forall (fun n => wf_name n = true) p ->
  Forall (fun s => Str.has_char "/" s = false) p.
Proof. intros Hp. eapply Forall_impl; [done|]. apply wf_name_no_sep. Qed.

Lemma split_relpath (p : list string) :
  p <> [] -> Forall (fun n => wf_name n = true) p ->
  Str.split "/" (os_path.walk_relpath p) = p.
Proof.
  intros Hp Hwf. destruct p as [|n p]; [done|].
  by apply (split_join "/"), wf_names_no_sep.
Qed.

Lemma relpath_not_dot (p : list string) :
  p <> [] -> Forall (fun n => wf_name n = true) p -> os_path.walk_relpath p <> ".".
Proof.
  intros Hp Hwf Hdot. destruct p as [|n p]; [done|].
  change (Str.join "/" (n :: p) = ".") in Hdot.
  assert (length (n :: p) <= 1) as Hlen.
  { apply (has_char_join "/"). by rewrite Hdot. }
  destruct p; [|simpl in Hlen; lia].
  apply Forall_cons in Hwf as [Hn _]. rewrite join_singleton in Hdot. subst n.
  done.
Qed.


(** *** The loop *)

Section loop.
Variables pkgdir pkg_name : string.
Implicit Types (st : discovery) (e : walk_entry) (l : list walk_entry).

Lemma step_subpkg_paths st e x :
  x ∈ subpkg_paths (walk_step pkgdir pkg_name st e) <->
  x ∈ subpkg_paths st \/ (registers pkgdir e /\ x = os_path.walk_relpath e.1.1).
Proof.
  destruct e as [[p dn] fs]. unfold walk_step, registers. simpl.
  repeat case_bool_decide; simpl;
    try destruct (find_nearest_pkg _ _ _); simpl; set_solver.
Qed.

Lemma step_packages st e x :
  x ∈ packages (walk_step pkgdir pkg_name st e) <->
  x ∈ packages st
  \/ (registers pkgdir e
      /\ x = Str.join "." (pkg_name :: Str.split "/" (os_path.walk_relpath e.1.1))).
Proof.
  destruct e as [[p dn] fs]. unfold walk_step, registers. simpl.
  repeat case_bool_decide; simpl;
    try destruct (find_nearest_pkg _ _ _); simpl; set_solver.
Qed.

Lemma step_pkg_data_mono st e k pat :
  pat ∈ pkg_data st !!! k -> pat ∈ pkg_data (walk_step pkgdir pkg_name st e) !!! k.
Proof.
  destruct e as [[p dn] fs]. unfold walk_step. simpl.
  repeat case_bool_decide; simpl; try done.
  destruct (find_nearest_pkg _ _ _) as [pkg fnp]. simpl.
  rewrite lookup_total_insert. case_decide; [subst|done]. set_solver.
Qed.


Lemma fold_subpkg_paths st l x :
  x ∈ subpkg_paths (foldl (walk_step pkgdir pkg_name) st l) <->
  x ∈ subpkg_paths st
  \/ exists e, e ∈ l /\ registers pkgdir e /\ x = os_path.walk_relpath e.1.1.
Proof.
  revert st. induction l as [|e l IH]; intros st; simpl; [set_solver|].
  rewrite IH, step_subpkg_paths. set_solver.
Qed.

Lemma fold_packages st l x :
  x ∈ packages (foldl (walk_step pkgdir pkg_name) st l) <->
  x ∈ packages st
  \/ exists e, e ∈ l /\ registers pkgdir e
       /\ x = Str.join "." (pkg_name :: Str.split "/" (os_path.walk_relpath e.1.1)).
Proof.
  revert st. induction l as [|e l IH]; intros st; simpl; [set_solver|].
  rewrite IH, step_packages. set_solver.
Qed.

Lemma fold_pkg_data_mono st l k pat :
  pat ∈ pkg_data st !!! k ->
  pat ∈ pkg_data (foldl (walk_step pkgdir pkg_name) st l) !!! k.
Proof.
  revert st. induction l as [|e l IH]; intros st; simpl; [done|].
  intros Hpat. by apply IH, step_pkg_data_mono.
Qed.

End loop.

Lemma sorted_elem_of (l : list string) x : x ∈ Str.sorted l <-> x ∈ l.
Proof. unfold Str.sorted. by rewrite merge_sort_Permutation. Qed.

Lemma NoDup_fmap_eq {A B} (f : A -> B) (l : list A) x y :
  NoDup (f <$> l) -> x ∈ l -> y ∈ l -> f x = f y -> x = y.
Proof.
  induction l as [|z l IH]; [by intros _ ?%elem_of_nil|].
  rewrite fmap_cons. intros [Hz Hl]%NoDup_cons.
  intros [->|Hx]%elem_of_cons [->|Hy]%elem_of_cons Hf; [done|..].
  - destruct Hz. rewrite Hf. by apply list_elem_of_fmap_2.
  - destruct Hz. rewrite <-Hf. by apply list_elem_of_fmap_2.
  - by apply IH.
Qed.


(** *** What the walk knows when it reaches a directory *)

Section discovery.
Variables (pkgdir : string) (tree : dir).
Hypothesis Hwf : wf_dir tree = true.

Lemma walk_entry_wf e :
  e ∈ os_walk [] tree -> Forall (fun n => wf_name n = true) e.1.1.
Proof.
  intros Hin. destruct (os_walk_below [] tree e Hwf Hin) as (s & -> & Hs). done.
Qed.

Lemma walk_basename_last p :
  p <> [] -> last p <> Some "__pycache__" ->
  os_path.walk_basename (os_path.normpath pkgdir) p <> "__pycache__".
Proof.
  unfold os_path.walk_basename. destruct (last p) eqn:Hlast; simpl.
  - congruence.
  - by apply last_None in Hlast.
Qed.

Lemma registers_walk_entry e :
  e ∈ os_walk [] tree -> registers (os_path.normpath pkgdir) e ->
  e.1.1 <> [] /\ last e.1.1 <> Some "__pycache__" /\ "__init__.py" ∈ e.2.
Proof.
  intros Hin (Hb & Hr & Hi). destruct e as [[p dn] fs]. simpl in *.
  assert (p <> []) as Hp by (by intros ->).
  repeat split; [done| |done].
  intros Hlast. apply Hb. unfold os_path.walk_basename. by rewrite Hlast.
Qed.

(** When the walk reaches a directory, [subpkg_paths] holds exactly the
    boundaries among its proper ancestors. *)
Lemma boundaries_known pre e post j :
  os_walk [] tree = pre ++ e :: post ->
  0 < j < length e.1.1 ->
  Str.join "/" (take j e.1.1) ∈ subpkg_paths (discovery_after pkgdir pre)
  <-> is_subpkg tree (take j e.1.1).
Proof.
  intros Hwalk Hj.
  assert (e ∈ os_walk [] tree) as He by (rewrite Hwalk; set_solver).
  pose proof (walk_entry_wf e He) as Hp.
  assert (take j e.1.1 <> []) as Hne.
  { intros Hnil%(f_equal length). rewrite length_take in Hnil. simpl in Hnil. lia. }
  unfold discovery_after. rewrite fold_subpkg_paths. simpl. split.
  - intros [?%elem_of_empty|(e' & Hin' & Hreg & Heq)]; [done|].
    assert (e' ∈ os_walk [] tree) as He' by (rewrite Hwalk; set_solver).
    destruct (registers_walk_entry e' He' Hreg) as (Hne' & Hlast & Hinit).
    pose proof (walk_entry_wf e' He') as Hp'.
    assert (take j e.1.1 = e'.1.1) as Hsame.
    { apply (join_inj "/"); [done|done| |by apply wf_names_no_sep|].
      - apply wf_names_no_sep. by apply Forall_take.
      - rewrite Heq. by destruct (e'.1.1). }
    rewrite Hsame. split; [done|]. split; [done|].
    destruct e' as [[p' dn'] fs']. by exists dn', fs'.
  - intros (_ & Hlast & dn' & fs' & Hin' & Hinit). right.
    assert (take j e.1.1 ∈ pre.*1.*1) as Hpre.
    { apply (os_walk_ancestors [] tree pre e post Hwf Hwalk). simpl. lia. }
    apply list_elem_of_fmap in Hpre as (pe & Hpe & (e'' & -> & Hin'')%list_elem_of_fmap).
    assert (e'' = (take j e.1.1, dn', fs')) as ->.
    { apply (NoDup_fmap_eq (fun x : walk_entry => x.1.1) (os_walk [] tree)).
      - pose proof (os_walk_NoDup [] tree Hwf) as Hnd.
        by rewrite <-list_fmap_compose in Hnd.
      - rewrite Hwalk. set_solver.
      - done.
      - by rewrite <-Hpe. }
    eexists. split; [done|]. split.
    + split; [by apply walk_basename_last|]. split; [|done].
      apply relpath_not_dot; [done|by apply Forall_take].
    + simpl. by destruct (take j e.1.1).
Qed.


End discovery.

(** *** Discovery: the claims *)

Lemma find_rev_seq (f : nat -> bool) m :
  match find f (reverse (seq 1 m)) with
  | Some i => 1 <= i <= m /\ f i = true /\ forall j, i < j <= m -> f j = false
  | None => forall j, 1 <= j <= m -> f j = false
  end.
Proof.
  induction m as [|m IH]; [simpl; lia|].
  rewrite seq_S, reverse_snoc. simpl. destruct (f (S m)) eqn:Hf.
  - split; [lia|]. split; [done|]. lia.
  - destruct (find f (reverse (seq 1 m))) as [i|].
    + destruct IH as (Hi & Hfi & Hlast). split; [lia|]. split; [done|].
      intros j Hj. destruct (decide (j = S m)) as [->|]; [done|]. apply Hlast. lia.
    + intros j Hj. destruct (decide (j = S m)) as [->|]; [done|]. apply IH. lia.
Qed.









Example gap_tree_discovery :
  auto_packages "pkg" Sample.gap_tree
  = (["pkg"; "pkg.mid.deep"], {[ "" := ["*"]; "pkg" := ["mid/*"] ]}).
Proof. vm_compute. reflexivity. Qed.

(** C4 on the code: the loop skips a [__pycache__] directory but still
    walks the directories below it, so they are registered as sub-packages
    and attributed as package data. *)
Theorem pycache_subtree_not_pruned :
  wf_dir Sample.pycache_tree = true
  /\ auto_packages "pkg" Sample.pycache_tree
     = (["pkg"; "pkg.__pycache__.sub"],
        {[ "" := ["*"]; "pkg.__pycache__.sub" := ["data/*"] ]}).
Proof. split; vm_compute; reflexivity. Qed.

(** C8 on the code: where [os.sep] is the backslash, [find_nearest_pkg]
    looks for an ancestor joined by [/] among sub-package paths that are
    joined by backslashes, and finds none that lies two or more levels down.
    In this tree [mid\deep] holds [__init__.py] and is registered, and the
    directories [static] and [static\img] below it go to the top-level
    package, under their whole paths; on a POSIX host they go to
    [pkg.mid.deep]. *)
Theorem nearest_boundary_missed_on_windows :
  @wf_dir windows Sample.deep_data_tree = true
  /\ @os.sep windows = ntpath.sep
  /\ @auto_packages windows "pkg" Sample.deep_data_tree
     = (["pkg"; "pkg.mid.deep"],
        {[ "" := ["*"];
           "pkg" := ["mid/*"; "mid\deep\static/*"; "mid\deep\static\img/*"] ]})
  /\ @auto_packages posix "pkg" Sample.deep_data_tree
     = (["pkg"; "pkg.mid.deep"],
        {[ "" := ["*"]; "pkg" := ["mid/*"];
           "pkg.mid.deep" := ["static/*"; "static/img/*"] ]}).
Proof. repeat split; vm_compute; reflexivity. Qed.

(** C10 on the code: where [os.sep] is the backslash, the directory [mid],
    which holds no [__init__.py] and lies below the sub-package [a\b], is
    not attributed to that nearest boundary but to [pkg.a], the only
    ancestor whose path holds no separator; the sub-package [deep] below it
    is registered all the same. On a POSIX host [mid] goes to [pkg.a.b]. *)
Theorem plain_directory_skips_boundary_on_windows :
  @wf_dir windows Sample.between_tree = true
  /\ @os.sep windows = ntpath.sep
  /\ @auto_packages windows "pkg" Sample.between_tree
     = (["pkg"; "pkg.a"; "pkg.a.b"; "pkg.a.b.mid.deep"],
        {[ "" := ["*"]; "pkg.a" := ["b/mid/*"] ]})
  /\ @auto_packages posix "pkg" Sample.between_tree
     = (["pkg"; "pkg.a"; "pkg.a.b"; "pkg.a.b.mid.deep"],
        {[ "" := ["*"]; "pkg.a.b" := ["mid/*"] ]}).
Proof. repeat split; vm_compute; reflexivity. Qed.

(** ** The archive builder *)

(** *** The monad *)

Lemma bind_ok {A B} (m : M A) (k : A -> M B) w b w' :
  bind m k w = (Ok b, w') <-> exists a w1, m w = (Ok a, w1) /\ k a w1 = (Ok b, w').
Proof.
  unfold bind. destruct (m w) as [[a|e] w1]; split.
  - intros Hk. by exists a, w1.
  - by intros (a' & w1' & [= <- <-] & Hk).
  - done.
  - by intros (a' & w1' & [=] & _).
Qed.

Lemma bind_raise {A B} (m : M A) (k : A -> M B) w e w' :
  bind m k w = (Raise e, w') <->
  m w = (Raise e, w') \/ exists a w1, m w = (Ok a, w1) /\ k a w1 = (Raise e, w').
Proof.
  unfold bind. destruct (m w) as [[a|e'] w1]; split.
  - intros Hk. right. by exists a, w1.
  - by intros [[=]|(a' & w1' & [= <- <-] & Hk)].
  - intros [= <- <-]. by left.
  - by intros [[= <- <-]|(a' & w1' & [=] & _)].
Qed.

Lemma try_finally_ok {A} (body : M A) (cleanup : M unit) w a w' :
  try_finally body cleanup w = (Ok a, w') <->
  exists w1 u, body w = (Ok a, w1) /\ cleanup w1 = (Ok u, w').
Proof.
  unfold try_finally. destruct (body w) as [r w1].
  destruct (cleanup w1) as [[u|e] w2] eqn:Hc; split.
  - intros [= -> <-]. by exists w1, u.
  - intros (w1' & u' & [= -> <-] & Hc'). rewrite Hc in Hc'. by simplify_eq.
  - done.
  - intros (w1' & u' & [= -> <-] & Hc'). rewrite Hc in Hc'. by simplify_eq.
Qed.

(** *** The archive under construction *)

Section builder.
Context `{Externals}.

Implicit Types (self : SdistBuilder.t) (target : Path.t) (w : world)
  (a : gzip_tar) (st : stat_result) (mtime : option Z).

Lemma with_members_id a : with_members (members a) (closed a) a = a.
Proof. by destruct a. Qed.

Lemma set_archive_id target st a w :
  fs w !! Path.str target = Some (RegularFile st (Packed a)) ->
  set_archive target st a w = w.
Proof.
  intros Hw. unfold set_archive, with_fs. rewrite insert_id by done. by destruct w.
Qed.

Lemma set_archive_twice target st st' a a' w :
  set_archive target st' a' (set_archive target st a w) = set_archive target st' a' w.
Proof. unfold set_archive, with_fs. simpl. by rewrite insert_insert_eq. Qed.

Lemma set_archive_lookup target st a w :
  fs (set_archive target st a w) !! Path.str target = Some (RegularFile st (Packed a)).
Proof. unfold set_archive. simpl. apply lookup_insert_eq. Qed.

Lemma set_archive_lookup_ne target st a w q :
  q <> Path.str target -> fs (set_archive target st a w) !! q = fs w !! q.
Proof. intros Hq. unfold set_archive. simpl. by rewrite lookup_insert_ne. Qed.

Lemma substring_full (s : string) : String.substring 0 (String.length s) s = s.
Proof. induction s as [|c s IH]; [done|]. simpl. by rewrite IH. Qed.

Lemma addfile_open target ti fileobj w st a :
  fs w !! Path.str target = Some (RegularFile st (Packed a)) ->
  addfile target ti fileobj w
  = (Ok tt,
     set_archive target st
       (with_members
          (members a ++ [(ti, match fileobj with
                              | Some b => String.substring 0 (TarInfo.size ti) b
                              | None => ""
                              end)]) (closed a) a) w).
Proof. intros Hw. unfold addfile. by rewrite Hw. Qed.

Lemma close_open target w st a :
  fs w !! Path.str target = Some (RegularFile st (Packed a)) ->
  close target w = (Ok tt, set_archive target st (with_members (members a) true a) w).
Proof. intros Hw. unfold close. by rewrite Hw. Qed.

(** One tracked file: what the loop body does when the archive is open. *)
Lemma add_tracked_file_open self target mtime inodes relpath w st a :
  fs w !! Path.str target = Some (RegularFile st (Packed a)) ->
  add_tracked_file self target mtime inodes relpath w
  = match fs w !! source_path self relpath with
    | None => (Raise (FileNotFoundError (source_path self relpath)), w)
    | Some nd =>
        match tracked_member (on w) self mtime inodes relpath nd with
        | None => (Raise AttributeError, w)
        | Some m =>
            (Ok (inodes_after (on w) self inodes relpath nd),
             set_archive target st
               (with_members (members a ++ [m]) (closed a) a) w)
        end
    end.
Proof.
  intros Hw.
  unfold add_tracked_file, source_path, tracked_member, inodes_after, bind,
    gettarinfo, open_rb.
  generalize (member_name (os_path.join (tf_dir self) relpath)) as arcname.
  generalize (Path.str (Path.div (SdistBuilder.srcdir self) relpath)) as src.
  intros src arcname.
  destruct (fs w !! src) as [nd|] eqn:Hnd; [|done].
  destruct (tarinfo_of_node (on w) inodes nd arcname) as [[ti inodes']|] eqn:Hti;
    [|done].
  destruct nd as [st' data|st'|st' tgt|st'|st'].
  - destruct (TarInfo.isreg (clean_tarinfo ti mtime)) eqn:Hreg.
    + simpl. rewrite Hnd. by rewrite (addfile_open _ _ _ _ st a).
    + by rewrite (addfile_open _ _ _ _ st a).
  - injection Hti as <- <-. simpl. by rewrite (addfile_open _ _ _ _ st a).
  - injection Hti as <- <-. simpl. by rewrite (addfile_open _ _ _ _ st a).
  - injection Hti as <- <-. simpl. by rewrite (addfile_open _ _ _ _ st a).
  - done.
Qed.

Lemma tracked_run_impl (found found' : string -> node -> Prop) h self mtime
    inodes files ms :
  (forall relpath nd, found relpath nd -> found' relpath nd) ->
  tracked_run found h self mtime inodes files ms ->
  tracked_run found' h self mtime inodes files ms.
Proof.
  intros Himpl. induction 1; econstructor; eauto.
Qed.

(** Each member of a run is the member of its file, for some node and some
    state of the inode table. *)
Lemma tracked_run_members found h self mtime inodes files ms :
  tracked_run found h self mtime inodes files ms ->
  Forall2 (fun relpath m =>
             exists nd inodes',
               tracked_member h self mtime inodes' relpath nd = Some m
               /\ found relpath nd) files ms.
Proof. induction 1; constructor; eauto. Qed.

Lemma tracked_run_member_for w self target mtime inodes files ms :
  tracked_run (found_in w self target) (on w) self mtime inodes files ms ->
  Forall2 (member_for w self target mtime) files ms.
Proof. apply tracked_run_members. Qed.

Lemma tracked_run_member_from w self target mtime inodes files ms :
  tracked_run (found_from w self target) (on w) self mtime inodes files ms ->
  Forall2 (member_from w self target mtime) files ms.
Proof. apply tracked_run_members. Qed.

(** The loop over the tracked files, when it succeeds. *)
Lemma for_each_tracked_ok self target mtime inodes inodes' files w w' st a :
  fs w !! Path.str target = Some (RegularFile st (Packed a)) ->
  for_each files inodes (add_tracked_file self target mtime) w = (Ok inodes', w') ->
  exists ms,
    w' = set_archive target st (with_members (members a ++ ms) (closed a) a) w
    /\ tracked_run (found_in w self target) (on w) self mtime inodes files ms.
Proof.
  revert w a inodes. induction files as [|relpath files IH]; intros w a inodes Hw; simpl.
  - intros [= _ <-]. exists []. split; [|constructor].
    by rewrite app_nil_r, with_members_id, set_archive_id.
  - intros (u & w1 & Hstep & Hrest)%bind_ok.
    rewrite (add_tracked_file_open _ _ _ _ _ _ st a) in Hstep by done.
    destruct (fs w !! source_path self relpath) as [nd|] eqn:Hnd; [|done].
    destruct (tracked_member _ _ _ _ _ nd) as [m|] eqn:Hm; [|done].
    injection Hstep as <- <-.
    eapply IH in Hrest; [|apply set_archive_lookup].
    destruct Hrest as (ms & -> & Hms).
    exists (m :: ms). split.
    + rewrite set_archive_twice. simpl. by rewrite <-app_assoc.
    + econstructor; [by intros _|exact Hm|].
      eapply tracked_run_impl; [|exact Hms].
      intros r nd' Hnd' Hne. rewrite <-Hnd' by done.
      symmetry. by apply set_archive_lookup_ne.
Qed.

(** *** The phases of a build *)

Lemma find_tracked_files_run self w :
  find_tracked_files self w
  = match vcs (on w) !! Path.str (SdistBuilder.srcdir self) with
    | None =>
        (Raise (VCSError "Directory does not appear to be in a VCS"
                         (SdistBuilder.srcdir self)), w)
    | Some v =>
        if bool_decide (List.filter include_path (list_untracked_deleted_files v) = [])
        then (Ok (files_to_add_of v),
              with_log (log w ++ [LogInfo ("Found "
                                   +:+ pretty (length (list_tracked_files v))
                                   +:+ " files tracked in " +:+ vcs_name v)]) w)
        else (Raise (untracked_error self), w)
    end.
Proof.
  unfold find_tracked_files, bind, get_world. simpl.
  destruct (vcs (on w) !! _) as [v|]; [|done].
  by case_bool_decide.
Qed.

(** With untracked or deleted files in scope, the block under [try] raises
    at once and leaves the world as it is. *)
Lemma build_body_untracked self target mtime w v :
  vcs (on w) !! Path.str (SdistBuilder.srcdir self) = Some v ->
  List.filter include_path (list_untracked_deleted_files v) <> [] ->
  build_body self target mtime w = (Raise (untracked_error self), w).
Proof.
  intros Hv Hu. unfold build_body, bind. rewrite find_tracked_files_run, Hv.
  by rewrite bool_decide_eq_false_2.
Qed.

Lemma build_body_ok self target mtime w w' st a :
  fs w !! Path.str target = Some (RegularFile st (Packed a)) ->
  build_body self target mtime w = (Ok tt, w') ->
  exists v ms,
    vcs (on w) !! Path.str (SdistBuilder.srcdir self) = Some v
    /\ List.filter include_path (list_untracked_deleted_files v) = []
    /\ tracked_run (found_in w self target) (on w) self mtime ∅
                   (files_to_add_of v) ms
    /\ on w' = on w
    /\ fs w' = <[Path.str target :=
                  RegularFile st
                    (Packed (with_members
                               (members a ++ ms
                                ++ generated_members (on w) self (files_to_add_of v))
                               (closed a) a))]> (fs w).
Proof.
  intros Hw. unfold build_body.
  intros (files & w1 & Hfind & Hrest)%bind_ok.
  rewrite find_tracked_files_run in Hfind.
  destruct (vcs (on w) !! _) as [v|]; [|done].
  destruct (bool_decide (List.filter _ _ = [])) eqn:Hu; [|done].
  apply bool_decide_eq_true in Hu. injection Hfind as <- <-.
  apply bind_ok in Hrest as (inodes & w2 & Hloop & Hrest).
  eapply for_each_tracked_ok in Hloop; [|exact Hw].
  destruct Hloop as (ms & -> & Hms).
  exists v, ms. split; [done|]. split; [done|]. split; [exact Hms|].
  apply bind_ok in Hrest as ([] & w3 & Hsetup & Hinfo).
  unfold generated_members.
  case_bool_decide as Hsetup_py.
  - unfold log_warning in Hsetup. injection Hsetup as <-.
    erewrite addfile_open in Hinfo by apply set_archive_lookup.
    injection Hinfo as <-. simpl. split; [done|].
    rewrite insert_insert_eq. by rewrite <-app_assoc.
  - apply bind_ok in Hsetup as (w4 & w5 & Hget & Hsetup).
    unfold get_world in Hget. injection Hget as <- <-.
    apply bind_ok in Hsetup as ([] & w6 & Hlog & Hsetup).
    unfold log_info in Hlog. injection Hlog as <-.
    erewrite addfile_open in Hsetup by apply set_archive_lookup.
    injection Hsetup as <-.
    erewrite addfile_open in Hinfo by apply set_archive_lookup.
    injection Hinfo as <-. simpl. split; [done|].
    rewrite !insert_insert_eq. by rewrite <-!app_assoc.
Qed.

Lemma mkdir_from_preserves absolute above below w r w1 :
  mkdir_from absolute above below w = (r, w1) ->
  on w1 = on w /\ log w1 = log w
  /\ forall q nd, fs w !! q = Some nd -> fs w1 !! q = Some nd.
Proof.
  revert above w. induction below as [|c below IH]; intros above w; simpl.
  { by intros [= _ <-]. }
  unfold bind at 1, get_world.
  destruct (fs w !! _) as [nd|] eqn:Hnd.
  - destruct nd; try (destruct below; intros [= _ <-]; done).
    by apply IH.
  - unfold bind, put_fs. intros Hrec. apply IH in Hrec as (Hon & Hlog & Hfs).
    split; [done|]. split; [done|]. intros q nd Hq. apply Hfs. simpl.
    rewrite lookup_insert_ne; [done|]. intros <-. congruence.
Qed.

Lemma GzipFile_run target mtime w r w1 :
  GzipFile target mtime w = (r, w1) ->
  on w1 = on w /\ log w1 = log w
  /\ (forall q, q <> Path.str target -> fs w1 !! q = fs w !! q)
  /\ (r = Ok tt ->
      exists st,
        fs w1 !! Path.str target
        = Some (RegularFile st (Packed (empty_archive (on w) target mtime false)))).
Proof.
  unfold GzipFile, empty_archive.
  assert (forall st', (
    if bool_decide (0 <= default (now (on w)) mtime < 2 ^ 32)%Z
    then (Ok tt, with_fs (<[Path.str target :=
            RegularFile st' (Packed {| gz_mtime := default (now (on w)) mtime;
                                       gz_fname := gzip_header_name (Path.str target);
                                       members := []; closed := false |})]> (fs w)) w)
    else (Raise StructError,
          with_fs (<[Path.str target := RegularFile st' (Bytes "")]> (fs w)) w))
    = (r, w1) ->
    on w1 = on w /\ log w1 = log w
    /\ (forall q, q <> Path.str target -> fs w1 !! q = fs w !! q)
    /\ (r = Ok tt ->
        exists st,
          fs w1 !! Path.str target
          = Some (RegularFile st (Packed {| gz_mtime := default (now (on w)) mtime;
                                       gz_fname := gzip_header_name (Path.str target);
                                       members := []; closed := false |})))) as Hopened.
  { intros st'. case_bool_decide; intros [= <- <-]; simpl.
    - repeat split; [by intros q Hq; rewrite lookup_insert_ne|].
      intros _. exists st'. by rewrite lookup_insert_eq.
    - repeat split; [by intros q Hq; rewrite lookup_insert_ne|done]. }
  destruct (fs w !! Path.str target) as [nd|].
  - destruct nd; try (intros [= <- <-]; done). apply Hopened.
  - destruct (Path.parts target); [intros [= <- <-]; done|].
    destruct (is_dir w _); [apply Hopened|intros [= <- <-]; done].
Qed.

Lemma prepare_ok self target_dir w mtime w1 :
  prepare self target_dir w = (Ok mtime, w1) ->
  epoch_is (on w) mtime
  /\ on w1 = on w /\ log w1 = log w
  /\ (forall q nd, q <> Path.str (target_path self target_dir) ->
        fs w !! q = Some nd -> fs w1 !! q = Some nd)
  /\ exists st,
       fs w1 !! Path.str (target_path self target_dir)
       = Some (RegularFile st
                 (Packed (empty_archive (on w) (target_path self target_dir) mtime false))).
Proof.
  unfold prepare.
  intros (there & w2 & Hex & Hrest)%bind_ok.
  unfold exists_ in Hex. injection Hex as _ <-.
  apply bind_ok in Hrest as ([] & w3 & Hmk & Hrest).
  assert (on w3 = on w /\ log w3 = log w
          /\ forall q nd, fs w !! q = Some nd -> fs w3 !! q = Some nd)
    as (Hon3 & Hlog3 & Hfs3).
  { destruct there.
    - by injection Hmk as <-.
    - by apply mkdir_from_preserves in Hmk. }
  apply bind_ok in Hrest as (w4 & w5 & Hget & Hrest).
  unfold get_world in Hget. injection Hget as <- <-.
  apply bind_ok in Hrest as (mtime' & w6 & Hparse & Hrest).
  apply bind_ok in Hrest as ([] & w7 & Hgz & Hret).
  injection Hret as -> <-.
  assert (w6 = w3 /\ epoch_is (on w3) mtime) as [-> Hepoch].
  { unfold parse_epoch in Hparse. case_bool_decide as Hs.
    - destruct (Str.int _) as [n|] eqn:Hn; [|done].
      injection Hparse as <- <-. split; [done|]. right. split; [done|]. by exists n.
    - injection Hparse as <- <-. split; [done|]. left. split; [|done].
      by destruct (decide (source_date_epoch (on w3) = "")). }
  apply GzipFile_run in Hgz as (Hon & Hlog & Hfs & Hopen).
  rewrite Hon3 in *. split; [done|]. split; [done|]. split; [congruence|].
  split.
  - intros q nd Hq Hnd. rewrite Hfs by done. by apply Hfs3.
  - by apply Hopen.
Qed.

(** [build] is the preparation, then the guarded block. *)
Lemma build_unfold self target_dir w :
  build self target_dir w
  = bind (prepare self target_dir)
      (fun mtime =>
         try_finally (build_body self (target_path self target_dir) mtime)
                     (close (target_path self target_dir));;
         log_info ("Built sdist: " +:+ Path.str (target_path self target_dir));;
         ret (target_path self target_dir)) w.
Proof.
  unfold build, prepare, parse_epoch, source_date_epoch, target_path, destination, bind.
  destruct (exists_ _ w) as [[there|e] w1]; [|done].
  destruct ((if there then ret tt else mkdir_parents _) w1) as [[[]|e] w2]; [|done].
  unfold get_world.
  destruct (bool_decide _); [destruct (Str.int _)|]; simpl; try done.
  - by destruct (GzipFile _ _ w2) as [[[]|e] w3].
  - by destruct (GzipFile _ _ w2) as [[[]|e] w3].
Qed.

End builder.

(** *** A build as a whole *)

Section build_facts.
Context `{Externals}.
Implicit Types (self : SdistBuilder.t) (target : Path.t) (w : world)
  (a : gzip_tar) (st : stat_result) (mtime : option Z).

(** What a successful build leaves at the path it returns. *)
Lemma build_ok self target_dir w t w' :
  build self target_dir w = (Ok t, w') ->
  t = target_path self target_dir
  /\ on w' = on w
  /\ exists mtime st v ms,
       epoch_is (on w) mtime
       /\ vcs (on w) !! Path.str (SdistBuilder.srcdir self) = Some v
       /\ List.filter include_path (list_untracked_deleted_files v) = []
       /\ tracked_run (found_from w self t) (on w) self mtime ∅
                      (files_to_add_of v) ms
       /\ fs w' !! Path.str t
          = Some (RegularFile st
                    (Packed {| gz_mtime := default (now (on w)) mtime;
                               gz_fname := gzip_header_name (Path.str t);
                               members := ms ++ generated_members (on w) self
                                                  (files_to_add_of v);
                               closed := true |})).
Proof.
  rewrite build_unfold.
  intros (mtime & w1 & Hprep & Hrest)%bind_ok.
  apply prepare_ok in Hprep as (Hepoch & Hon1 & Hlog1 & Hfs1 & st & Hopen).
  apply bind_ok in Hrest as ([] & w2 & Htry & Hrest).
  apply try_finally_ok in Htry as (w3 & [] & Hbody & Hclose).
  apply (build_body_ok _ _ _ _ _ st _ Hopen) in Hbody
    as (v & ms & Hv & Hu & Hms & Hon3 & Hfs3).
  erewrite close_open in Hclose; last first.
  { rewrite Hfs3. apply lookup_insert_eq. }
  injection Hclose as <-.
  apply bind_ok in Hrest as ([] & w4 & Hlog & Hret).
  unfold log_info in Hlog. injection Hlog as <-. injection Hret as <- <-.
  split; [done|]. split; [simpl; congruence|].
  exists mtime, st, v, ms. rewrite <-Hon1. split; [by rewrite Hon1|].
  split; [exact Hv|]. split; [done|]. split.
  - eapply tracked_run_impl; [|exact Hms].
    intros r nd Hnd Hne nd0 Hnd0.
    apply Hfs1 in Hnd0; [|done]. rewrite Hnd in Hnd0 by done. congruence.
  - simpl. by rewrite lookup_insert_eq, Hon1.
Qed.

(** The same, member by member. *)
Lemma build_ok_members self target_dir w t w' :
  build self target_dir w = (Ok t, w') ->
  t = target_path self target_dir
  /\ on w' = on w
  /\ exists mtime st v ms,
       epoch_is (on w) mtime
       /\ vcs (on w) !! Path.str (SdistBuilder.srcdir self) = Some v
       /\ List.filter include_path (list_untracked_deleted_files v) = []
       /\ Forall2 (member_from w self t mtime) (files_to_add_of v) ms
       /\ fs w' !! Path.str t
          = Some (RegularFile st
                    (Packed {| gz_mtime := default (now (on w)) mtime;
                               gz_fname := gzip_header_name (Path.str t);
                               members := ms ++ generated_members (on w) self
                                                  (files_to_add_of v);
                               closed := true |})).
Proof.
  intros (Ht & Hon & mtime & st & v & ms & Hepoch & Hv & Hu & Hms & Hfs)%build_ok.
  split; [done|]. split; [done|]. exists mtime, st, v, ms.
  repeat (split; [done|]). split; [|done].
  by eapply tracked_run_member_from.
Qed.

(** A successful build leaves the files it found where they were, the
    archive apart. *)
Lemma build_frame self target_dir w t w' q nd :
  build self target_dir w = (Ok t, w') ->
  q <> Path.str t -> fs w !! q = Some nd -> fs w' !! q = Some nd.
Proof.
  rewrite build_unfold.
  intros (mtime & w1 & Hprep & Hrest)%bind_ok Hq Hnd.
  apply prepare_ok in Hprep as (_ & _ & _ & Hfs1 & st & Hopen).
  apply bind_ok in Hrest as ([] & w2 & Htry & Hrest).
  apply try_finally_ok in Htry as (w3 & [] & Hbody & Hclose).
  apply (build_body_ok _ _ _ _ _ st _ Hopen) in Hbody
    as (v & ms & _ & _ & _ & _ & Hfs3).
  erewrite close_open in Hclose; last first.
  { rewrite Hfs3. apply lookup_insert_eq. }
  injection Hclose as <-.
  apply bind_ok in Hrest as ([] & w4 & Hlog & Hret).
  unfold log_info in Hlog. injection Hlog as <-. injection Hret as <- <-.
  simpl. rewrite lookup_insert_ne by done. rewrite Hfs3.
  rewrite lookup_insert_ne by done. by apply Hfs1.
Qed.

End build_facts.

(** *** The builder: the claims *)

Section build_claims.
Context `{Externals}.
Implicit Types (self : SdistBuilder.t) (target : Path.t) (w : world)
  (a : gzip_tar) (st : stat_result) (mtime : option Z).

(** C9, amended: a successful build returns the path
    [<destination>/<name>-<version>.tar.gz] at which it wrote the archive,
    the destination being the directory given or [dist] beside the ini
    file; the path is returned as it was formed, and is absolute when the
    destination is. *)
Theorem build_returns_archive_path self target_dir w t w' :
  build self target_dir w = (Ok t, w') ->
  t = Path.div (destination self target_dir) (tf_dir self +:+ ".tar.gz")
  /\ (exists st a,
        fs w' !! Path.str t = Some (RegularFile st (Packed a)) /\ closed a = true)
  /\ (Path.is_absolute (destination self target_dir) = true ->
      Path.is_absolute t = true).
Proof.
  intros (-> & _ & mtime & st & v & ms & _ & _ & _ & _ & Hfs)%build_ok.
  split; [done|]. split.
  - eexists st, _. by split.
  - unfold target_path, Path.div, Path.is_absolute.
    fold (destination self target_dir).
    destruct (Path.absolute (Path.of_str _)) eqn:Habs; [by rewrite Habs|done].
Qed.

(** C1, amended: with an untracked or deleted file in scope, [build] raises
    an error and no member is ever written; when the preparation has gone
    through, the error is the one of [find_tracked_files], the destination
    file has been created or truncated by then, and the cleanup leaves in it
    a closed archive without members; no other file is touched after the
    preparation. *)
Theorem build_untracked_fails self target_dir w v :
  vcs (on w) !! Path.str (SdistBuilder.srcdir self) = Some v ->
  List.filter include_path (list_untracked_deleted_files v) <> [] ->
  exists e w',
    build self target_dir w = (Raise e, w')
    /\ forall mtime w1,
         prepare self target_dir w = (Ok mtime, w1) ->
         e = untracked_error self
         /\ (exists st,
               fs w' !! Path.str (target_path self target_dir)
               = Some (RegularFile st
                         (Packed (empty_archive (on w) (target_path self target_dir)
                                                mtime true))))
         /\ (forall q, q <> Path.str (target_path self target_dir) ->
                       fs w' !! q = fs w1 !! q).
Proof.
  intros Hv Hu. rewrite build_unfold. unfold bind at 1.
  destruct (prepare self target_dir w) as [[mtime|e] w1] eqn:Hprep.
  - pose proof Hprep as (_ & Hon1 & _ & _ & st & Hopen)%prepare_ok.
    unfold bind at 1, try_finally.
    rewrite (build_body_untracked self _ mtime w1 v); [|by rewrite Hon1|done].
    rewrite (close_open _ _ st _ Hopen).
    eexists _, _. split; [done|].
    intros mtime' w1' [= <- <-]. split; [done|]. split.
    + exists st. by rewrite set_archive_lookup.
    + intros q Hq. by apply set_archive_lookup_ne.
  - exists e, w1. split; [done|]. by intros mtime' w1' [=].
Qed.

(** What [gettarinfo] copies from the status of the file, whatever the
    kind of member. *)
Lemma tarinfo_of_node_fields (h : host) inodes nd arcname ti inodes' :
  tarinfo_of_node h inodes nd arcname = Some (ti, inodes') ->
  TarInfo.name ti = arcname
  /\ TarInfo.mode ti = st_mode (node_stat nd)
  /\ TarInfo.mtime ti = st_mtime (node_stat nd).
Proof.
  unfold tarinfo_of_node. destruct nd; [|by intros [= <- <-]..|done].
  by repeat case_match; intros [= <- <-].
Qed.

Lemma tracked_member_mtime (h : host) self mtime inodes relpath nd m :
  tracked_member h self mtime inodes relpath nd = Some m ->
  TarInfo.mtime m.1 = default (st_mtime (node_stat nd)) mtime.
Proof.
  unfold tracked_member.
  destruct (tarinfo_of_node _ _ _ _) as [[ti inodes']|] eqn:Hti; [|done].
  intros [= <-]. apply tarinfo_of_node_fields in Hti as (_ & _ & <-).
  by destruct mtime.
Qed.

Lemma tracked_member_name (h : host) self mtime inodes relpath nd m :
  tracked_member h self mtime inodes relpath nd = Some m ->
  TarInfo.name m.1 = member_name (os_path.join (tf_dir self) relpath).
Proof.
  unfold tracked_member.
  destruct (tarinfo_of_node _ _ _ _) as [[ti inodes']|] eqn:Hti; [|done].
  intros [= <-]. by apply tarinfo_of_node_fields in Hti as (<- & _ & _).
Qed.

Lemma generated_members_mtime (h : host) self files :
  Forall (fun m => TarInfo.mtime m.1 = 0%Z) (generated_members h self files).
Proof.
  unfold generated_members. apply Forall_app. split.
  - case_bool_decide; repeat constructor.
  - repeat constructor.
Qed.

(** C3, amended: when [SOURCE_DATE_EPOCH] is set and not empty, [build]
    reads it as an integer and gives it as modification time to the gzip
    wrapper and to every member made from a tracked file; when it is absent
    or empty, those members keep the modification time of their file and
    the wrapper gets the current time. The generated [setup.py] and
    [PKG-INFO] members have modification time 0 in both cases. *)
Theorem build_timestamps self target_dir w t w' :
  build self target_dir w = (Ok t, w') ->
  exists mtime st a v ms,
    epoch_is (on w) mtime
    /\ vcs (on w) !! Path.str (SdistBuilder.srcdir self) = Some v
    /\ fs w' !! Path.str t = Some (RegularFile st (Packed a))
    /\ gz_mtime a = default (now (on w)) mtime
    /\ members a = ms ++ generated_members (on w) self (files_to_add_of v)
    /\ Forall2 (fun relpath m =>
                  exists nd inodes,
                    tracked_member (on w) self mtime inodes relpath nd = Some m
                    /\ TarInfo.mtime m.1 = default (st_mtime (node_stat nd)) mtime
                    /\ (source_path self relpath <> Path.str t ->
                        forall nd0, fs w !! source_path self relpath = Some nd0 ->
                                    nd0 = nd))
               (files_to_add_of v) ms
    /\ Forall (fun m => TarInfo.mtime m.1 = 0%Z)
              (generated_members (on w) self (files_to_add_of v)).
Proof.
  intros (-> & _ & mtime & st & v & ms & Hepoch & Hv & _ & Hms & Hfs)%build_ok_members.
  eexists mtime, st, _, v, ms. split; [done|]. split; [done|]. split; [done|].
  split; [done|]. split; [done|]. split.
  - eapply Forall2_impl; [done|]. intros r m (nd & inodes & Hm & Hnd).
    exists nd, inodes.
    split; [done|]. split; [|done]. by eapply tracked_member_mtime.
  - apply generated_members_mtime.
Qed.

Lemma include_path_false (p : string) :
  include_path p = false <->
  (exists r, p = "dist/" +:+ r)
  \/ (exists pre post, p = pre +:+ "/__pycache__" +:+ post)
  \/ (exists pre, p = pre +:+ ".pyc").
Proof.
  unfold include_path. rewrite negb_false_iff, !orb_true_iff.
  rewrite startswith_iff, contains_iff, endswith_iff. tauto.
Qed.

Lemma files_to_add_sorted (v : vcs_mod) :
  StronglySorted String.le (files_to_add_of v)
  /\ files_to_add_of v ≡ₚ List.filter include_path (list_tracked_files v).
Proof.
  unfold files_to_add_of, Str.sorted. split.
  - apply StronglySorted_merge_sort; apply _.
  - apply merge_sort_Permutation.
Qed.

Lemma include_path_below_pycache (above below : list string) :
  above <> [] ->
  include_path (Str.join "/" (above ++ "__pycache__" :: below)) = false.
Proof.
  intros Habove. apply include_path_false. right. left.
  rewrite join_app by done.
  destruct below as [|n below].
  - exists (Str.join "/" above), "". by rewrite join_singleton.
  - exists (Str.join "/" above), ("/" +:+ Str.join "/" (n :: below)).
    by rewrite join_cons_cons.
Qed.

(** C5, amended: the filter drops a path exactly when it starts with
    [dist/], or holds the text [/__pycache__], or ends in [.pyc]; so it
    drops every path below a [__pycache__] directory that is not the first
    component of the path. The paths kept are sorted by code point, and the
    members of the archive made from files come in that order, before the
    generated ones. *)
Theorem tracked_files_filtered_and_sorted :
  (forall p,
     include_path p = false <->
     (exists r, p = "dist/" +:+ r)
     \/ (exists pre post, p = pre +:+ "/__pycache__" +:+ post)
     \/ (exists pre, p = pre +:+ ".pyc"))
  /\ (forall above below : list string,
        above <> [] ->
        include_path (Str.join "/" (above ++ "__pycache__" :: below)) = false)
  /\ (forall v,
        StronglySorted String.le (files_to_add_of v)
        /\ files_to_add_of v ≡ₚ List.filter include_path (list_tracked_files v))
  /\ (forall self target_dir w t w',
        build self target_dir w = (Ok t, w') ->
        exists st a v,
          vcs (on w) !! Path.str (SdistBuilder.srcdir self) = Some v
          /\ fs w' !! Path.str t = Some (RegularFile st (Packed a))
          /\ (fun m : TarInfo.t * string => TarInfo.name m.1) <$> members a
             = ((fun r => member_name (os_path.join (tf_dir self) r))
                  <$> files_to_add_of v)
               ++ ((fun m : TarInfo.t * string => TarInfo.name m.1)
                     <$> generated_members (on w) self (files_to_add_of v))).
Proof.
  split; [apply include_path_false|]. split; [apply include_path_below_pycache|].
  split; [apply files_to_add_sorted|].
  intros self target_dir w t w'.
  intros (-> & _ & mtime & st & v & ms & _ & Hv & _ & Hms & Hfs)%build_ok_members.
  eexists st, _, v. split; [done|]. split; [done|]. simpl.
  rewrite fmap_app. f_equal.
  clear Hfs. induction Hms as [|r m rs ms (nd & inodes & Hm & _) _ IH]; [done|].
  rewrite !fmap_cons, IH. f_equal. by eapply tracked_member_name.
Qed.

(** Under a given time stamp, the member made from a file and the inode
    table left depend on the view of the file only. *)
Lemma tracked_member_view (h1 h2 : host) self (n : Z) inodes relpath nd1 nd2 :
  source_view nd1 = source_view nd2 ->
  tracked_member h1 self (Some n) inodes relpath nd1
  = tracked_member h2 self (Some n) inodes relpath nd2
  /\ inodes_after h1 self inodes relpath nd1
     = inodes_after h2 self inodes relpath nd2.
Proof.
  unfold tracked_member, inodes_after, tarinfo_of_node, clean_tarinfo.
  generalize (member_name (os_path.join (tf_dir self) relpath)) as arcname.
  intros arcname.
  destruct nd1 as [[]|[]|[]|[]|[]], nd2 as [[]|[]|[]|[]|[]]; simpl;
    intros Hview; simplify_eq; [|done..].
  by repeat case_match; simplify_eq/=.
Qed.

Lemma make_setup_py_tree (h1 h2 : host) self :
  (Module_.is_package (SdistBuilder.module self) = true ->
   tree_at h2 (Module_.path (SdistBuilder.module self))
   = tree_at h1 (Module_.path (SdistBuilder.module self))) ->
  make_setup_py self h2 = make_setup_py self h1.
Proof.
  intros Htree. unfold make_setup_py.
  destruct (Module_.is_package _); [|done]. by rewrite Htree.
Qed.

(** Two builds that read the same sources under the same time stamp write
    the same archive. *)
Lemma same_sources_same_archive self target_dir w1 w2 t1 t2 w1' w2' :
  build self target_dir w1 = (Ok t1, w1') ->
  build self target_dir w2 = (Ok t2, w2') ->
  source_date_epoch (on w1) <> "" ->
  source_date_epoch (on w2) = source_date_epoch (on w1) ->
  vcs (on w2) !! Path.str (SdistBuilder.srcdir self)
  = vcs (on w1) !! Path.str (SdistBuilder.srcdir self) ->
  (Module_.is_package (SdistBuilder.module self) = true ->
   tree_at (on w2) (Module_.path (SdistBuilder.module self))
   = tree_at (on w1) (Module_.path (SdistBuilder.module self))) ->
  (forall v relpath,
     vcs (on w1) !! Path.str (SdistBuilder.srcdir self) = Some v ->
     relpath ∈ files_to_add_of v ->
     source_path self relpath <> Path.str (target_path self target_dir)
     /\ exists nd1 nd2,
          fs w1 !! source_path self relpath = Some nd1
          /\ fs w2 !! source_path self relpath = Some nd2
          /\ source_view nd1 = source_view nd2) ->
  t1 = t2
  /\ exists st1 st2 a,
       fs w1' !! Path.str t1 = Some (RegularFile st1 (Packed a))
       /\ fs w2' !! Path.str t2 = Some (RegularFile st2 (Packed a))
       /\ closed a = true.
Proof.
  intros (-> & _ & mtime1 & st1 & v1 & ms1 & Hepoch1 & Hv1 & _ & Hms1 & Hfs1)%build_ok.
  intros (-> & _ & mtime2 & st2 & v2 & ms2 & Hepoch2 & Hv2 & _ & Hms2 & Hfs2)%build_ok.
  intros Hset Hsame Hvcs Htree Hsrc.
  rewrite Hvcs, Hv1 in Hv2. injection Hv2 as <-.
  destruct Hepoch1 as [[? _]|(_ & n & Hn & ->)]; [done|].
  destruct Hepoch2 as [[Hempty _]|(_ & n2 & Hn2 & ->)]; [congruence|].
  rewrite Hsame, Hn in Hn2. injection Hn2 as <-.
  assert (ms2 = ms1) as ->.
  { clear Hfs1 Hfs2. specialize (Hsrc v1).
    revert ms2 Hms2.
    induction Hms1 as [inodes|inodes r nd1' m1 rs ms1 Hin1 Hm1 _ IH];
      intros ms2 Hms2.
    { by inversion Hms2. }
    inversion Hms2 as [|? ? nd2' m2 ? ms2' Hin2 Hm2 Hms2']; subst.
    destruct (Hsrc r Hv1) as (Hne & nd1 & nd2 & Hnd1 & Hnd2 & Hview); [by left|].
    rewrite <-(Hin1 Hne _ Hnd1) in Hm1, IH. rewrite <-(Hin2 Hne _ Hnd2) in Hm2, Hms2'.
    destruct (tracked_member_view (on w1) (on w2) self n inodes r nd1 nd2 Hview)
      as [Hm Hafter].
    f_equal; [congruence|].
    apply IH; [|by rewrite Hafter].
    intros relpath Hv Hin. apply Hsrc; [done|by right]. }
  split; [done|]. eexists st1, st2, _. split; [exact Hfs1|]. split; [|done].
  rewrite Hfs2. simpl. do 3 f_equal. f_equal. f_equal.
  unfold generated_members. by rewrite (make_setup_py_tree (on w1) (on w2)).
Qed.

(** C2, amended: two successful builds by the same builder to the same
    destination, with the same [SOURCE_DATE_EPOCH] that is set and not
    empty, the same version-control state and the same sources (kind,
    content or link target, mode, inode and number of links of every
    tracked file, and the package directory), write the same archive,
    whatever the clock, the owners and the time stamps of the files are. *)
Theorem build_deterministic self target_dir w1 w2 t1 t2 w1' w2' :
  build self target_dir w1 = (Ok t1, w1') ->
  build self target_dir w2 = (Ok t2, w2') ->
  source_date_epoch (on w1) <> "" ->
  source_date_epoch (on w2) = source_date_epoch (on w1) ->
  vcs (on w2) !! Path.str (SdistBuilder.srcdir self)
  = vcs (on w1) !! Path.str (SdistBuilder.srcdir self) ->
  (Module_.is_package (SdistBuilder.module self) = true ->
   tree_at (on w2) (Module_.path (SdistBuilder.module self))
   = tree_at (on w1) (Module_.path (SdistBuilder.module self))) ->
  (forall v relpath,
     vcs (on w1) !! Path.str (SdistBuilder.srcdir self) = Some v ->
     relpath ∈ files_to_add_of v ->
     source_path self relpath <> Path.str (target_path self target_dir)
     /\ exists nd1 nd2,
          fs w1 !! source_path self relpath = Some nd1
          /\ fs w2 !! source_path self relpath = Some nd2
          /\ source_view nd1 = source_view nd2) ->
  t1 = t2
  /\ exists st1 st2 a,
       fs w1' !! Path.str t1 = Some (RegularFile st1 (Packed a))
       /\ fs w2' !! Path.str t2 = Some (RegularFile st2 (Packed a))
       /\ closed a = true.
Proof. apply same_sources_same_archive. Qed.

(** Building again in the world the first build left, at another time or
    as another user, writes the same archive once more. *)
Corollary build_again self target_dir w t w' (h' : host) t2 w2' :
  build self target_dir w = (Ok t, w') ->
  build self target_dir {| on := h'; fs := fs w'; log := log w' |} = (Ok t2, w2') ->
  source_date_epoch (on w) <> "" ->
  source_date_epoch h' = source_date_epoch (on w) ->
  vcs h' !! Path.str (SdistBuilder.srcdir self)
  = vcs (on w) !! Path.str (SdistBuilder.srcdir self) ->
  (Module_.is_package (SdistBuilder.module self) = true ->
   tree_at h' (Module_.path (SdistBuilder.module self))
   = tree_at (on w) (Module_.path (SdistBuilder.module self))) ->
  (forall v relpath,
     vcs (on w) !! Path.str (SdistBuilder.srcdir self) = Some v ->
     relpath ∈ files_to_add_of v ->
     source_path self relpath <> Path.str (target_path self target_dir)
     /\ is_Some (fs w !! source_path self relpath)) ->
  t2 = t
  /\ exists st1 st2 a,
       fs w' !! Path.str t = Some (RegularFile st1 (Packed a))
       /\ fs w2' !! Path.str t = Some (RegularFile st2 (Packed a))
       /\ closed a = true.
Proof.
  intros Hb1 Hb2 Hset Hsame Hvcs Htree Hsrc.
  pose proof Hb1 as (Ht & _)%build_ok.
  destruct (same_sources_same_archive self target_dir w _ t t2 w' w2' Hb1 Hb2)
    as (<- & st1 & st2 & a & H1 & H2 & Hc); try done.
  - intros v relpath Hv Hin. destruct (Hsrc v relpath Hv Hin) as [Hne [nd Hnd]].
    split; [done|]. exists nd, nd. split; [done|]. split; [|done]. simpl.
    apply (build_frame self target_dir w t w'); [done|by rewrite Ht|done].
  - split; [done|]. by exists st1, st2, a.
Qed.

End build_claims.

#[local] Existing Instance Reference.externals.

Lemma build_untracked_fails_witness :
  exists e w', build Sample.builder None Sample.dirty_world = (Raise e, w').
Proof.
  destruct (build_untracked_fails Sample.builder None Sample.dirty_world
              (Sample.tracked_and ["notes.txt"])) as (e & w' & Hb & _).
  - reflexivity.
  - discriminate.
  - by exists e, w'.
Defined.

Lemma build_returns_archive_path_witness :
  build Sample.builder None Sample.clean_world
  = (Ok (Path.of_str "dist/foo-1.0.tar.gz"),
     (build Sample.builder None Sample.clean_world).2)
  /\ Path.of_str "dist/foo-1.0.tar.gz"
     = Path.div (destination Sample.builder None) (tf_dir Sample.builder +:+ ".tar.gz").
Proof.
  assert (build Sample.builder None Sample.clean_world
          = (Ok (Path.of_str "dist/foo-1.0.tar.gz"),
             (build Sample.builder None Sample.clean_world).2)) as Hb.
  { vm_compute. reflexivity. }
  split; [exact Hb|].
  exact (proj1 (build_returns_archive_path _ _ _ _ _ Hb)).
Defined.

(** C9 as stated fails: built with the default [flit.ini] and no
    destination, the path returned is [dist/foo-1.0.tar.gz], which is not
    absolute. *)
Lemma build_returns_relative_path :
  exists t w',
    build Sample.builder None Sample.clean_world = (Ok t, w')
    /\ Path.str t = "dist/foo-1.0.tar.gz"
    /\ Path.is_absolute t = false.
Proof. eexists _, _. split; [vm_compute; reflexivity|]. by split. Qed.

(** C1 as stated fails: the build of a work tree with an untracked file
    raises the error, and the destination file, absent before, exists
    afterwards. *)
Lemma build_untracked_creates_file :
  exists w',
    build Sample.builder None Sample.dirty_world
    = (Raise (untracked_error Sample.builder), w')
    /\ fs Sample.dirty_world !! "dist/foo-1.0.tar.gz" = None
    /\ exists st a, fs w' !! "dist/foo-1.0.tar.gz" = Some (RegularFile st (Packed a))
                    /\ members a = [].
Proof.
  eexists. split; [vm_compute; reflexivity|]. split; [reflexivity|].
  eexists _, _. split; [vm_compute; reflexivity|reflexivity].
Qed.

Lemma build_timestamps_witness :
  exists mtime st a v ms,
    epoch_is (on Sample.epoch_world) mtime
    /\ vcs (on Sample.epoch_world) !! Path.str (SdistBuilder.srcdir Sample.builder) = Some v
    /\ fs (build Sample.builder None Sample.epoch_world).2
         !! Path.str (Path.of_str "dist/foo-1.0.tar.gz")
       = Some (RegularFile st (Packed a))
    /\ gz_mtime a = default (now (on Sample.epoch_world)) mtime
    /\ members a = ms ++ generated_members (on Sample.epoch_world) Sample.builder
                          (files_to_add_of v)
    /\ Forall2 (fun relpath m =>
                  exists nd inodes,
                    tracked_member (on Sample.epoch_world) Sample.builder mtime
                                   inodes relpath nd
                    = Some m
                    /\ TarInfo.mtime m.1 = default (st_mtime (node_stat nd)) mtime
                    /\ (source_path Sample.builder relpath
                        <> Path.str (Path.of_str "dist/foo-1.0.tar.gz") ->
                        forall nd0,
                          fs Sample.epoch_world !! source_path Sample.builder relpath
                          = Some nd0 -> nd0 = nd))
               (files_to_add_of v) ms
    /\ Forall (fun m => TarInfo.mtime m.1 = 0%Z)
              (generated_members (on Sample.epoch_world) Sample.builder
                 (files_to_add_of v)).
Proof.
  apply (build_timestamps Sample.builder None Sample.epoch_world
           (Path.of_str "dist/foo-1.0.tar.gz")
           (build Sample.builder None Sample.epoch_world).2).
  vm_compute. reflexivity.
Defined.

(** C3 as stated fails: built with [SOURCE_DATE_EPOCH=1000000000], the
    archive holds the generated [PKG-INFO] with modification time 0. *)
Lemma build_generated_member_without_epoch :
  exists t w' st a m,
    environ (on Sample.epoch_world) !! "SOURCE_DATE_EPOCH" = Some "1000000000"
    /\ build Sample.builder None Sample.epoch_world = (Ok t, w')
    /\ fs w' !! Path.str t = Some (RegularFile st (Packed a))
    /\ m ∈ members a
    /\ TarInfo.name m.1 = "foo-1.0/PKG-INFO"
    /\ TarInfo.mtime m.1 = 0%Z
    /\ TarInfo.mtime m.1 <> 1000000000%Z.
Proof.
  eexists _, _, _, _, _. split; [reflexivity|].
  split; [vm_compute; reflexivity|]. split; [vm_compute; reflexivity|].
  split; [right; right; left|]. by repeat split.
Qed.

Lemma tracked_files_filtered_and_sorted_witness :
  exists st a v,
    vcs (on Sample.clean_world) !! Path.str (SdistBuilder.srcdir Sample.builder) = Some v
    /\ fs (build Sample.builder None Sample.clean_world).2
         !! Path.str (Path.of_str "dist/foo-1.0.tar.gz")
       = Some (RegularFile st (Packed a))
    /\ (fun m : TarInfo.t * string => TarInfo.name m.1) <$> members a
       = ((fun r => member_name (os_path.join (tf_dir Sample.builder) r))
            <$> files_to_add_of v)
         ++ ((fun m : TarInfo.t * string => TarInfo.name m.1)
               <$> generated_members (on Sample.clean_world) Sample.builder
                     (files_to_add_of v)).
Proof.
  apply (proj2 (proj2 (proj2 tracked_files_filtered_and_sorted))
           Sample.builder None Sample.clean_world
           (Path.of_str "dist/foo-1.0.tar.gz")
           (build Sample.builder None Sample.clean_world).2).
  vm_compute. reflexivity.
Defined.

(** C5 as stated fails: a path below a top-level [__pycache__] directory
    passes the filter. *)
Lemma include_path_top_level_pycache :
  Str.split "/" "__pycache__/notes.txt" = ["__pycache__"; "notes.txt"]
  /\ include_path "__pycache__/notes.txt" = true.
Proof. by split. Qed.

Lemma build_deterministic_witness :
  Path.of_str "dist/foo-1.0.tar.gz" = Path.of_str "dist/foo-1.0.tar.gz"
  /\ exists st1 st2 a,
       fs (build Sample.builder None Sample.epoch_world).2
         !! Path.str (Path.of_str "dist/foo-1.0.tar.gz")
       = Some (RegularFile st1 (Packed a))
       /\ fs (build Sample.builder None Sample.epoch_world_later).2
            !! Path.str (Path.of_str "dist/foo-1.0.tar.gz")
          = Some (RegularFile st2 (Packed a))
       /\ closed a = true.
Proof.
  apply (build_deterministic Sample.builder None
           Sample.epoch_world Sample.epoch_world_later
           (Path.of_str "dist/foo-1.0.tar.gz") (Path.of_str "dist/foo-1.0.tar.gz")
           (build Sample.builder None Sample.epoch_world).2
           (build Sample.builder None Sample.epoch_world_later).2).
  - vm_compute. reflexivity.
  - vm_compute. reflexivity.
  - discriminate.
  - reflexivity.
  - reflexivity.
  - discriminate.
  - intros v relpath [= <-] Hin.
    change (files_to_add_of (Sample.tracked_and [])) with ["foo.py"] in Hin.
    apply list_elem_of_singleton in Hin as ->.
    split; [discriminate|]. eexists _, _. by repeat split.
Defined.

(** C2 as stated fails: with [SOURCE_DATE_EPOCH] set to the empty text,
    two builds of the same work tree with the same metadata, run at two
    times, write archives that differ in the time stamp of the gzip
    wrapper. *)
Lemma build_empty_epoch_follows_clock :
  environ (on Sample.empty_epoch_world) !! "SOURCE_DATE_EPOCH" = Some ""
  /\ environ (on Sample.empty_epoch_world_later) !! "SOURCE_DATE_EPOCH" = Some ""
  /\ fs Sample.empty_epoch_world_later = fs Sample.empty_epoch_world
  /\ vcs (on Sample.empty_epoch_world_later) = vcs (on Sample.empty_epoch_world)
  /\ exists t w1' w2' st1 a1 st2 a2,
       build Sample.builder None Sample.empty_epoch_world = (Ok t, w1')
       /\ build Sample.builder None Sample.empty_epoch_world_later = (Ok t, w2')
       /\ fs w1' !! Path.str t = Some (RegularFile st1 (Packed a1))
       /\ fs w2' !! Path.str t = Some (RegularFile st2 (Packed a2))
       /\ gz_mtime a1 = 1600000000%Z /\ gz_mtime a2 = 1700000000%Z
       /\ a1 <> a2.
Proof.
  split; [reflexivity|]. split; [reflexivity|]. split; [reflexivity|].
  split; [reflexivity|].
  eexists _, _, _, _, _, _, _. split; [vm_compute; reflexivity|].
  split; [vm_compute; reflexivity|]. split; [vm_compute; reflexivity|].
  split; [vm_compute; reflexivity|]. split; [reflexivity|]. split; [reflexivity|].
  intros Heq%(f_equal gz_mtime). revert Heq. vm_compute. discriminate.
Qed.

(** Without [SOURCE_DATE_EPOCH] the archive depends on the clock: the gzip
    wrapper of the same work tree, built at two times, carries two stamps. *)
Remark build_without_epoch_follows_clock :
  exists st1 a1 st2 a2,
    fs (build Sample.builder None Sample.clean_world).2 !! "dist/foo-1.0.tar.gz"
    = Some (RegularFile st1 (Packed a1))
    /\ fs (build Sample.builder None Sample.clean_world_later).2 !! "dist/foo-1.0.tar.gz"
       = Some (RegularFile st2 (Packed a2))
    /\ gz_mtime a1 = 1600000000%Z /\ gz_mtime a2 = 1700000000%Z
    /\ members a1 = members a2.
Proof.
  eexists _, _, _, _. split; [vm_compute; reflexivity|].
  split; [vm_compute; reflexivity|]. by repeat split.
Qed.

(** * Further properties *)

(** ** Requirements: what [_parse_req] returns *)

Lemma split_first_some c (s l r : string) :
  Str.split_first c s = Some (l, r) ->
  s = l +:+ String c r /\ Str.has_char c l = false.
Proof.
  revert l. induction s as [|a s IH]; intros l; simpl; [done|].
  destruct (Ascii.eqb a c) eqn:Hac.
  - intros [= <- <-]. apply Ascii.eqb_eq in Hac as ->. by rewrite sapp_nil_l.
  - destruct (Str.split_first c s) as [[l' r']|]; [|done].
    intros [= <- <-]. destruct (IH l' eq_refl) as [-> Hl].
    by rewrite sapp_cons, has_char_cons, Hac, Hl.
Qed.

Lemma split_first_absent c (s : string) :
  Str.split_first c s = None -> Str.has_char c s = false.
Proof.
  induction s as [|a s IH]; simpl; [done|].
  rewrite has_char_cons. destruct (Ascii.eqb a c); [done|].
  destruct (Str.split_first c s) as [[l r]|]; [done|]. intros _. by apply IH.
Qed.

Lemma has_char_lstrip c (s : string) :
  Str.has_char c s = false -> Str.has_char c (Str.lstrip s) = false.
Proof.
  induction s as [|a s IH]; [done|]. simpl. destruct (Str.isspace a); [|done].
  rewrite has_char_cons. intros [_ Hs]%orb_false_iff. by apply IH.
Qed.

Lemma has_char_rstrip c (s : string) :
  Str.has_char c s = false -> Str.has_char c (Str.rstrip s) = false.
Proof.
  induction s as [|a s IH]; [done|]. rewrite has_char_cons.
  intros [Ha Hs]%orb_false_iff. simpl. specialize (IH Hs).
  destruct (Str.rstrip s) as [|b r].
  - destruct (Str.isspace a); [done|]. by rewrite has_char_cons, Ha.
  - by rewrite has_char_cons, Ha, IH.
Qed.

Lemma has_char_strip c (s : string) :
  Str.has_char c s = false -> Str.has_char c (Str.strip s) = false.
Proof. intros Hs. unfold Str.strip. by apply has_char_rstrip, has_char_lstrip. Qed.

Lemma has_char_replace c d (s : string) :
  Str.has_char c s = false -> Str.has_char c (Str.replace d "" s) = false.
Proof.
  induction s as [|a s IH]; [done|]. rewrite has_char_cons.
  intros [Ha Hs]%orb_false_iff. simpl. destruct (Ascii.eqb a d).
  - rewrite sapp_nil_l. by apply IH.
  - by rewrite has_char_cons, Ha, IH.
Qed.

Lemma rstrip_idemp (s : string) : Str.rstrip (Str.rstrip s) = Str.rstrip s.
Proof.
  induction s as [|a s IH]; [done|]. simpl.
  destruct (Str.rstrip s) as [|b r] eqn:Hr.
  - destruct (Str.isspace a) eqn:Ha; [done|]. simpl. by rewrite Ha.
  - simpl. simpl in IH. by rewrite IH.
Qed.

Lemma lstrip_rstrip (s : string) :
  Str.lstrip s = s -> Str.lstrip (Str.rstrip s) = Str.rstrip s.
Proof.
  destruct s as [|a s]; [done|]. simpl.
  destruct (Str.isspace a) eqn:Ha.
  - intros Hs. pose proof (lstrip_length s) as Hlen. rewrite Hs in Hlen.
    simpl in Hlen. lia.
  - intros _. destruct (Str.rstrip s); simpl; by rewrite Ha.
Qed.

Lemma lstrip_idemp (s : string) : Str.lstrip (Str.lstrip s) = Str.lstrip s.
Proof.
  induction s as [|a s IH]; [done|]. simpl.
  destruct (Str.isspace a) eqn:Ha; [done|]. simpl. by rewrite Ha.
Qed.

Lemma strip_idemp (s : string) : Str.strip (Str.strip s) = Str.strip s.
Proof.
  unfold Str.strip. rewrite (lstrip_rstrip (Str.lstrip s)) by apply lstrip_idemp.
  apply rstrip_idemp.
Qed.

(** X1: in a requirement with a semicolon, the text after the first
    semicolon, trimmed, is the environment marker, further semicolons
    included; the requirement text is what the text before the semicolon
    gives on its own. *)
Theorem parse_req_marker (name_version env_mark : string) :
  Str.has_char ";" name_version = false ->
  _parse_req (name_version +:+ ";" +:+ env_mark)
  = ((_parse_req name_version).1, Some (Str.strip env_mark)).
Proof.
  intros Hnv. unfold _parse_req.
  change (";" +:+ env_mark) with (String ";" env_mark).
  rewrite split_first_app, (split_first_none ";" name_version) by done.
  by destruct (Str.split_first "(" name_version) as [[name version]|].
Qed.

Lemma parse_req_marker_witness :
  _parse_req ("bar (>=2.0)" +:+ ";" +:+ " os_name == 'nt' ; x ")
  = ("bar>=2.0", Some "os_name == 'nt' ; x").
Proof. exact (parse_req_marker "bar (>=2.0)" " os_name == 'nt' ; x " eq_refl). Defined.

(** X2: the requirement text [_parse_req] returns never holds a semicolon,
    and the marker is [None] exactly when the input holds none. *)
Theorem parse_req_semicolon (requires_dist : string) :
  Str.has_char ";" (_parse_req requires_dist).1 = false
  /\ ((_parse_req requires_dist).2 = None <-> Str.has_char ";" requires_dist = false).
Proof.
  unfold _parse_req.
  assert (forall nv : string, Str.has_char ";" nv = false ->
            Str.has_char ";"
              match Str.split_first "(" nv with
              | Some (name, version) =>
                  Str.strip name +:+
                  (if negb (existsb (fun c => Str.has_char c
                                       (Str.strip (Str.replace ")" "" version)))
                              (String.list_ascii_of_string "=<>"))
                   then "==" +:+ Str.strip (Str.replace ")" "" version)
                   else Str.strip (Str.replace ")" "" version))
              | None => nv
              end = false) as Htext.
  { intros nv Hnv. destruct (Str.split_first "(" nv) as [[name version]|] eqn:Hs; [|done].
    apply split_first_some in Hs as [-> _].
    rewrite has_char_app, has_char_cons in Hnv.
    apply orb_false_iff in Hnv as [Hname [_ Hversion]%orb_false_iff].
    rewrite has_char_app, (has_char_strip _ name Hname). simpl orb.
    pose proof (has_char_strip _ _ (has_char_replace ";" ")" version Hversion)) as Hv.
    destruct (negb _); [|done]. by rewrite has_char_app, Hv. }
  destruct (Str.split_first ";" requires_dist) as [[nv m]|] eqn:Hs; simpl.
  - apply split_first_some in Hs as [-> Hnv]. split; [by apply Htext|].
    rewrite has_char_app, has_char_cons, Hnv. by split.
  - apply split_first_absent in Hs. split; [by apply Htext|done].
Qed.

(** X3: the marker [_parse_req] returns carries no white space at its
    ends. *)
Theorem parse_req_marker_trimmed (requires_dist env_mark : string) :
  (_parse_req requires_dist).2 = Some env_mark -> Str.strip env_mark = env_mark.
Proof.
  unfold _parse_req.
  destruct (Str.split_first ";" requires_dist) as [[nv m]|]; simpl; [|done].
  intros [= <-]. apply strip_idemp.
Qed.

Lemma parse_req_marker_trimmed_witness :
  Str.strip "python_version == '2.x'" = "python_version == '2.x'".
Proof.
  exact (parse_req_marker_trimmed "Foo (v);   python_version == '2.x'  " _ eq_refl).
Defined.

(** The version in parentheses, with any white space around the name, the
    parentheses and the version: a version with a comparison symbol is
    appended as it is, another one after [==]. *)
Lemma parse_req_parenthesised (name x w1 w2 w3 w4 : string) :
  Str.strip name = name -> Str.strip x = x ->
  Str.blank w1 = true -> Str.blank w2 = true ->
  Str.blank w3 = true -> Str.blank w4 = true ->
  Str.has_char ";" name = false -> Str.has_char "(" name = false ->
  Str.has_char ";" x = false -> Str.has_char ")" x = false ->
  _parse_req (name +:+ w1 +:+ "(" +:+ w2 +:+ x +:+ w3 +:+ ")" +:+ w4)
  = (name +:+ (if Str.has_char "=" x || Str.has_char "<" x || Str.has_char ">" x
               then x else "==" +:+ x), None).
Proof.
  intros Hname Hx H1 H2 H3 H4 Hn1 Hn2 Hx1 Hx2.
  unfold _parse_req.
  rewrite split_first_none; last first.
  { rewrite !has_char_app, Hn1, Hx1.
    rewrite (blank_has_char ";" w1), (blank_has_char ";" w2),
      (blank_has_char ";" w3), (blank_has_char ";" w4) by done.
    reflexivity. }
  rewrite <-(sapp_assoc name w1).
  change ("(" +:+ ?r) with (String "(" r).
  rewrite split_first_app; last first.
  { rewrite has_char_app, Hn2. by rewrite (blank_has_char "("). }
  rewrite <-(sapp_nil_l (name +:+ w1)) at 1.
  rewrite (strip_padded "" name w1) by done.
  rewrite !replace_app.
  rewrite (replace_absent _ _ w2), (replace_absent _ _ x), (replace_absent _ _ w3),
    (replace_absent _ _ w4) by (done || by apply blank_has_char).
  change (Str.replace ")" "" ")") with "". rewrite sapp_nil_l.
  rewrite (strip_padded w2 x (w3 +:+ w4)) by (done || by apply blank_app).
  simpl existsb. rewrite orb_false_r, orb_assoc. by destruct (_ || _ || _).
Qed.

(** X4: a requirement [Name (opX)] whose version holds a comparison symbol
    normalises to [NameopX]: the parentheses and the white space around them
    go, and no [==] is put in. *)
Theorem parse_req_comparison (name x w1 w2 w3 w4 : string) :
  Str.strip name = name -> Str.strip x = x ->
  Str.blank w1 = true -> Str.blank w2 = true ->
  Str.blank w3 = true -> Str.blank w4 = true ->
  Str.has_char ";" name = false -> Str.has_char "(" name = false ->
  Str.has_char ";" x = false -> Str.has_char ")" x = false ->
  Str.has_char "=" x || Str.has_char "<" x || Str.has_char ">" x = true ->
  _parse_req (name +:+ w1 +:+ "(" +:+ w2 +:+ x +:+ w3 +:+ ")" +:+ w4)
  = (name +:+ x, None).
Proof.
  intros ?????????? Hop. rewrite parse_req_parenthesised by done. by rewrite Hop.
Qed.

Lemma parse_req_comparison_witness :
  _parse_req ("bar" +:+ "  " +:+ "(" +:+ " " +:+ ">=2.0,<3" +:+ "" +:+ ")" +:+ " ")
  = ("bar" +:+ ">=2.0,<3", None).
Proof. by apply (parse_req_comparison "bar" ">=2.0,<3" "  " " " "" " "). Defined.

(** X5: a requirement with no semicolon and no opening parenthesis comes
    back as it is, white space included. *)
Theorem parse_req_plain (requires_dist : string) :
  Str.has_char ";" requires_dist = false ->
  Str.has_char "(" requires_dist = false ->
  _parse_req requires_dist = (requires_dist, None).
Proof.
  intros Hs Hp. unfold _parse_req. by rewrite !split_first_none.
Qed.

Lemma parse_req_plain_witness : _parse_req " docutils >=0.12 " = (" docutils >=0.12 ", None).
Proof. by apply parse_req_plain. Defined.

(** ** Requirements: the groups of [convert_requires] *)

Section more_dict_facts.
Context {K A : Type} `{EqDecision K}.
Implicit Types (d : list (K * list A)) (k : K).

Lemma append_nonempty k x d :
  Forall (fun kv => kv.2 <> []) d -> Forall (fun kv => kv.2 <> []) (Dict.append k x d).
Proof.
  induction d as [|[k0 xs] d IH]; simpl.
  - intros _. by repeat constructor.
  - intros [Hxs Hd]%Forall_cons. case_decide.
    + constructor; [|done]. simpl. by destruct xs.
    + constructor; [done|by apply IH].
Qed.

Lemma append_all_nonempty d (l : list (K * A)) :
  Forall (fun kv => kv.2 <> []) d -> Forall (fun kv => kv.2 <> []) (Dict.append_all d l).
Proof.
  unfold Dict.append_all. revert d.
  induction l as [|[k x] l IH]; intros d Hd; simpl; [done|].
  by apply IH, append_nonempty.
Qed.

Lemma keys_append_all_elem k d (l : list (K * A)) :
  NoDup d.*1 -> k ∈ (Dict.append_all d l).*1 <-> k ∈ d.*1 \/ k ∈ l.*1.
Proof.
  unfold Dict.append_all. revert d.
  induction l as [|[k' x] l IH]; intros d Hd; simpl.
  - rewrite elem_of_nil. naive_solver.
  - destruct (keys_append k' x d Hd) as [Hnd Hk].
    rewrite IH, Hk, elem_of_cons by done. naive_solver.
Qed.

Lemma get_some_elem_of k xs d : Dict.get k d = Some xs -> (k, xs) ∈ d.
Proof.
  induction d as [|[k0 ys] d IH]; simpl; [done|].
  case_decide as Hk.
  - intros [= <-]. subst. by left.
  - intros Hg. right. by apply IH.
Qed.

Lemma get_key k d : k ∈ d.*1 -> is_Some (Dict.get k d).
Proof.
  induction d as [|[k0 ys] d IH]; simpl; [by intros ?%elem_of_nil|].
  case_decide as Hk; [by eexists|].
  intros [?|Hin]%elem_of_cons; [done|]. by apply IH.
Qed.

Lemma pop_rest_elem k (dflt : list A) d k' xs :
  (k', xs) ∈ d -> k' <> k -> (k', xs) ∈ (Dict.pop k dflt d).2.
Proof.
  induction d as [|[k0 ys] d IH]; simpl; [by intros ?%elem_of_nil|].
  intros Hin Hk. case_decide as Hk0; simpl.
  - apply elem_of_cons in Hin as [?|Hin]; [simplify_eq|done].
  - destruct (Dict.pop k dflt d) as [r d'] eqn:Hp. simpl in *.
    apply elem_of_cons in Hin as [?|Hin]; [simplify_eq; by left|].
    right. by apply IH.
Qed.

Lemma pop_rest_NoDup k (dflt : list A) d :
  NoDup d.*1 -> NoDup (Dict.pop k dflt d).2.*1.
Proof.
  induction d as [|[k0 ys] d IH]; simpl; [done|].
  intros [Hk0 Hd]%NoDup_cons. case_decide as Hk; simpl; [done|].
  pose proof (pop_rest k dflt d) as Hrest.
  destruct (Dict.pop k dflt d) as [r d'] eqn:Hp. simpl in *.
  apply NoDup_cons. split; [|by apply IH].
  intros ([k1 xs] & ? & Hin)%list_elem_of_fmap. simpl in *. subst k1.
  apply Hk0. apply list_elem_of_fmap. exists (k0, xs).
  split; [done|]. by apply (Hrest k0 xs).
Qed.

End more_dict_facts.

(** A key that no group of [l] is filed under keeps its value. *)
Lemma extras_lookup_other (l : list ((string * option string) * list string))
    (m0 : gmap string (list string)) key :
  (forall k vs, (k, vs) ∈ l -> extras_key k.1 k.2 <> key) ->
  foldl (fun (extra_reqs : gmap string (list string)) '((extra, env_mark), reqs) =>
           <[extras_key extra env_mark := reqs]> extra_reqs) m0 l !! key = m0 !! key.
Proof.
  revert m0. induction l as [|[[extra env_mark] reqs] l IH]; intros m0 Hl; simpl; [done|].
  rewrite IH.
  - apply lookup_insert_ne. apply (Hl (extra, env_mark) reqs). by left.
  - intros k vs Hin. apply (Hl k vs). by right.
Qed.

(** The group that alone is filed under its key is found there. *)
Lemma extras_lookup_unique (l : list ((string * option string) * list string))
    (m0 : gmap string (list string)) k vs :
  NoDup l.*1 -> (k, vs) ∈ l ->
  (forall k' vs', (k', vs') ∈ l -> extras_key k'.1 k'.2 = extras_key k.1 k.2 -> k' = k) ->
  foldl (fun (extra_reqs : gmap string (list string)) '((extra, env_mark), reqs) =>
           <[extras_key extra env_mark := reqs]> extra_reqs) m0 l
    !! extras_key k.1 k.2 = Some vs.
Proof.
  revert m0. induction l as [|[[extra env_mark] reqs] l IH]; intros m0; simpl;
    [by intros _ ?%elem_of_nil|].
  intros [Hk0 Hnd]%NoDup_cons [Heq|Hin]%elem_of_cons Huniq.
  - simplify_eq. simpl. rewrite extras_lookup_other; [apply lookup_insert_eq|].
    intros k' vs' Hin' Hkey.
    assert (k' = (extra, env_mark)) as -> by (apply (Huniq k' vs'); [by right|done]).
    apply Hk0. apply list_elem_of_fmap. by exists ((extra, env_mark), vs').
  - apply IH; [done..|]. intros k' vs' Hin'. apply (Huniq k' vs'). by right.
Qed.

Lemma group_reqs_nonempty reqs_by_extra :
  Forall (fun kv => kv.2 <> []) (group_reqs reqs_by_extra).
Proof. rewrite group_reqs_filings. by apply append_all_nonempty. Qed.

Lemma group_reqs_NoDup reqs_by_extra : NoDup (group_reqs reqs_by_extra).*1.
Proof. rewrite group_reqs_filings. apply keys_append_all. constructor. Qed.

Lemma group_reqs_elem_of k reqs_by_extra :
  k ∈ (filings reqs_by_extra).*1 ->
  (k, group_texts k reqs_by_extra) ∈ group_reqs reqs_by_extra.
Proof.
  intros Hk. rewrite group_reqs_filings.
  assert (is_Some (Dict.get k (Dict.append_all [] (filings reqs_by_extra)))) as [xs Hxs].
  { apply get_key. apply keys_append_all_elem; [constructor|]. by right. }
  pose proof (values_of_append_all k [] (filings reqs_by_extra)) as Hv.
  unfold Dict.values_of in Hv at 1. rewrite Hxs in Hv. simpl in Hv.
  apply get_some_elem_of. by rewrite Hxs, Hv.
Qed.

(** X6: [convert_requires] files no empty group: every key of the extras
    mapping holds at least one requirement, so an extra that lists no
    requirement gets no key. *)
Theorem convert_requires_no_empty_group (reqs_by_extra : list (string * list string))
    (key : string) (reqs : list string) :
  (convert_requires reqs_by_extra).2 !! key = Some reqs -> reqs <> [].
Proof.
  unfold convert_requires.
  pose proof (pop_rest (".none", None) [] (group_reqs reqs_by_extra)) as Hrest.
  destruct (Dict.pop _ _ _) as [install_reqs grouping]. simpl in *.
  intros [Hm|(extra & em & Hin & ->)]%extras_lookup; [done|].
  destruct (Hrest _ _ (group_reqs_NoDup _) Hin) as [Hg _].
  pose proof (group_reqs_nonempty reqs_by_extra) as Hne.
  rewrite Forall_forall in Hne. by apply (Hne _ Hg).
Qed.

Lemma convert_requires_no_empty_group_witness :
  ["pytest"] <> []
  /\ (convert_requires [(".none", ["requests"]); ("doc", []); ("test", ["pytest"])]).2
     = {[ "test" := ["pytest"] ]}.
Proof.
  split; [|reflexivity].
  by apply (convert_requires_no_empty_group
              [(".none", ["requests"]); ("doc", []); ("test", ["pytest"])] "test").
Defined.

(** X7: a group of requirements (one extra, one marker) other than the base
    group, whose key no other group shares, is found in the extras mapping
    under its key: the normalised texts of its requirements in the order
    they are declared, duplicates kept. *)
Theorem convert_requires_group (reqs_by_extra : list (string * list string))
    (extra : string) (env_mark : option string) :
  (exists reqs req,
     (extra, reqs) ∈ reqs_by_extra /\ req ∈ reqs /\ (_parse_req req).2 = env_mark) ->
  (extra, env_mark) <> (".none", None) ->
  (forall extra' reqs' req',
     (extra', reqs') ∈ reqs_by_extra -> req' ∈ reqs' ->
     (extra', (_parse_req req').2) <> (".none", None) ->
     extras_key extra' (_parse_req req').2 = extras_key extra env_mark ->
     extra' = extra /\ (_parse_req req').2 = env_mark) ->
  (convert_requires reqs_by_extra).2 !! extras_key extra env_mark
  = Some (group_texts (extra, env_mark) reqs_by_extra).
Proof.
  intros (reqs & req & Hin & Hreq & Hmark) Hbase Huniq.
  assert ((extra, env_mark) ∈ (filings reqs_by_extra).*1) as Hk.
  { apply list_elem_of_fmap. exists (filed extra req). split.
    - unfold filed. simpl. by rewrite Hmark.
    - apply (filings_elem_of (extra, (_parse_req req).2) (_parse_req req).1).
      by exists extra, reqs, req. }
  apply group_reqs_elem_of in Hk.
  unfold convert_requires.
  pose proof (pop_rest (".none", None) [] (group_reqs reqs_by_extra)) as Hrest.
  pose proof (pop_rest_elem (".none", None) [] (group_reqs reqs_by_extra)) as Helem.
  pose proof (pop_rest_NoDup (".none", None) [] (group_reqs reqs_by_extra)
                (group_reqs_NoDup _)) as Hnd.
  destruct (Dict.pop _ _ _) as [install_reqs grouping]. simpl in *.
  apply (extras_lookup_unique grouping ∅ (extra, env_mark)); [done|by apply Helem|].
  intros [extra' em'] vs' Hin' Hkey. simpl in Hkey.
  destruct (Hrest _ _ (group_reqs_NoDup _) Hin') as [Hg Hne].
  pose proof (group_reqs_nonempty reqs_by_extra) as Hnonempty.
  rewrite Forall_forall in Hnonempty. specialize (Hnonempty _ Hg). simpl in Hnonempty.
  apply (get_elem_of _ _ _ (group_reqs_NoDup _)) in Hg.
  pose proof (values_of_append_all (extra', em') [] (filings reqs_by_extra)) as Hv.
  rewrite <-group_reqs_filings in Hv. unfold Dict.values_of in Hv at 1.
  rewrite Hg in Hv. simpl in Hv.
  destruct vs' as [|nv vs']; [done|].
  assert (nv ∈ (filter (fun kx => kx.1 = (extra', em')) (filings reqs_by_extra)).*2)
    as Hnv by (rewrite <-Hv; by left).
  apply list_elem_of_fmap in Hnv as ([k nv'] & _ & [Hk' Hf]%list_elem_of_filter).
  simpl in Hk'. subst k.
  apply filings_elem_of in Hf as (extra0 & reqs0 & req0 & Hin0 & Hreq0 & Hfiled).
  unfold filed in Hfiled. injection Hfiled as -> <- _.
  destruct (Huniq extra' reqs0 req0) as [-> ->]; done.
Qed.

Lemma convert_requires_group_witness :
  (convert_requires
     [(".none", ["requests (2.18)"; "pywin32; os_name == 'nt'"]);
      ("test", ["pytest"; "mock (>=2.0)"; "pytest"])]).2 !! "test"
  = Some ["pytest"; "mock>=2.0"; "pytest"].
Proof.
  apply (convert_requires_group
           [(".none", ["requests (2.18)"; "pywin32; os_name == 'nt'"]);
            ("test", ["pytest"; "mock (>=2.0)"; "pytest"])] "test" None).
  - exists ["pytest"; "mock (>=2.0)"; "pytest"], "pytest".
    split; [by right; left|]. split; [by left|reflexivity].
  - discriminate.
  - intros extra' reqs' req' Hin Hreq Hbase.
    rewrite !elem_of_cons, elem_of_nil in Hin.
    destruct Hin as [Hin|[Hin|[]]]; injection Hin as -> ->;
      rewrite !elem_of_cons, elem_of_nil in Hreq;
      repeat (destruct Hreq as [->|Hreq]); try done; by vm_compute.
Defined.

(** Two groups filed under one key: the later one replaces the earlier. *)
Remark convert_requires_key_collision :
  convert_requires [("a", ["x; m"]); ("a:m", ["y"])] = ([], {[ "a:m" := ["y"] ]}).
Proof. reflexivity. Qed.

(** ** Package discovery: what holds of every tree *)

Lemma split_nonempty c (s : string) : Str.split c s <> [].
Proof.
  destruct s as [|a s]; simpl; [done|].
  destruct (Ascii.eqb a c); [done|]. by destruct (Str.split c s).
Qed.

Lemma split_no_sep c (s : string) :
  Forall (fun t => Str.has_char c t = false) (Str.split c s).
Proof.
  induction s as [|a s IH]; simpl; [by repeat constructor|].
  destruct (Ascii.eqb a c) eqn:Hac; [by constructor|].
  destruct (Str.split c s) as [|w ws]; [by repeat constructor; rewrite has_char_cons, Hac|].
  apply Forall_cons in IH as [Hw Hws]. constructor; [|done].
  by rewrite has_char_cons, Hac, Hw.
Qed.

Lemma join_split c (s : string) : Str.join (String c "") (Str.split c s) = s.
Proof.
  induction s as [|a s IH]; [done|]. simpl.
  destruct (Ascii.eqb a c) eqn:Hac.
  - apply Ascii.eqb_eq in Hac as ->.
    rewrite join_cons by apply split_nonempty. by rewrite IH, sapp_nil_l.
  - pose proof (split_nonempty c s) as Hne.
    destruct (Str.split c s) as [|w ws]; [done|].
    destruct ws as [|w' ws].
    + rewrite join_singleton in *. by subst.
    + rewrite join_cons_cons in *. by rewrite sapp_cons, IH.
Qed.

Lemma split_app_sep c (s t : string) :
  Str.split c (s +:+ String c t) = Str.split c s ++ Str.split c t.
Proof.
  induction s as [|a s IH].
  - rewrite sapp_nil_l. simpl. by rewrite Ascii.eqb_refl.
  - rewrite sapp_cons. simpl. destruct (Ascii.eqb a c); [by rewrite IH|].
    rewrite IH. pose proof (split_nonempty c s) as Hne.
    by destruct (Str.split c s).
Qed.

(** The components joined with another separator: the text with the
    separator replaced. *)
Lemma join_split_replace c d (s : string) :
  Str.join (String d "") (Str.split c s) = Str.replace c (String d "") s.
Proof.
  induction s as [|a s IH]; [done|]. simpl.
  destruct (Ascii.eqb a c) eqn:Hac.
  - rewrite join_cons by apply split_nonempty. by rewrite IH, sapp_nil_l.
  - pose proof (split_nonempty c s) as Hne.
    destruct (Str.split c s) as [|w ws]; [done|].
    destruct ws as [|w' ws].
    + rewrite join_singleton in *. by subst.
    + rewrite join_cons_cons in *. by rewrite sapp_cons, IH.
Qed.

Lemma join_take_length sep (l : list string) i j :
  j <= i -> String.length (Str.join sep (take j l)) <= String.length (Str.join sep (take i l)).
Proof.
  intros Hji.
  assert (take i l = take j l ++ drop j (take i l)) as Hsplit.
  { rewrite <-(take_drop j (take i l)) at 1. f_equal.
    rewrite take_take. f_equal. lia. }
  rewrite Hsplit.
  destruct (take j l) as [|s l1] eqn:H1; [rewrite join_nil; simpl; lia|].
  destruct (drop j (take i l)) as [|t l2] eqn:H2; [by rewrite app_nil_r|].
  rewrite join_app, !sapp_length by done. lia.
Qed.

(** What [find_nearest_pkg] returns, by the components of the path. *)
Lemma find_nearest_pkg_cases pkg_name (subpkg_paths : gset string) (rel_path : string) :
  let parts := Str.split "/" rel_path in
  (find_nearest_pkg pkg_name subpkg_paths rel_path = (pkg_name, rel_path)
   /\ forall j, 1 <= j <= length parts - 1 -> Str.join "/" (take j parts) ∉ subpkg_paths)
  \/ exists i,
       1 <= i <= length parts - 1
       /\ Str.join "/" (take i parts) ∈ subpkg_paths
       /\ (forall j, i < j <= length parts - 1 ->
             Str.join "/" (take j parts) ∉ subpkg_paths)
       /\ find_nearest_pkg pkg_name subpkg_paths rel_path
          = (Str.join "." (pkg_name :: take i parts), Str.join "/" (drop i parts)).
Proof.
  intros parts. unfold find_nearest_pkg. fold parts.
  pose proof (find_rev_seq
                (fun i => bool_decide (Str.join "/" (take i parts) ∈ subpkg_paths))
                (length parts - 1)) as Hfind.
  destruct (find _ _) as [i|].
  - right. exists i. destruct Hfind as (Hi & Hin%bool_decide_eq_true & Hlater).
    repeat split; try done; try lia.
    intros j Hj. by eapply bool_decide_eq_false_1, Hlater.
  - left. split; [done|]. intros j Hj. by eapply bool_decide_eq_false_1, Hfind.
Qed.

(** A proper ancestor of a path, as text, is a prefix of its components. *)
Lemma ancestor_parts (rel_path anc rest : string) :
  rel_path = anc +:+ "/" +:+ rest ->
  exists j, 1 <= j <= length (Str.split "/" rel_path) - 1
            /\ Str.join "/" (take j (Str.split "/" rel_path)) = anc.
Proof.
  intros ->. change ("/" +:+ rest) with (String "/" rest). rewrite split_app_sep.
  exists (length (Str.split "/" anc)).
  pose proof (split_nonempty "/" anc) as Ha. pose proof (split_nonempty "/" rest) as Hr.
  rewrite length_app, take_app_length, join_split. split; [|done].
  destruct (Str.split "/" anc), (Str.split "/" rest); simpl; try done. lia.
Qed.

Lemma take_parts_join (rel_path : string) i :
  1 <= i <= length (Str.split "/" rel_path) - 1 ->
  rel_path = Str.join "/" (take i (Str.split "/" rel_path)) +:+ "/"
             +:+ Str.join "/" (drop i (Str.split "/" rel_path))
  /\ Str.split "/" (Str.join "/" (take i (Str.split "/" rel_path)))
     = take i (Str.split "/" rel_path).
Proof.
  intros Hi.
  assert (take i (Str.split "/" rel_path) <> []) as Htake.
  { intros Hnil%(f_equal length). rewrite length_take in Hnil. simpl in Hnil. lia. }
  assert (drop i (Str.split "/" rel_path) <> []) as Hdrop.
  { intros Hnil%(f_equal length). rewrite length_drop in Hnil. simpl in Hnil. lia. }
  split.
  - rewrite <-join_app by done. by rewrite take_drop, join_split.
  - apply split_join; [done|]. apply Forall_take, split_no_sep.
Qed.

(** On a POSIX host the closure [find_nearest_pkg] gives a directory to the
    longest of its proper ancestors that is a known sub-package. *)
Lemma find_nearest_pkg_posix_ancestor (pkg_name : string)
    (subpkg_paths : gset string) (rel_path : string) :
  (find_nearest_pkg pkg_name subpkg_paths rel_path = (pkg_name, rel_path)
   /\ forall anc rest, rel_path = anc +:+ "/" +:+ rest -> anc ∉ subpkg_paths)
  \/ exists anc rest,
       rel_path = anc +:+ "/" +:+ rest
       /\ anc ∈ subpkg_paths
       /\ find_nearest_pkg pkg_name subpkg_paths rel_path
          = (pkg_name +:+ "." +:+ Str.replace "/" "." anc, rest)
       /\ forall anc' rest',
            rel_path = anc' +:+ "/" +:+ rest' -> anc' ∈ subpkg_paths ->
            String.length anc' <= String.length anc.
Proof.
  destruct (find_nearest_pkg_cases pkg_name subpkg_paths rel_path)
    as [[Hfind Hnone]|(i & Hi & Hin & Hlater & Hfind)].
  - left. split; [done|]. intros anc rest (j & Hj & <-)%ancestor_parts.
    by apply Hnone.
  - right. destruct (take_parts_join rel_path i Hi) as [Hrel Hsplit].
    exists (Str.join "/" (take i (Str.split "/" rel_path))),
           (Str.join "/" (drop i (Str.split "/" rel_path))).
    split; [done|]. split; [done|]. split.
    + rewrite Hfind. f_equal.
      rewrite <-join_split_replace, Hsplit.
      apply join_cons. intros Hnil. by rewrite Hnil in Hsplit.
    + intros anc' rest' (j & Hj & <-)%ancestor_parts Hin'.
      apply join_take_length.
      destruct (decide (j <= i)) as [|Hlt]; [done|].
      destruct (Hlater j); [lia|done].
Qed.

(** Where [os.sep] is [/], the closure is the one of a POSIX host. *)
Lemma find_nearest_pkg_sep `{os.flavour} (pkg_name : string)
    (subpkg_paths : gset string) (rel_path : string) :
  os.sep = "/"%char ->
  find_nearest_pkg pkg_name subpkg_paths rel_path
  = @find_nearest_pkg posix pkg_name subpkg_paths rel_path.
Proof. intros Hsep. unfold find_nearest_pkg. by rewrite Hsep. Qed.

(** X8: where [os.sep] is [/], the closure [find_nearest_pkg] gives a
    directory to the longest of its proper ancestors that is a known
    sub-package, together with the path from there, and names the package
    by the ancestor with dots for slashes; with no such ancestor it gives
    the directory, under its whole path, to the top-level package. *)
Theorem find_nearest_pkg_longest_ancestor `{os.flavour} (pkg_name : string)
    (subpkg_paths : gset string) (rel_path : string) :
  os.sep = "/"%char ->
  (find_nearest_pkg pkg_name subpkg_paths rel_path = (pkg_name, rel_path)
   /\ forall anc rest, rel_path = anc +:+ "/" +:+ rest -> anc ∉ subpkg_paths)
  \/ exists anc rest,
       rel_path = anc +:+ "/" +:+ rest
       /\ anc ∈ subpkg_paths
       /\ find_nearest_pkg pkg_name subpkg_paths rel_path
          = (pkg_name +:+ "." +:+ Str.replace "/" "." anc, rest)
       /\ forall anc' rest',
            rel_path = anc' +:+ "/" +:+ rest' -> anc' ∈ subpkg_paths ->
            String.length anc' <= String.length anc.
Proof.
  intros Hsep. rewrite (find_nearest_pkg_sep _ _ _ Hsep).
  apply find_nearest_pkg_posix_ancestor.
Qed.

(** Where [os.sep] is the backslash, a known sub-package two levels down is
    not found: the closure looks for [a/b] where [a\b] is recorded. *)
Example find_nearest_pkg_on_windows :
  @find_nearest_pkg windows "pkg"
     {[ "a"; Str.join (String ntpath.sep "") ["a"; "b"] ]}
     (Str.join (String ntpath.sep "") ["a"; "b"; "static"])
  = ("pkg.a", "b/static").
Proof. vm_compute. reflexivity. Qed.

Lemma find_nearest_pkg_longest_ancestor_witness :
  exists anc rest,
    "a/b/static" = anc +:+ "/" +:+ rest
    /\ anc ∈ ({[ "a"; "a/b" ]} : gset string)
    /\ find_nearest_pkg "pkg" {[ "a"; "a/b" ]} "a/b/static"
       = ("pkg" +:+ "." +:+ Str.replace "/" "." anc, rest).
Proof.
  destruct (find_nearest_pkg_longest_ancestor (H := posix) "pkg"
              {[ "a"; "a/b" ]} "a/b/static" eq_refl)
    as [[Hroot _]|(anc & rest & Hrel & Hin & Hfind & _)].
  - exfalso. revert Hroot. vm_compute. discriminate.
  - by exists anc, rest.
Defined.

(** *** What the loop keeps *)

Section loop_invariant.
Variables pkgdir pkg_name : string.
Implicit Types (st : discovery) (e : walk_entry) (l : list walk_entry).

Lemma step_keys_are_packages st e :
  keys_are_packages pkg_name st ->
  keys_are_packages pkg_name (walk_step pkgdir pkg_name st e).
Proof.
  intros (Hkeys & Hsub & Htop). destruct e as [[p dn] fs]. unfold walk_step.
  case_bool_decide; [done|]. case_bool_decide; [done|].
  case_bool_decide.
  - split; [|split]; simpl.
    + intros k Hk. destruct (Hkeys k Hk) as [->|Hin]; [by left|].
      right. apply elem_of_app. by left.
    + intros x [->%elem_of_singleton|Hx]%elem_of_union.
      * apply elem_of_app. right. by left.
      * apply elem_of_app. left. by apply Hsub.
    + apply elem_of_app. by left.
  - destruct (find_nearest_pkg_cases pkg_name (subpkg_paths st) (os_path.walk_relpath p))
      as [[Hfind _]|(i & Hi & Hin & _ & Hfind)]; rewrite Hfind.
    + split; [|done]. simpl. intros k [->|[_ Hk]]%lookup_insert_is_Some.
      * by right.
      * by apply Hkeys.
    + split; [|done]. simpl. intros k [<-|[_ Hk]]%lookup_insert_is_Some.
      * right. apply Hsub in Hin. cbn [os.sep posix] in Hin.
        by rewrite (proj2 (take_parts_join _ i Hi)) in Hin.
      * by apply Hkeys.
Qed.

Lemma fold_keys_are_packages st l :
  keys_are_packages pkg_name st ->
  keys_are_packages pkg_name (foldl (walk_step pkgdir pkg_name) st l).
Proof.
  revert st. induction l as [|e l IH]; intros st Hst; simpl; [done|].
  by apply IH, step_keys_are_packages.
Qed.

End loop_invariant.

Lemma init_keys_are_packages pkg_name :
  keys_are_packages pkg_name (discovery_init pkg_name).
Proof.
  split; [|split]; simpl.
  - intros k [v Hk]. apply lookup_singleton_Some in Hk as [<- _]. by left.
  - by intros x ?%elem_of_empty.
  - by left.
Qed.

(** X9: whatever the tree, [auto_packages] files package data only under
    the catch-all key or under a package of the list it returns. *)
Theorem auto_packages_data_keys (pkgdir : string) (tree : dir) (k : string) :
  is_Some ((auto_packages pkgdir tree).2 !! k) ->
  k = "" \/ k ∈ (auto_packages pkgdir tree).1.
Proof.
  change ((auto_packages pkgdir tree).2)
    with (Str.sorted <$> pkg_data (discovery_after pkgdir (os_walk [] tree))).
  change ((auto_packages pkgdir tree).1)
    with (Str.sorted (packages (discovery_after pkgdir (os_walk [] tree)))).
  rewrite lookup_fmap, fmap_is_Some, sorted_elem_of.
  apply (fold_keys_are_packages (os_path.normpath pkgdir) (pkg_name_of pkgdir)).
  apply init_keys_are_packages.
Qed.

Lemma auto_packages_data_keys_witness :
  "pkg.a.b" = "" \/ "pkg.a.b" ∈ (auto_packages "src/pkg" Sample.nested_tree).1.
Proof. apply auto_packages_data_keys. vm_compute. by eexists. Defined.

(** X10: whatever the tree, the top-level package is in the list
    [auto_packages] returns and the catch-all key holds the pattern [*];
    for a directory with no sub-directories there is nothing else. *)
Theorem auto_packages_defaults (pkgdir : string) (tree : dir) :
  pkg_name_of pkgdir ∈ (auto_packages pkgdir tree).1
  /\ (exists l, (auto_packages pkgdir tree).2 !! "" = Some l /\ "*" ∈ l)
  /\ (forall filenames,
        auto_packages pkgdir (Dir filenames [])
        = ([pkg_name_of pkgdir], {[ "" := ["*"] ]})).
Proof.
  change ((auto_packages pkgdir tree).2)
    with (Str.sorted <$> pkg_data (discovery_after pkgdir (os_walk [] tree))).
  change ((auto_packages pkgdir tree).1)
    with (Str.sorted (packages (discovery_after pkgdir (os_walk [] tree)))).
  split; [|split].
  - apply sorted_elem_of, fold_packages. left. by left.
  - assert ("*" ∈ pkg_data (discovery_after pkgdir (os_walk [] tree)) !!! "") as Hstar.
    { apply fold_pkg_data_mono. simpl. rewrite lookup_total_singleton. by left. }
    rewrite lookup_fmap. rewrite lookup_total_alt in Hstar.
    destruct (pkg_data _ !! "") as [l|]; simpl in *.
    + exists (Str.sorted l). split; [done|]. by apply sorted_elem_of.
    + by apply elem_of_nil in Hstar.
  - intros filenames. unfold auto_packages. fold (pkg_name_of pkgdir). simpl.
    case_bool_decide; simpl; by rewrite map_fmap_singleton.
Qed.

(** X11: in a well-formed tree the packages [auto_packages] returns are the
    top-level package and, for each directory below the top that holds
    [__init__.py] and is not named [__pycache__], the dotted path to it;
    nothing else. *)
Theorem auto_packages_registered (pkgdir : string) (tree : dir) (x : string) :
  wf_dir tree = true ->
  x ∈ (auto_packages pkgdir tree).1 <->
  x = pkg_name_of pkgdir
  \/ exists q, is_subpkg tree q /\ x = Str.join "." (pkg_name_of pkgdir :: q).
Proof.
  intros Hwf.
  change ((auto_packages pkgdir tree).1)
    with (Str.sorted (packages (discovery_after pkgdir (os_walk [] tree)))).
  rewrite sorted_elem_of. unfold discovery_after. rewrite fold_packages. simpl.
  rewrite list_elem_of_singleton. split.
  - intros [->|(e & Hin & Hreg & ->)]; [by left|]. right.
    destruct (registers_walk_entry pkgdir tree e Hin Hreg) as (Hne & Hlast & Hinit).
    pose proof (walk_entry_wf tree Hwf e Hin) as Hq.
    exists e.1.1. rewrite split_relpath by done. split; [|done].
    split; [done|]. split; [done|]. destruct e as [[q dn] fs]. by exists dn, fs.
  - intros [->|(q & (Hne & Hlast & dn & fs & Hin & Hinit) & ->)]; [by left|]. right.
    pose proof (walk_entry_wf tree Hwf _ Hin) as Hq. simpl in Hq.
    exists (q, dn, fs). split; [done|]. split.
    + split; [by apply walk_basename_last|]. split; [|done]. by apply relpath_not_dot.
    + simpl. by rewrite split_relpath.
Qed.

Lemma auto_packages_registered_witness :
  "pkg.mid.deep" ∈ (auto_packages "pkg" Sample.gap_tree).1
  <-> "pkg.mid.deep" = pkg_name_of "pkg"
      \/ exists q, is_subpkg Sample.gap_tree q
                   /\ "pkg.mid.deep" = Str.join "." (pkg_name_of "pkg" :: q).
Proof. by apply auto_packages_registered. Defined.

(** *** One pattern for each data directory *)

Lemma pattern_count_append (m : gmap string (list string)) k x :
  pattern_count (<[k := (m !!! k) ++ [x]]> m) = S (pattern_count m).
Proof.
  unfold pattern_count. rewrite lookup_total_alt.
  destruct (m !! k) as [l|] eqn:Hk; simpl.
  - rewrite <-(insert_delete_eq m), map_to_list_insert by apply lookup_delete_eq.
    rewrite <-(map_to_list_delete m k l Hk). simpl.
    rewrite length_app. simpl. lia.
  - by rewrite map_to_list_insert.
Qed.

Lemma pattern_count_sorted (m : gmap string (list string)) :
  pattern_count (Str.sorted <$> m) = pattern_count m.
Proof.
  unfold pattern_count. rewrite map_to_list_fmap.
  induction (map_to_list m) as [|[k l] kvs IH]; [done|].
  csimpl. rewrite IH. f_equal. unfold Str.sorted.
  apply Permutation_length, merge_sort_Permutation.
Qed.

Lemma step_pattern_count pkgdir pkg_name st e :
  pattern_count (pkg_data (walk_step pkgdir pkg_name st e))
  = pattern_count (pkg_data st) + (if decide (attributes pkgdir e) then 1 else 0).
Proof.
  destruct e as [[p dn] fs]. unfold walk_step, attributes. simpl.
  case_bool_decide as Hb.
  { rewrite decide_False by naive_solver. lia. }
  case_bool_decide as Hr.
  { rewrite decide_False by naive_solver. lia. }
  case_bool_decide as Hi; simpl.
  { rewrite decide_False by naive_solver. lia. }
  rewrite decide_True by done.
  destruct (find_nearest_pkg _ _ _) as [pkg fnp]. simpl.
  rewrite pattern_count_append. lia.
Qed.

Lemma fold_pattern_count pkgdir pkg_name st (l : list walk_entry) :
  pattern_count (pkg_data (foldl (walk_step pkgdir pkg_name) st l))
  = pattern_count (pkg_data st) + length (filter (attributes pkgdir) l).
Proof.
  revert st. induction l as [|e l IH]; intros st; simpl; [lia|].
  rewrite IH, step_pattern_count, filter_cons. case_decide; simpl; lia.
Qed.

(** X12: whatever the tree, [auto_packages] files exactly one pattern for
    each directory below the top that holds no [__init__.py] and is not
    named [__pycache__], next to the catch-all pattern: no such directory is
    left out or filed twice. *)
Theorem auto_packages_pattern_count (pkgdir : string) (tree : dir) :
  pattern_count (auto_packages pkgdir tree).2
  = 1 + length (filter (attributes (os_path.normpath pkgdir)) (os_walk [] tree)).
Proof.
  unfold auto_packages. simpl. rewrite pattern_count_sorted, fold_pattern_count.
  simpl. unfold pattern_count. by rewrite map_to_list_singleton.
Qed.

(** ** The builder: every way out of a build *)

Section build_paths.
Context `{Externals}.
Implicit Types (self : SdistBuilder.t) (target : Path.t) (w : world)
  (a : gzip_tar) (st : stat_result) (mtime : option Z).

(** The loop over the tracked files, however it ends: members are added to
    the archive, nothing else changes. *)
Lemma for_each_tracked_any self target mtime inodes files w
    (r : result inode_table) w' st a :
  fs w !! Path.str target = Some (RegularFile st (Packed a)) ->
  for_each files inodes (add_tracked_file self target mtime) w = (r, w') ->
  exists ms, w' = set_archive target st (with_members (members a ++ ms) (closed a) a) w.
Proof.
  revert w a inodes. induction files as [|relpath files IH]; intros w a inodes Hw; simpl.
  - intros [= <- <-]. exists []. by rewrite app_nil_r, with_members_id, set_archive_id.
  - unfold bind. rewrite (add_tracked_file_open _ _ _ _ _ _ st a) by done.
    assert (exists ms, w = set_archive target st
                             (with_members (members a ++ ms) (closed a) a) w) as Hstay.
    { exists []. by rewrite app_nil_r, with_members_id, set_archive_id. }
    destruct (fs w !! source_path self relpath) as [nd|]; [|by intros [= <- <-]].
    destruct (tracked_member _ _ _ _ _ nd) as [m|]; [|by intros [= <- <-]].
    intros Hrest. eapply IH in Hrest; [|apply set_archive_lookup].
    destruct Hrest as (ms & ->). exists (m :: ms).
    rewrite set_archive_twice. simpl. by rewrite <-app_assoc.
Qed.

(** The block under [try], however it ends. *)
Lemma build_body_any self target mtime w (r : result unit) w' st a :
  fs w !! Path.str target = Some (RegularFile st (Packed a)) ->
  build_body self target mtime w = (r, w') ->
  on w' = on w
  /\ exists ms,
       fs w' = <[Path.str target :=
                  RegularFile st (Packed (with_members (members a ++ ms) (closed a) a))]>
                 (fs w).
Proof.
  intros Hw. unfold build_body. unfold bind at 1. rewrite find_tracked_files_run.
  assert (exists ms,
            fs w = <[Path.str target :=
                      RegularFile st (Packed (with_members (members a ++ ms) (closed a) a))]>
                     (fs w)) as Hstay.
  { exists []. by rewrite app_nil_r, with_members_id, insert_id. }
  destruct (vcs (on w) !! _) as [v|]; [|by intros [= <- <-]].
  destruct (bool_decide (List.filter _ _ = [])); [|by intros [= <- <-]].
  unfold bind at 1.
  destruct (for_each _ _ _ _) as [[inodes|e] w1] eqn:Hloop;
    (eapply for_each_tracked_any in Hloop; [|exact Hw]); destruct Hloop as (ms & ->).
  2: { intros [= <- <-]. split; [done|]. by exists ms. }
  unfold bind at 1. case_bool_decide.
  - unfold log_warning. erewrite addfile_open by apply set_archive_lookup.
    intros [= <- <-]. split; [done|]. simpl. eexists (ms ++ [_]).
    by rewrite insert_insert_eq, app_assoc.
  - unfold bind at 1, get_world. unfold bind at 1, log_info.
    erewrite addfile_open by apply set_archive_lookup.
    erewrite addfile_open by apply set_archive_lookup.
    intros [= <- <-]. split; [done|]. simpl. eexists (ms ++ [_; _]).
    rewrite !insert_insert_eq. do 3 f_equal. unfold with_members. simpl.
    by rewrite <-!app_assoc.
Qed.

(** [build], once the archive is open: the guarded block, the cleanup. *)
Lemma build_after_prepare self target_dir w mtime w1 :
  prepare self target_dir w = (Ok mtime, w1) ->
  exists r w' st ms,
    build self target_dir w = (r, w')
    /\ on w' = on w
    /\ fs w' = <[Path.str (target_path self target_dir) :=
                  RegularFile st
                    (Packed (with_members ms true
                               (empty_archive (on w) (target_path self target_dir)
                                              mtime false)))]> (fs w1).
Proof.
  intros Hprep. rewrite build_unfold. unfold bind at 1. rewrite Hprep.
  apply prepare_ok in Hprep as (_ & Hon1 & _ & _ & st & Hopen).
  unfold bind at 1, try_finally.
  destruct (build_body _ _ _ w1) as [r w2] eqn:Hbody.
  apply (build_body_any _ _ _ _ _ _ st _ Hopen) in Hbody as (Hon2 & ms & Hfs2).
  erewrite close_open; last first.
  { rewrite Hfs2. apply lookup_insert_eq. }
  destruct r as [[]|e].
  - unfold bind, log_info, ret. eexists _, _, st, ms. split; [done|]. simpl.
    split; [congruence|]. by rewrite Hfs2, insert_insert_eq.
  - eexists _, _, st, ms. split; [done|]. simpl.
    split; [congruence|]. by rewrite Hfs2, insert_insert_eq.
Qed.

(** X13: once [build] has opened the archive, it closes it, whether the
    block under [try] ends well or raises; the file then holds a closed
    archive whose gzip time stamp is the one it was opened with, and no
    other file has changed since. *)
Theorem build_closes_archive self target_dir w mtime w1 :
  prepare self target_dir w = (Ok mtime, w1) ->
  exists r w' st a,
    build self target_dir w = (r, w')
    /\ fs w' !! Path.str (target_path self target_dir) = Some (RegularFile st (Packed a))
    /\ closed a = true
    /\ gz_mtime a = default (now (on w)) mtime
    /\ forall q, q <> Path.str (target_path self target_dir) -> fs w' !! q = fs w1 !! q.
Proof.
  intros (r & w' & st & ms & Hb & _ & Hfs)%build_after_prepare.
  exists r, w', st. eexists. split; [done|]. rewrite Hfs.
  split; [apply lookup_insert_eq|]. split; [done|]. split; [done|].
  intros q Hq. by rewrite lookup_insert_ne.
Qed.

(** *** The destination directory *)

Lemma mkdir_from_creates absolute above below w (r : result unit) w1 q nd :
  mkdir_from absolute above below w = (r, w1) ->
  fs w1 !! q = Some nd ->
  fs w !! q = Some nd \/ nd = Directory (creation_stat 16877 w).
Proof.
  revert above w. induction below as [|c below IH]; intros above w; simpl.
  { intros [= _ <-]. by left. }
  unfold bind at 1, get_world.
  destruct (fs w !! _) as [nd0|] eqn:Hnd.
  - destruct nd0; try (destruct below; intros [= _ <-]; by left).
    by apply IH.
  - unfold bind, put_fs. intros Hrec Hq.
    destruct (IH _ _ Hrec Hq) as [Hq' | ->]; [|by right].
    simpl in Hq'. apply lookup_insert_Some in Hq' as [[_ <-]|[_ Hq']]; [by right|by left].
Qed.

(** When [mkdir(parents=True)] returns, the directory is there; it is a new
    one if nothing was there before. *)
Lemma mkdir_from_made absolute above below w w1 :
  mkdir_from absolute above below w = (Ok tt, w1) ->
  below <> [] ->
  exists st,
    fs w1 !! Path.str {| Path.absolute := absolute; Path.parts := above ++ below |}
    = Some (Directory st)
    /\ (fs w !! Path.str {| Path.absolute := absolute; Path.parts := above ++ below |} = None ->
        st = creation_stat 16877 w).
Proof.
  revert above w. induction below as [|c below IH]; intros above w Hmk Hne; [done|].
  simpl in Hmk. unfold bind at 1, get_world in Hmk.
  destruct below as [|c' below].
  - simpl in Hmk. destruct (fs w !! _) as [nd0|] eqn:Hnd.
    + destruct nd0; try done. injection Hmk as <-. eexists. split; [done|]. congruence.
    + unfold bind, put_fs, ret in Hmk. injection Hmk as <-. simpl.
      eexists. split; [apply lookup_insert_eq|done].
  - assert (forall w2,
              on w2 = on w ->
              (forall q nd, fs w2 !! q = Some nd ->
                            fs w !! q = Some nd \/ nd = Directory (creation_stat 16877 w)) ->
              mkdir_from absolute (above ++ [c]) (c' :: below) w2 = (Ok tt, w1) ->
              exists st,
                fs w1 !! Path.str {| Path.absolute := absolute;
                                     Path.parts := above ++ c :: c' :: below |}
                = Some (Directory st)
                /\ (fs w !! Path.str {| Path.absolute := absolute;
                                        Path.parts := above ++ c :: c' :: below |} = None ->
                    st = creation_stat 16877 w)) as Hnext.
    { intros w2 Hon Hnew Hrec.
      destruct (IH _ _ Hrec) as (st & Hst & Hfresh); [done|].
      rewrite <-app_assoc in Hst, Hfresh. simpl in Hst, Hfresh.
      exists st. split; [done|]. intros Hnone.
      destruct (fs w2 !! Path.str {| Path.absolute := absolute;
                                     Path.parts := above ++ c :: c' :: below |})
        as [nd2|] eqn:H2.
      - destruct (Hnew _ _ H2) as [?| ->]; [congruence|].
        apply (mkdir_from_preserves _ _ _ _ _ _ Hrec) in H2. congruence.
      - rewrite (Hfresh eq_refl). unfold creation_stat. by rewrite Hon. }
    destruct (fs w !! _) as [nd0|] eqn:Hnd.
    + destruct nd0; try done. apply (Hnext w); [done| |done]. intros q nd ?. by left.
    + unfold bind at 1, put_fs in Hmk. eapply Hnext; [| |exact Hmk]; [done|].
      simpl. intros q nd [[_ <-]|[_ Hq]]%lookup_insert_Some; [by right|by left].
Qed.

Lemma ensure_destination_there self target_dir w :
  Path.parts (destination self target_dir) = []
  \/ is_Some (fs w !! Path.str (destination self target_dir)) ->
  ensure_destination self target_dir w = (Ok tt, w).
Proof.
  intros Hthere. unfold ensure_destination, bind, exists_.
  destruct (Path.parts (destination self target_dir)) as [|c l]; [done|].
  destruct Hthere as [?|Hsome]; [done|]. by rewrite bool_decide_eq_true_2.
Qed.

(** Making the destination keeps what is there and adds directories only. *)
Lemma ensure_destination_run self target_dir w (r : result unit) w0 :
  ensure_destination self target_dir w = (r, w0) ->
  on w0 = on w /\ log w0 = log w
  /\ (forall q nd, fs w !! q = Some nd -> fs w0 !! q = Some nd)
  /\ (forall q nd, fs w0 !! q = Some nd ->
        fs w !! q = Some nd \/ nd = Directory (creation_stat 16877 w)).
Proof.
  unfold ensure_destination, bind, exists_.
  destruct (match Path.parts _ with [] => true | _ => _ end).
  - intros [= _ <-]. repeat split; try done. intros q nd ?. by left.
  - unfold mkdir_parents. intros Hmk.
    destruct (mkdir_from_preserves _ _ _ _ _ _ Hmk) as (Hon & Hlog & Hfs).
    repeat split; try done. intros q nd. by apply (mkdir_from_creates _ _ _ _ _ _ _ _ Hmk).
Qed.

Lemma prepare_unfold self target_dir w :
  prepare self target_dir w
  = match ensure_destination self target_dir w with
    | (Ok _, w0) =>
        match parse_epoch (on w0) w0 with
        | (Ok mtime, _) =>
            match GzipFile (target_path self target_dir) mtime w0 with
            | (Ok _, w1) => (Ok mtime, w1)
            | (Raise e, w1) => (Raise e, w1)
            end
        | (Raise e, _) => (Raise e, w0)
        end
    | (Raise e, w0) => (Raise e, w0)
    end.
Proof.
  unfold prepare, ensure_destination, bind, get_world.
  destruct (exists_ _ w) as [[there|e] w2]; [|done].
  destruct ((if there then ret tt else mkdir_parents _) w2) as [[[]|e] w0]; [|done].
  unfold parse_epoch. case_bool_decide; [destruct (Str.int _)|]; simpl; done.
Qed.

(** X14: when [SOURCE_DATE_EPOCH] is set and is not an integer, [build]
    raises [ValueError] once the destination directory is made (or the error
    of making it), before the archive file is opened: no regular file is
    created or changed, and nothing is logged. *)
Theorem build_malformed_epoch self target_dir w :
  source_date_epoch (on w) <> "" ->
  Str.int (source_date_epoch (on w)) = None ->
  build self target_dir w
  = (match (ensure_destination self target_dir w).1 with
     | Ok _ => Raise ValueError
     | Raise e => Raise e
     end, (ensure_destination self target_dir w).2)
  /\ log (build self target_dir w).2 = log w
  /\ forall q st data,
       fs (build self target_dir w).2 !! q = Some (RegularFile st data) ->
       fs w !! q = Some (RegularFile st data).
Proof.
  intros Hset Hint.
  assert (build self target_dir w
          = (match (ensure_destination self target_dir w).1 with
             | Ok _ => Raise ValueError
             | Raise e => Raise e
             end, (ensure_destination self target_dir w).2)) as Hb.
  { rewrite build_unfold. unfold bind at 1. rewrite prepare_unfold.
    destruct (ensure_destination self target_dir w) as [[[]|e] w0] eqn:He; [|done].
    apply ensure_destination_run in He as (Hon & _). simpl.
    unfold parse_epoch. rewrite Hon, bool_decide_eq_true_2 by done. by rewrite Hint. }
  rewrite Hb. simpl.
  destruct (ensure_destination self target_dir w) as [r w0] eqn:He.
  apply ensure_destination_run in He as (_ & Hlog & _ & Hnew). simpl.
  split; [done|]. split; [done|].
  intros q st data Hq. by destruct (Hnew _ _ Hq).
Qed.

(** What [prepare] leaves of the files when the destination is there. *)
Lemma prepare_there self target_dir w mtime w1 q :
  Path.parts (destination self target_dir) = []
  \/ is_Some (fs w !! Path.str (destination self target_dir)) ->
  prepare self target_dir w = (Ok mtime, w1) ->
  q <> Path.str (target_path self target_dir) -> fs w1 !! q = fs w !! q.
Proof.
  intros Hthere. rewrite prepare_unfold, ensure_destination_there by done.
  destruct (parse_epoch (on w) w) as [[mtime'|e] w2]; [|done].
  destruct (GzipFile _ _ w) as [[[]|e] w3] eqn:Hgz; [|done].
  intros [= -> ->] Hq. apply GzipFile_run in Hgz as (_ & _ & Hfs & _). by apply Hfs.
Qed.

(** X15: with the destination directory in place, a tracked file that the
    filter keeps and that is missing from the work tree makes [build]
    fail. *)
Theorem build_missing_tracked_file self target_dir w v relpath :
  Path.parts (destination self target_dir) = []
  \/ is_Some (fs w !! Path.str (destination self target_dir)) ->
  vcs (on w) !! Path.str (SdistBuilder.srcdir self) = Some v ->
  relpath ∈ files_to_add_of v ->
  source_path self relpath <> Path.str (target_path self target_dir) ->
  fs w !! source_path self relpath = None ->
  exists e w', build self target_dir w = (Raise e, w').
Proof.
  intros Hthere Hv Hin Hne Hnone.
  destruct (build self target_dir w) as [[t|e] w'] eqn:Hb; [exfalso|by eauto].
  rewrite build_unfold in Hb.
  apply bind_ok in Hb as (mtime & w1 & Hprep & Hrest).
  pose proof (prepare_there _ _ _ _ _ (source_path self relpath) Hthere Hprep Hne) as Hsame.
  apply prepare_ok in Hprep as (_ & Hon1 & _ & _ & st & Hopen).
  apply bind_ok in Hrest as ([] & w2 & Htry & _).
  apply try_finally_ok in Htry as (w3 & [] & Hbody & _).
  apply (build_body_ok _ _ _ _ _ st _ Hopen) in Hbody as (v' & ms & Hv' & _ & Hms & _).
  rewrite Hon1, Hv in Hv'. injection Hv' as <-.
  apply list_elem_of_lookup in Hin as [i Hi].
  apply tracked_run_member_for in Hms.
  destruct (Forall2_lookup_l _ _ _ _ _ Hms Hi) as (m & _ & nd & inodes & _ & Hnd).
  unfold found_in in Hnd. rewrite Hsame, Hnone in Hnd. by specialize (Hnd Hne).
Qed.

(** X16: a build that succeeds where nothing was at the destination path
    has made the directory there. *)
Theorem build_makes_destination self target_dir w t w' :
  build self target_dir w = (Ok t, w') ->
  Path.parts (destination self target_dir) <> [] ->
  fs w !! Path.str (destination self target_dir) = None ->
  exists st, fs w' !! Path.str (destination self target_dir) = Some (Directory st).
Proof.
  intros Hb Hparts Hnone.
  pose proof Hb as Hb'. rewrite build_unfold in Hb'.
  apply bind_ok in Hb' as (mtime & w1 & Hprep & _).
  destruct (build_after_prepare _ _ _ _ _ Hprep) as (r & w'' & st & ms & Hb'' & _ & Hfs).
  rewrite Hb in Hb''. injection Hb'' as <- <-.
  rewrite prepare_unfold in Hprep.
  destruct (ensure_destination self target_dir w) as [[[]|e] w0] eqn:He; [|done].
  assert (exists st0, fs w0 !! Path.str (destination self target_dir)
                      = Some (Directory st0)) as [st0 Hdir].
  { unfold ensure_destination, bind, exists_ in He.
    destruct (destination self target_dir) as [absolute parts] eqn:Hd.
    simpl in Hparts. destruct parts as [|c parts]; [done|].
    rewrite Hnone in He. rewrite bool_decide_eq_false_2 in He by (by intros [? ?]).
    unfold mkdir_parents in He. simpl Path.absolute in He. simpl Path.parts in He.
    destruct (mkdir_from_made _ _ _ _ _ He) as (st0 & Hst0 & _); [done|].
    by exists st0. }
  destruct (parse_epoch (on w0) w0) as [[mtime'|e] w2]; [|done].
  destruct (GzipFile _ _ w0) as [[[]|e] w3] eqn:Hgz; [|done].
  injection Hprep as -> ->.
  assert (Path.str (destination self target_dir) <> Path.str (target_path self target_dir))
    as Hne.
  { intros Heq. unfold GzipFile in Hgz. by rewrite <-Heq, Hdir in Hgz. }
  apply GzipFile_run in Hgz as (_ & _ & Hfs1 & _).
  exists st0. by rewrite Hfs, lookup_insert_ne, Hfs1.
Qed.

(** What [prepare] does to the files, however it ends: directories may
    appear, and the file at the target path may change. *)
Lemma prepare_run self target_dir w (r : result (option Z)) w1 :
  prepare self target_dir w = (r, w1) ->
  on w1 = on w
  /\ (forall q nd, q <> Path.str (target_path self target_dir) ->
        fs w !! q = Some nd -> fs w1 !! q = Some nd)
  /\ (forall q nd, q <> Path.str (target_path self target_dir) ->
        fs w1 !! q = Some nd -> fs w !! q = Some nd \/ exists st, nd = Directory st).
Proof.
  rewrite prepare_unfold.
  destruct (ensure_destination self target_dir w) as [r0 w0] eqn:He.
  apply ensure_destination_run in He as (Hon0 & _ & Hkeep & Hnew).
  assert (forall q nd, fs w0 !! q = Some nd ->
            fs w !! q = Some nd \/ exists st, nd = Directory st) as Hnew'.
  { intros q nd Hq. destruct (Hnew q nd Hq) as [?| ->]; [by left|right; by eexists]. }
  destruct r0 as [[]|e]; [|by intros [= <- <-]; eauto].
  destruct (parse_epoch (on w0) w0) as [[mtime|e] w2]; [|by intros [= <- <-]; eauto].
  destruct (GzipFile _ _ w0) as [r3 w3] eqn:Hgz.
  apply GzipFile_run in Hgz as (Hon3 & _ & Hfs3 & _).
  assert (on w3 = on w
          /\ (forall q nd, q <> Path.str (target_path self target_dir) ->
                fs w !! q = Some nd -> fs w3 !! q = Some nd)
          /\ (forall q nd, q <> Path.str (target_path self target_dir) ->
                fs w3 !! q = Some nd ->
                fs w !! q = Some nd \/ exists st, nd = Directory st)) as Hall.
  { split; [congruence|]. split.
    - intros q nd Hq Hnd. rewrite Hfs3 by done. by apply Hkeep.
    - intros q nd Hq Hnd. rewrite Hfs3 in Hnd by done. by apply Hnew'. }
  by destruct r3 as [[]|e]; intros [= <- <-].
Qed.

(** X17: whether it succeeds or fails, [build] leaves every file it finds
    as it is, the one at the path of the archive apart, and what it adds
    elsewhere are directories only. *)
Theorem build_preserves_files self target_dir w :
  on (build self target_dir w).2 = on w
  /\ (forall q nd, q <> Path.str (target_path self target_dir) ->
        fs w !! q = Some nd -> fs (build self target_dir w).2 !! q = Some nd)
  /\ (forall q nd, q <> Path.str (target_path self target_dir) ->
        fs (build self target_dir w).2 !! q = Some nd ->
        fs w !! q = Some nd \/ exists st, nd = Directory st).
Proof.
  destruct (prepare self target_dir w) as [[mtime|e] w1] eqn:Hprep.
  - destruct (build_after_prepare _ _ _ _ _ Hprep) as (r & w' & st & ms & -> & Hon & Hfs).
    apply prepare_run in Hprep as (_ & Hkeep & Hnew). simpl.
    split; [done|]. rewrite Hfs. split.
    + intros q nd Hq Hnd. rewrite lookup_insert_ne by done. by apply Hkeep.
    + intros q nd Hq Hnd. rewrite lookup_insert_ne in Hnd by done. by apply Hnew.
  - assert (build self target_dir w = (Raise e, w1)) as ->.
    { rewrite build_unfold. unfold bind at 1. by rewrite Hprep. }
    exact (prepare_run _ _ _ _ _ Hprep).
Qed.

(** *** The log *)

Lemma build_body_log self target mtime w w' st a :
  fs w !! Path.str target = Some (RegularFile st (Packed a)) ->
  build_body self target mtime w = (Ok tt, w') ->
  exists v,
    vcs (on w) !! Path.str (SdistBuilder.srcdir self) = Some v
    /\ log w'
       = log w
         ++ [LogInfo ("Found " +:+ pretty (length (list_tracked_files v))
                      +:+ " files tracked in " +:+ vcs_name v);
             if bool_decide ("setup.py" ∈ files_to_add_of v)
             then LogWarning "Using setup.py from repository, not generating setup.py"
             else LogInfo "Writing generated setup.py"].
Proof.
  intros Hw. unfold build_body. unfold bind at 1. rewrite find_tracked_files_run.
  destruct (vcs (on w) !! _) as [v|]; [|done].
  destruct (bool_decide (List.filter _ _ = [])); [|done].
  unfold bind at 1.
  destruct (for_each _ _ _ _) as [[inodes|e] w1] eqn:Hloop; [|done].
  eapply for_each_tracked_any in Hloop; [|exact Hw]. destruct Hloop as (ms & ->).
  intros Hrest. exists v. split; [done|].
  unfold bind at 1 in Hrest. case_bool_decide.
  - unfold log_warning in Hrest. erewrite addfile_open in Hrest by apply set_archive_lookup.
    injection Hrest as <-. simpl. by rewrite <-app_assoc.
  - unfold bind at 1, get_world in Hrest. unfold bind at 1, log_info in Hrest.
    erewrite addfile_open in Hrest by apply set_archive_lookup.
    erewrite addfile_open in Hrest by apply set_archive_lookup.
    injection Hrest as <-. simpl. by rewrite <-app_assoc.
Qed.

(** X18: a build that succeeds adds three records to the log: the number of
    tracked files, counted before the filter, with the name of the version
    control system; then either the warning that the [setup.py] of the
    repository is used or the note that one is generated; then the path of
    the archive. *)
Theorem build_log self target_dir w t w' v :
  build self target_dir w = (Ok t, w') ->
  vcs (on w) !! Path.str (SdistBuilder.srcdir self) = Some v ->
  log w'
  = log w
    ++ [LogInfo ("Found " +:+ pretty (length (list_tracked_files v))
                 +:+ " files tracked in " +:+ vcs_name v);
        if bool_decide ("setup.py" ∈ files_to_add_of v)
        then LogWarning "Using setup.py from repository, not generating setup.py"
        else LogInfo "Writing generated setup.py";
        LogInfo ("Built sdist: " +:+ Path.str t)].
Proof.
  rewrite build_unfold.
  intros (mtime & w1 & Hprep & Hrest)%bind_ok Hv.
  apply prepare_ok in Hprep as (_ & Hon1 & Hlog1 & _ & st & Hopen).
  apply bind_ok in Hrest as ([] & w2 & Htry & Hrest).
  apply try_finally_ok in Htry as (w3 & [] & Hbody & Hclose).
  pose proof Hbody as Hbody'.
  apply (build_body_any _ _ _ _ _ _ st _ Hopen) in Hbody' as (_ & ms & Hfs3).
  apply (build_body_log _ _ _ _ _ st _ Hopen) in Hbody as (v' & Hv' & Hlog3).
  rewrite Hon1, Hv in Hv'. injection Hv' as <-.
  erewrite close_open in Hclose; last first.
  { rewrite Hfs3. apply lookup_insert_eq. }
  injection Hclose as <-.
  apply bind_ok in Hrest as ([] & w4 & Hlog & Hret).
  unfold log_info in Hlog. injection Hlog as <-. injection Hret as <- <-.
  simpl. rewrite Hlog3, Hlog1, <-app_assoc. done.
Qed.

(** *** The members of the archive *)

Lemma tracked_member_owner (h : host) self mtime inodes relpath nd m :
  tracked_member h self mtime inodes relpath nd = Some m ->
  TarInfo.uid m.1 = 0%Z /\ TarInfo.gid m.1 = 0%Z
  /\ TarInfo.uname m.1 = "" /\ TarInfo.gname m.1 = "".
Proof.
  unfold tracked_member.
  destruct (tarinfo_of_node _ _ _ _) as [[ti inodes']|]; [|done]. by intros [= <-].
Qed.

Lemma generated_members_owner (h : host) self files :
  Forall (fun m => TarInfo.uid m.1 = 0%Z /\ TarInfo.gid m.1 = 0%Z
                   /\ TarInfo.uname m.1 = "" /\ TarInfo.gname m.1 = "")
         (generated_members h self files).
Proof.
  unfold generated_members. apply Forall_app. split.
  - case_bool_decide; by repeat constructor.
  - by repeat constructor.
Qed.

(** X19: no member of a built archive names an owner: user and group
    identifiers are 0 and user and group names are empty, for the tracked
    files and for the generated ones. *)
Theorem build_members_anonymous self target_dir w t w' :
  build self target_dir w = (Ok t, w') ->
  exists st a,
    fs w' !! Path.str t = Some (RegularFile st (Packed a))
    /\ Forall (fun m => TarInfo.uid m.1 = 0%Z /\ TarInfo.gid m.1 = 0%Z
                        /\ TarInfo.uname m.1 = "" /\ TarInfo.gname m.1 = "")
              (members a).
Proof.
  intros (_ & _ & mtime & st & v & ms & _ & _ & _ & Hms & Hfs)%build_ok_members.
  eexists st, _. split; [exact Hfs|]. simpl. apply Forall_app. split.
  - apply Forall_forall. intros m [i Hi]%list_elem_of_lookup.
    destruct (Forall2_lookup_r _ _ _ _ _ Hms Hi)
      as (relpath & _ & nd & inodes & Hm & _).
    by apply tracked_member_owner in Hm.
  - apply generated_members_owner.
Qed.

(** The member made from a tracked file found in the world the build
    started in. *)
Lemma build_member_of self target_dir w t w' v relpath nd :
  build self target_dir w = (Ok t, w') ->
  vcs (on w) !! Path.str (SdistBuilder.srcdir self) = Some v ->
  relpath ∈ files_to_add_of v ->
  source_path self relpath <> Path.str t ->
  fs w !! source_path self relpath = Some nd ->
  exists mtime st a m inodes,
    epoch_is (on w) mtime
    /\ fs w' !! Path.str t = Some (RegularFile st (Packed a))
    /\ tracked_member (on w) self mtime inodes relpath nd = Some m
    /\ m ∈ members a.
Proof.
  intros (_ & _ & mtime & st & v' & ms & Hepoch & Hv' & _ & Hms & Hfs)%build_ok_members
    Hv Hin Hne Hnd.
  rewrite Hv in Hv'. injection Hv' as <-.
  apply list_elem_of_lookup in Hin as [i Hi].
  destruct (Forall2_lookup_l _ _ _ _ _ Hms Hi)
    as (m & Hm & nd' & inodes & Htm & Hsame).
  rewrite <-(Hsame Hne nd Hnd) in Htm.
  exists mtime, st. eexists _, m, inodes.
  split; [done|]. split; [exact Hfs|]. split; [done|].
  simpl. apply elem_of_app. left. by eapply list_elem_of_lookup_2.
Qed.

(** A regular file with more than one link whose inode the archive holds
    under another name goes in as a hard link to that name, without
    content. *)
Lemma tracked_member_hard_link (h : host) self mtime inodes relpath st0 data first :
  (1 < st_nlink st0)%Z ->
  inodes !! (st_ino st0, st_dev st0) = Some first ->
  first <> member_name (os_path.join (tf_dir self) relpath) ->
  tracked_member h self mtime inodes relpath (RegularFile st0 data)
  = Some ({| TarInfo.name := member_name (os_path.join (tf_dir self) relpath);
             TarInfo.mode := normalize_file_permissions (st_mode st0);
             TarInfo.uid := 0; TarInfo.gid := 0;
             TarInfo.size := 0;
             TarInfo.mtime := default (st_mtime st0) mtime;
             TarInfo.type := LNKTYPE; TarInfo.linkname := first;
             TarInfo.uname := ""; TarInfo.gname := "" |}, "")
  /\ inodes_after h self inodes relpath (RegularFile st0 data) = inodes.
Proof.
  intros Hlinks Hfirst Hne. unfold tracked_member, inodes_after, tarinfo_of_node.
  simpl. rewrite Hfirst, bool_decide_eq_true_2 by done.
  by rewrite bool_decide_eq_false_2 by done.
Qed.

(** A regular file with one link goes in as a regular member with its
    content, whatever the archive holds. *)
Lemma tracked_member_single_link (h : host) self mtime inodes relpath st0 content :
  (st_nlink st0 <= 1)%Z ->
  tracked_member h self mtime inodes relpath (RegularFile st0 (Bytes content))
  = Some ({| TarInfo.name := member_name (os_path.join (tf_dir self) relpath);
             TarInfo.mode := normalize_file_permissions (st_mode st0);
             TarInfo.uid := 0; TarInfo.gid := 0;
             TarInfo.size := String.length content;
             TarInfo.mtime := default (st_mtime st0) mtime;
             TarInfo.type := REGTYPE; TarInfo.linkname := "";
             TarInfo.uname := ""; TarInfo.gname := "" |}, content).
Proof.
  intros Hlinks. unfold tracked_member, tarinfo_of_node. simpl.
  rewrite bool_decide_eq_false_2 by lia. simpl. by rewrite substring_full.
Qed.

(** X20: a tracked regular file that has no second link goes into the
    archive with its whole content, under the name of the archive directory
    joined with its path, with its size, its permissions normalised and its
    modification time unless [SOURCE_DATE_EPOCH] gives one. *)
Theorem build_stores_regular_file self target_dir w t w' v relpath st0 content :
  build self target_dir w = (Ok t, w') ->
  vcs (on w) !! Path.str (SdistBuilder.srcdir self) = Some v ->
  relpath ∈ files_to_add_of v ->
  source_path self relpath <> Path.str t ->
  fs w !! source_path self relpath = Some (RegularFile st0 (Bytes content)) ->
  (st_nlink st0 <= 1)%Z ->
  exists mtime st a,
    epoch_is (on w) mtime
    /\ fs w' !! Path.str t = Some (RegularFile st (Packed a))
    /\ ({| TarInfo.name := member_name (os_path.join (tf_dir self) relpath);
           TarInfo.mode := normalize_file_permissions (st_mode st0);
           TarInfo.uid := 0; TarInfo.gid := 0;
           TarInfo.size := String.length content;
           TarInfo.mtime := default (st_mtime st0) mtime;
           TarInfo.type := REGTYPE; TarInfo.linkname := "";
           TarInfo.uname := ""; TarInfo.gname := "" |}, content) ∈ members a.
Proof.
  intros Hb Hv Hin Hne Hnd Hlinks.
  destruct (build_member_of _ _ _ _ _ _ _ _ Hb Hv Hin Hne Hnd)
    as (mtime & st & a & m & inodes & Hepoch & Hfs & Hm & Hma).
  exists mtime, st, a. split; [done|]. split; [done|].
  rewrite tracked_member_single_link in Hm by done. by injection Hm as <-.
Qed.

(** X21: a tracked symbolic link goes into the archive as a link: a header
    with the target and no content; the file it points to is not read. *)
Theorem build_stores_link self target_dir w t w' v relpath st0 link :
  build self target_dir w = (Ok t, w') ->
  vcs (on w) !! Path.str (SdistBuilder.srcdir self) = Some v ->
  relpath ∈ files_to_add_of v ->
  source_path self relpath <> Path.str t ->
  fs w !! source_path self relpath = Some (SymbolicLink st0 link) ->
  exists mtime st a,
    epoch_is (on w) mtime
    /\ fs w' !! Path.str t = Some (RegularFile st (Packed a))
    /\ ({| TarInfo.name := member_name (os_path.join (tf_dir self) relpath);
           TarInfo.mode := normalize_file_permissions (st_mode st0);
           TarInfo.uid := 0; TarInfo.gid := 0;
           TarInfo.size := 0;
           TarInfo.mtime := default (st_mtime st0) mtime;
           TarInfo.type := SYMTYPE; TarInfo.linkname := link;
           TarInfo.uname := ""; TarInfo.gname := "" |}, "") ∈ members a.
Proof.
  intros Hb Hv Hin Hne Hnd.
  destruct (build_member_of _ _ _ _ _ _ _ _ Hb Hv Hin Hne Hnd)
    as (mtime & st & a & m & inodes & Hepoch & Hfs & Hm & Hma).
  exists mtime, st, a. split; [done|]. split; [done|].
  unfold tracked_member in Hm. simpl in Hm. by injection Hm as <-.
Qed.

(** X22: a built archive holds one member for each tracked file that the
    filter keeps, then the generated [setup.py] unless a [setup.py] is among
    those files, then [PKG-INFO], which is always the last member and holds
    the metadata text with its length as size. *)
Theorem build_generated_members self target_dir w t w' v :
  build self target_dir w = (Ok t, w') ->
  vcs (on w) !! Path.str (SdistBuilder.srcdir self) = Some v ->
  exists st a,
    fs w' !! Path.str t = Some (RegularFile st (Packed a))
    /\ length (members a)
       = length (files_to_add_of v)
         + (if bool_decide ("setup.py" ∈ files_to_add_of v) then 1 else 2)
    /\ last (members a)
       = Some (TarInfo.set_size (String.length (pkg_info_bytes self))
                 (TarInfo.new (os_path.join (tf_dir self) "PKG-INFO")),
               pkg_info_bytes self)
    /\ ("setup.py" ∉ files_to_add_of v ->
        members a !! length (files_to_add_of v)
        = Some (TarInfo.set_size (String.length (make_setup_py self (on w)))
                  (TarInfo.new (os_path.join (tf_dir self) "setup.py")),
                make_setup_py self (on w))).
Proof.
  intros (_ & _ & mtime & st & v' & ms & _ & Hv' & _ & Hms & Hfs)%build_ok_members Hv.
  rewrite Hv in Hv'. injection Hv' as <-.
  apply Forall2_length in Hms.
  eexists st, _. split; [exact Hfs|]. simpl. unfold generated_members, generated_member.
  rewrite !substring_full. split; [|split].
  - rewrite !length_app, Hms. by case_bool_decide.
  - by rewrite app_assoc, last_snoc.
  - intros Hno. rewrite bool_decide_eq_false_2 by done.
    by rewrite Hms, lookup_app_r, Nat.sub_diag by lia.
Qed.

End build_paths.

(** ** The tracked files and the entry points *)

(** X23: the files [find_tracked_files] returns, or the error it raises, do
    not depend on the order in which version control lists the files. *)
Theorem find_tracked_files_listing_order self w1 w2 v1 v2 :
  vcs (on w1) !! Path.str (SdistBuilder.srcdir self) = Some v1 ->
  vcs (on w2) !! Path.str (SdistBuilder.srcdir self) = Some v2 ->
  list_tracked_files v1 ≡ₚ list_tracked_files v2 ->
  list_untracked_deleted_files v1 ≡ₚ list_untracked_deleted_files v2 ->
  (find_tracked_files self w1).1 = (find_tracked_files self w2).1.
Proof.
  intros Hv1 Hv2 Htracked Huntracked.
  rewrite !find_tracked_files_run, Hv1, Hv2.
  assert (forall l1 l2 : list string,
            l1 ≡ₚ l2 -> List.filter include_path l1 ≡ₚ List.filter include_path l2)
    as Hfilter.
  { induction 1 as [|x l1 l2 _ IH|x y l|l1 l2 l3 _ IH1 _ IH2]; simpl.
    - done.
    - destruct (include_path x); [by constructor|done].
    - destruct (include_path x), (include_path y); try done. apply perm_swap.
    - by etrans. }
  assert (bool_decide (List.filter include_path (list_untracked_deleted_files v1) = [])
          = bool_decide (List.filter include_path (list_untracked_deleted_files v2) = []))
    as ->.
  { apply bool_decide_ext. pose proof (Hfilter _ _ Huntracked) as Hp. split.
    - intros Hnil. rewrite Hnil in Hp. by apply Permutation_nil_l in Hp.
    - intros Hnil. rewrite Hnil in Hp. by apply Permutation_nil_r in Hp. }
  destruct (bool_decide _); [|done]. simpl. f_equal.
  unfold files_to_add_of, Str.sorted.
  apply (StronglySorted_unique String.le).
  - apply StronglySorted_merge_sort; apply _.
  - apply StronglySorted_merge_sort; apply _.
  - rewrite !merge_sort_Permutation. by apply Hfilter.
Qed.

(** Tuples are compared component by component. *)
Lemma item_le_trans : Transitive item_le.
Proof.
  intros a b c [Hab Hab'] [Hbc Hbc']. split; [by etrans|].
  intros Hac. rewrite Hac in Hab.
  assert (b.1 = c.1) as Hbc1 by (by apply (anti_symm String.le)).
  assert (a.1 = b.1) as Hab1 by congruence.
  etrans; [by apply Hab'|by apply Hbc'].
Qed.

Lemma item_le_total : Total item_le.
Proof.
  intros a b. unfold item_le.
  destruct (total String.le a.1 b.1) as [H1|H1], (total String.le a.2 b.2) as [H2|H2].
  - left. by split.
  - destruct (decide (a.1 = b.1)) as [Heq|Hne].
    + right. split; [by rewrite Heq|done].
    + left. by split.
  - destruct (decide (a.1 = b.1)) as [Heq|Hne].
    + left. split; [by rewrite Heq|done].
    + right. split; [done|]. by intros ?.
  - right. by split.
Qed.

#[local] Existing Instance item_le_trans.
#[local] Existing Instance item_le_total.

(** The inner loop of [prep_entry_points]: the lines of one group. *)
Lemma entry_lines_fold (groupname : string) (items : list (string * string))
    (res : gmap string (list string)) :
  foldl (fun (res : gmap string (list string)) '(name, ep) =>
           <[groupname := (res !!! groupname) ++ [name +:+ " = " +:+ ep]]> res) res items
  = if decide (items = []) then res
    else <[groupname := (res !!! groupname) ++ (entry_line <$> items)]> res.
Proof.
  revert res. induction items as [|[name ep] items IH]; intros res; [done|].
  simpl foldl. rewrite IH. rewrite (decide_False (P := (name, ep) :: items = [])) by done.
  case_decide as Hitems.
  - by subst.
  - rewrite lookup_total_insert_eq, insert_insert_eq, <-app_assoc. done.
Qed.

Lemma prep_entry_points_other (l : list (string * list (string * string)))
    (res : gmap string (list string)) (groupname : string) :
  groupname ∉ l.*1 ->
  foldl (fun (res : gmap string (list string)) '(groupname, group) =>
           foldl (fun (res : gmap string (list string)) '(name, ep) =>
                    <[groupname := (res !!! groupname) ++ [name +:+ " = " +:+ ep]]> res)
                 res (merge_sort item_le group)) res l !! groupname
  = res !! groupname.
Proof.
  revert res. induction l as [|[g group] l IH]; intros res Hg; [done|].
  simpl foldl. rewrite IH by set_solver. rewrite entry_lines_fold.
  case_decide; [done|]. apply lookup_insert_ne. set_solver.
Qed.

Lemma prep_entry_points_fold (l : list (string * list (string * string)))
    (res : gmap string (list string)) (groupname : string) group :
  NoDup l.*1 -> (groupname, group) ∈ l ->
  foldl (fun (res : gmap string (list string)) '(groupname, group) =>
           foldl (fun (res : gmap string (list string)) '(name, ep) =>
                    <[groupname := (res !!! groupname) ++ [name +:+ " = " +:+ ep]]> res)
                 res (merge_sort item_le group)) res l !! groupname
  = if decide (merge_sort item_le group = []) then res !! groupname
    else Some ((res !!! groupname) ++ (entry_line <$> merge_sort item_le group)).
Proof.
  revert res. induction l as [|[g group'] l IH]; intros res; [by intros _ ?%elem_of_nil|].
  rewrite fmap_cons. intros [Hg Hnd]%NoDup_cons [Heq|Hin]%elem_of_cons; simpl foldl.
  - injection Heq as <- <-. rewrite prep_entry_points_other by done.
    rewrite entry_lines_fold. case_decide; [done|]. apply lookup_insert_eq.
  - assert (groupname <> g) as Hne.
    { intros ->. apply Hg. apply list_elem_of_fmap. by exists (g, group). }
    rewrite (IH _ Hnd Hin). rewrite entry_lines_fold.
    destruct (decide (merge_sort item_le group' = [])); [done|].
    by rewrite lookup_insert_ne, lookup_total_insert_ne.
Qed.

(** X24: [prep_entry_points] turns each group of entry points that is not
    empty into the lines [name = target], in the order of the names; an
    empty group and a name that is no group get no key. *)
Theorem prep_entry_points_groups (self : SdistBuilder.t) :
  NoDup (IniInfo.entrypoints (SdistBuilder.ini_info self)).*1 ->
  (forall groupname group,
     (groupname, group) ∈ IniInfo.entrypoints (SdistBuilder.ini_info self) ->
     group <> [] ->
     exists items,
       items ≡ₚ group /\ StronglySorted item_le items
       /\ prep_entry_points self !! groupname = Some (entry_line <$> items))
  /\ (forall groupname,
        (groupname, []) ∈ IniInfo.entrypoints (SdistBuilder.ini_info self)
        \/ groupname ∉ (IniInfo.entrypoints (SdistBuilder.ini_info self)).*1 ->
        prep_entry_points self !! groupname = None).
Proof.
  intros Hnd. unfold prep_entry_points. split.
  - intros groupname group Hin Hne. exists (merge_sort item_le group).
    split; [apply merge_sort_Permutation|].
    split; [apply StronglySorted_merge_sort; apply _|].
    rewrite (prep_entry_points_fold _ _ _ group) by done.
    rewrite decide_False; [done|].
    intros Hnil. pose proof (merge_sort_Permutation item_le group) as Hp.
    rewrite Hnil in Hp. by apply Permutation_nil_l in Hp.
  - intros groupname [Hin|Hout].
    + by rewrite (prep_entry_points_fold _ _ _ []).
    + by rewrite prep_entry_points_other.
Qed.

Lemma prep_entry_points_groups_witness :
  prep_entry_points Sample.scripts_builder !! "gui_scripts" = None
  /\ prep_entry_points Sample.scripts_builder
     = {[ "console_scripts" := ["bar = foo:bar"; "foo = foo:main"] ]}.
Proof.
  split; [|reflexivity].
  apply (prep_entry_points_groups Sample.scripts_builder).
  - simpl. repeat constructor; set_solver.
  - left. simpl. set_solver.
Defined.

#[local] Existing Instance Reference.externals.

Lemma build_closes_archive_witness :
  exists r w' st a,
    build Sample.builder None Sample.dirty_world = (r, w')
    /\ r = Raise (untracked_error Sample.builder)
    /\ fs w' !! "dist/foo-1.0.tar.gz" = Some (RegularFile st (Packed a))
    /\ closed a = true.
Proof.
  edestruct (build_closes_archive Sample.builder None Sample.dirty_world None)
    as (r & w' & st & a & Hb & Hfs & Hclosed & _); [vm_compute; reflexivity|].
  exists r, w', st, a. split; [done|]. split; [|by split].
  assert (build Sample.builder None Sample.dirty_world
          = (Raise (untracked_error Sample.builder),
             (build Sample.builder None Sample.dirty_world).2)) as Hr
    by (vm_compute; reflexivity).
  rewrite Hr in Hb. by injection Hb as <- _.
Defined.

Lemma build_malformed_epoch_witness :
  build Sample.builder None Sample.bad_epoch_world
  = (Raise ValueError, (ensure_destination Sample.builder None Sample.bad_epoch_world).2)
  /\ fs (build Sample.builder None Sample.bad_epoch_world).2 !! "dist/foo-1.0.tar.gz" = None.
Proof.
  split; [|by vm_compute].
  by apply (build_malformed_epoch Sample.builder None Sample.bad_epoch_world).
Defined.

Lemma build_missing_tracked_file_witness :
  exists e w', build Sample.builder None Sample.missing_file_world = (Raise e, w').
Proof.
  apply (build_missing_tracked_file Sample.builder None Sample.missing_file_world
           {| vcs_name := "git"; list_untracked_deleted_files := [];
              list_tracked_files := ["foo.py"; "gone.py"] |} "gone.py").
  - right. vm_compute. by eexists.
  - reflexivity.
  - vm_compute. set_solver.
  - by vm_compute.
  - reflexivity.
Defined.

Lemma build_makes_destination_witness :
  fs Sample.clean_world !! "dist" = None
  /\ exists st, fs (build Sample.builder None Sample.clean_world).2 !! "dist"
                = Some (Directory st).
Proof.
  split; [reflexivity|].
  apply (build_makes_destination Sample.builder None Sample.clean_world
           (Path.of_str "dist/foo-1.0.tar.gz")).
  - vm_compute. reflexivity.
  - by vm_compute.
  - reflexivity.
Defined.

Lemma build_log_witness :
  log (build Sample.builder None Sample.own_setup_world).2
  = [LogInfo "Found 2 files tracked in git";
     LogWarning "Using setup.py from repository, not generating setup.py";
     LogInfo "Built sdist: dist/foo-1.0.tar.gz"].
Proof.
  apply (build_log Sample.builder None Sample.own_setup_world
           (Path.of_str "dist/foo-1.0.tar.gz") _
           {| vcs_name := "git"; list_untracked_deleted_files := [];
              list_tracked_files := ["setup.py"; "foo.py"] |}).
  - vm_compute. reflexivity.
  - reflexivity.
Defined.

Lemma build_members_anonymous_witness :
  exists st a,
    fs (build Sample.builder None Sample.clean_world).2 !! "dist/foo-1.0.tar.gz"
    = Some (RegularFile st (Packed a))
    /\ Forall (fun m => TarInfo.uid m.1 = 0%Z /\ TarInfo.gid m.1 = 0%Z
                        /\ TarInfo.uname m.1 = "" /\ TarInfo.gname m.1 = "")
              (members a).
Proof.
  apply (build_members_anonymous Sample.builder None Sample.clean_world
           (Path.of_str "dist/foo-1.0.tar.gz")).
  vm_compute. reflexivity.
Defined.

Lemma build_stores_regular_file_witness :
  exists st a ti,
    fs (build Sample.builder None Sample.own_setup_world).2 !! "dist/foo-1.0.tar.gz"
    = Some (RegularFile st (Packed a))
    /\ (ti, "# mine") ∈ members a
    /\ TarInfo.name ti = "foo-1.0/setup.py".
Proof.
  edestruct (build_stores_regular_file Sample.builder None Sample.own_setup_world
               (Path.of_str "dist/foo-1.0.tar.gz")
               (build Sample.builder None Sample.own_setup_world).2
               {| vcs_name := "git"; list_untracked_deleted_files := [];
                  list_tracked_files := ["setup.py"; "foo.py"] |}
               "setup.py"
               (Sample.checkout_stat 33188 302) "# mine")
    as (mtime & st & a & _ & Hfs & Hin).
  - vm_compute. reflexivity.
  - reflexivity.
  - vm_compute. set_solver.
  - by vm_compute.
  - reflexivity.
  - by vm_compute.
  - eexists st, a, _. split; [exact Hfs|]. split; [exact Hin|reflexivity].
Defined.

(** Of two tracked names of one file, the one added first goes into the
    archive with the content and the other as a hard link to it, without
    content. *)
Example build_stores_hard_link :
  exists t w' st a m1 m2 rest,
    build Sample.builder None Sample.hard_link_world = (Ok t, w')
    /\ fs w' !! Path.str t = Some (RegularFile st (Packed a))
    /\ members a = m1 :: m2 :: rest
    /\ TarInfo.name m1.1 = "foo-1.0/copy.py" /\ TarInfo.type m1.1 = REGTYPE
    /\ TarInfo.size m1.1 = 8 /\ m1.2 = "print(1)"
    /\ TarInfo.name m2.1 = "foo-1.0/foo.py" /\ TarInfo.type m2.1 = LNKTYPE
    /\ TarInfo.linkname m2.1 = "foo-1.0/copy.py"
    /\ TarInfo.size m2.1 = 0 /\ m2.2 = "".
Proof.
  eexists _, _, _, _, _, _, _. split; [vm_compute; reflexivity|].
  split; [vm_compute; reflexivity|]. split; [reflexivity|]. by repeat split.
Qed.

Lemma build_stores_link_witness :
  exists st a ti,
    fs (build Sample.builder None Sample.link_world).2 !! "dist/foo-1.0.tar.gz"
    = Some (RegularFile st (Packed a))
    /\ (ti, "") ∈ members a
    /\ TarInfo.name ti = "foo-1.0/latest" /\ TarInfo.linkname ti = "foo.py".
Proof.
  edestruct (build_stores_link Sample.builder None Sample.link_world
               (Path.of_str "dist/foo-1.0.tar.gz")
               (build Sample.builder None Sample.link_world).2
               {| vcs_name := "git"; list_untracked_deleted_files := [];
                  list_tracked_files := ["foo.py"; "latest"] |}
               "latest"
               (Sample.checkout_stat 41471 402) "foo.py")
    as (mtime & st & a & _ & Hfs & Hin).
  - vm_compute. reflexivity.
  - reflexivity.
  - vm_compute. set_solver.
  - by vm_compute.
  - reflexivity.
  - eexists st, a, _. split; [exact Hfs|]. split; [exact Hin|by split].
Defined.

Lemma build_generated_members_witness :
  exists st a,
    fs (build Sample.builder None Sample.own_setup_world).2 !! "dist/foo-1.0.tar.gz"
    = Some (RegularFile st (Packed a))
    /\ length (members a) = 3
    /\ (TarInfo.name <$> (fst <$> last (members a))) = Some "foo-1.0/PKG-INFO".
Proof.
  edestruct (build_generated_members Sample.builder None Sample.own_setup_world
               (Path.of_str "dist/foo-1.0.tar.gz")
               (build Sample.builder None Sample.own_setup_world).2
               {| vcs_name := "git"; list_untracked_deleted_files := [];
                  list_tracked_files := ["setup.py"; "foo.py"] |})
    as (st & a & Hfs & Hlen & Hlast & _).
  - vm_compute. reflexivity.
  - reflexivity.
  - exists st, a. split; [exact Hfs|]. split; [exact Hlen|]. by rewrite Hlast.
Defined.

Lemma find_tracked_files_listing_order_witness :
  (find_tracked_files Sample.builder Sample.own_setup_world).1
  = (find_tracked_files Sample.builder
       (Sample.work_tree ["foo.py"; "setup.py"] ∅ ∅)).1.
Proof.
  apply (find_tracked_files_listing_order Sample.builder Sample.own_setup_world
           (Sample.work_tree ["foo.py"; "setup.py"] ∅ ∅)
           {| vcs_name := "git"; list_untracked_deleted_files := [];
              list_tracked_files := ["setup.py"; "foo.py"] |}
           {| vcs_name := "git"; list_untracked_deleted_files := [];
              list_tracked_files := ["foo.py"; "setup.py"] |}).
  - reflexivity.
  - reflexivity.
  - apply perm_swap.
  - reflexivity.
Defined.

(** ** The generated [setup.py] *)

Section setup_py.
Context `{Externals}.

Lemma make_setup_py_sections (self : SdistBuilder.t) (h : host) :
  make_setup_py self h
  = Str.encode_utf8
      (SETUP (Str.join Str.nl (setup_sections self h).1)
             (repr (PyStr (Metadata.name (SdistBuilder.metadata self))))
             (repr (PyStr (Metadata.version (SdistBuilder.metadata self))))
             (repr (PyStr (Metadata.summary (SdistBuilder.metadata self))))
             (repr (PyStr (Metadata.author (SdistBuilder.metadata self))))
             (repr (PyStr (Metadata.author_email (SdistBuilder.metadata self))))
             (repr (PyStr (Metadata.home_page (SdistBuilder.metadata self))))
             (Str.join (Str.nl +:+ "      ") (setup_sections self h).2)).
Proof.
  unfold make_setup_py, setup_sections.
  destruct (Module_.is_package _); [destruct (auto_packages _ _)|];
    destruct (convert_requires _); repeat case_bool_decide;
    destruct (Metadata.requires_python _); repeat case_bool_decide; reflexivity.
Qed.

Ltac split_names :=
  try unfold setup_variables; rewrite ?elem_of_cons, ?elem_of_nil;
  intros [->|[->|[->|[->|[->|[]]]]]].

(** The keyword argument and the assignment of a variable name it. *)
Lemma setup_keyword_inj (name n : string) :
  name ∈ setup_variables -> n ∈ setup_variables ->
  name +:+ "=" +:+ name +:+ "," = n +:+ "=" +:+ n +:+ "," -> name = n.
Proof. split_names; split_names; cbv [String.append]; intros; by simplify_eq. Qed.

Lemma setup_assignment_inj (name n value value' : string) :
  name ∈ setup_variables -> n ∈ setup_variables ->
  Str.assignment name value' = Str.assignment n value -> name = n.
Proof.
  split_names; split_names; cbv [Str.assignment String.append]; intros; by simplify_eq.
Qed.

Lemma sections_step (before extra : list string) (n value : string) :
  n ∈ setup_variables ->
  (forall name, name ∈ setup_variables ->
     (name +:+ "=" +:+ name +:+ ",") ∈ extra
     <-> exists value, Str.assignment name value ∈ before) ->
  forall name, name ∈ setup_variables ->
    (name +:+ "=" +:+ name +:+ ",") ∈ extra ++ [n +:+ "=" +:+ n +:+ ","]
    <-> exists value', Str.assignment name value' ∈ before ++ [Str.assignment n value].
Proof.
  intros Hn Hmatch name Hname. rewrite elem_of_app, list_elem_of_singleton, (Hmatch name Hname).
  split.
  - intros [[value' Hin]|Heq].
    + exists value'. apply elem_of_app. by left.
    + apply setup_keyword_inj in Heq as ->; [|done..].
      exists value. apply elem_of_app. right. by left.
  - intros [value' [Hin|Heq%list_elem_of_singleton]%elem_of_app].
    + left. by exists value'.
    + right. by apply setup_assignment_inj in Heq as ->.
Qed.

Lemma sections_line (before extra : list string) (line : string) :
  (forall name, name ∈ setup_variables -> name +:+ "=" +:+ name +:+ "," <> line) ->
  (forall name, name ∈ setup_variables ->
     (name +:+ "=" +:+ name +:+ ",") ∈ extra
     <-> exists value, Str.assignment name value ∈ before) ->
  forall name, name ∈ setup_variables ->
    (name +:+ "=" +:+ name +:+ ",") ∈ extra ++ [line]
    <-> exists value, Str.assignment name value ∈ before.
Proof.
  intros Hline Hmatch name Hname.
  rewrite elem_of_app, list_elem_of_singleton, (Hmatch name Hname).
  split; [|by left]. intros [?|Heq]; [done|]. by destruct (Hline name Hname).
Qed.

Lemma sections_none (line : string) :
  (forall name, name ∈ setup_variables -> name +:+ "=" +:+ name +:+ "," <> line) ->
  forall name, name ∈ setup_variables ->
    (name +:+ "=" +:+ name +:+ ",") ∈ [line]
    <-> exists value, Str.assignment name value ∈ @nil string.
Proof.
  intros Hline name Hname. rewrite list_elem_of_singleton. split.
  - intros Heq. by destruct (Hline name Hname).
  - by intros [value ?%elem_of_nil].
Qed.

Lemma sections_nil (name : string) :
  name ∈ setup_variables ->
  (name +:+ "=" +:+ name +:+ ",") ∈ @nil string
  <-> exists value, Str.assignment name value ∈ @nil string.
Proof. intros _. split; [by intros ?%elem_of_nil|by intros [value ?%elem_of_nil]]. Qed.

Lemma setup_sections_assign (self : SdistBuilder.t) (h : host) (name : string) :
  name ∈ setup_variables ->
  (name +:+ "=" +:+ name +:+ ",") ∈ (setup_sections self h).2
  <-> exists value, Str.assignment name value ∈ (setup_sections self h).1.
Proof.
  revert name. unfold setup_sections.
  assert (forall line : string,
            (exists r, line = "py_modules=" +:+ r) \/ (exists r, line = "python_requires=" +:+ r) ->
            forall name, name ∈ setup_variables -> name +:+ "=" +:+ name +:+ "," <> line)
    as Hline.
  { intros line [[r ->]|[r ->]] name; split_names; cbv [String.append]; intros; by simplify_eq. }
  assert ("packages" ∈ setup_variables /\ "package_data" ∈ setup_variables
          /\ "install_requires" ∈ setup_variables /\ "extras_require" ∈ setup_variables
          /\ "entry_points" ∈ setup_variables) as (V1 & V2 & V3 & V4 & V5).
  { unfold setup_variables. repeat split; set_solver. }
  destruct (Module_.is_package _); [destruct (auto_packages _ _)|];
    destruct (convert_requires _); repeat case_bool_decide;
    destruct (Metadata.requires_python _); repeat case_bool_decide;
    cbv beta iota zeta; cbn [fst snd].
  all: repeat first
         [ apply sections_line; [apply Hline; right; by eexists|]
         | apply (sections_step _ _ "entry_points" _ V5)
         | apply (sections_step _ _ "extras_require" _ V4)
         | apply (sections_step _ _ "install_requires" _ V3)
         | apply (sections_step [_] [_] "package_data" _ V2)
         | apply (sections_step [] [] "packages" _ V1)
         | apply sections_none; apply Hline; left; by eexists
         | apply sections_nil ].
Qed.

(** X25: [make_setup_py] fills the template with the assignments and the
    keyword arguments it has gathered, and the script passes a variable to
    [setup] by name exactly when it assigns that variable before the call:
    packages and package data for a package, the install requirements, the
    extras and the entry points when there are any. *)
Theorem make_setup_py_assigns (self : SdistBuilder.t) (h : host) :
  make_setup_py self h
  = Str.encode_utf8
      (SETUP (Str.join Str.nl (setup_sections self h).1)
             (repr (PyStr (Metadata.name (SdistBuilder.metadata self))))
             (repr (PyStr (Metadata.version (SdistBuilder.metadata self))))
             (repr (PyStr (Metadata.summary (SdistBuilder.metadata self))))
             (repr (PyStr (Metadata.author (SdistBuilder.metadata self))))
             (repr (PyStr (Metadata.author_email (SdistBuilder.metadata self))))
             (repr (PyStr (Metadata.home_page (SdistBuilder.metadata self))))
             (Str.join (Str.nl +:+ "      ") (setup_sections self h).2))
  /\ forall name,
       name ∈ setup_variables ->
       (name +:+ "=" +:+ name +:+ ",") ∈ (setup_sections self h).2
       <-> exists value, Str.assignment name value ∈ (setup_sections self h).1.
Proof. split; [apply make_setup_py_sections|apply setup_sections_assign]. Qed.

End setup_py.

#[local] Existing Instance Reference.externals.

Lemma make_setup_py_assigns_witness :
  "entry_points=entry_points,"
    ∈ (setup_sections Sample.scripts_builder (on Sample.clean_world)).2.
Proof.
  assert ("entry_points" ∈ setup_variables) as Hname.
  { unfold setup_variables. do 4 apply list_elem_of_further. apply list_elem_of_here. }
  apply (proj2 (proj2 (make_setup_py_assigns Sample.scripts_builder
                         (on Sample.clean_world)) "entry_points" Hname)).
  exists "{'console_scripts': ['bar = foo:bar', 'foo = foo:main']}".
  vm_compute. apply list_elem_of_here.
Defined.

(** ** Package discovery does not depend on the order of the listing *)

Lemma find_ext_in {A} (f g : A -> bool) (l : list A) :
  (forall x, x ∈ l -> f x = g x) -> find f l = find g l.
Proof.
  induction l as [|x l IH]; intros Hfg; simpl; [done|].
  rewrite <-(Hfg x) by (by left). destruct (f x); [done|].
  apply IH. intros y Hy. apply Hfg. by right.
Qed.

(** [find_nearest_pkg] asks of [subpkg_paths] the proper ancestors of the
    path only. *)
Lemma find_nearest_pkg_ext pkg_name (known known' : gset string) (rel_path : string) :
  (forall j, 1 <= j <= length (Str.split "/" rel_path) - 1 ->
     Str.join "/" (take j (Str.split "/" rel_path)) ∈ known
     <-> Str.join "/" (take j (Str.split "/" rel_path)) ∈ known') ->
  find_nearest_pkg pkg_name known rel_path = find_nearest_pkg pkg_name known' rel_path.
Proof.
  intros Hsame. unfold find_nearest_pkg.
  rewrite (find_ext_in _ (fun i => bool_decide
             (Str.join "/" (take i (Str.split "/" rel_path)) ∈ known'))); [done|].
  intros j Hj. apply elem_of_reverse, elem_of_seq in Hj.
  cbn [os.sep posix] in *. apply bool_decide_ext, Hsame. lia.
Qed.

Section steps.
Variables pkgdir pkg_name : string.
Implicit Types (st : discovery) (e : walk_entry) (l : list walk_entry).

Lemma step_packages_shape st e :
  packages (walk_step pkgdir pkg_name st e)
  = packages st ++ option_list (registration pkgdir pkg_name (shape e)).
Proof.
  destruct e as [[p dn] fs]. unfold walk_step, registration, shape. simpl.
  repeat case_bool_decide; simpl; rewrite ?app_nil_r; try done.
  by destruct (find_nearest_pkg _ _ _).
Qed.

Lemma step_pkg_data_shape st e :
  pkg_data (walk_step pkgdir pkg_name st e)
  = file_all (pkg_data st)
      (option_list (filed_data pkgdir pkg_name (subpkg_paths st) (shape e))).
Proof.
  destruct e as [[p dn] fs]. unfold walk_step, filed_data, shape. simpl.
  repeat case_bool_decide; simpl; try done.
  by destruct (find_nearest_pkg _ _ _).
Qed.

Lemma fold_packages_shape st l :
  packages (foldl (walk_step pkgdir pkg_name) st l)
  = packages st ++ omap (registration pkgdir pkg_name) (shape <$> l).
Proof.
  revert st. induction l as [|e l IH]; intros st; simpl; [by rewrite app_nil_r|].
  rewrite IH, step_packages_shape, <-app_assoc. f_equal.
  by destruct (registration _ _ _).
Qed.

Lemma registers_shape e :
  registers pkgdir e <-> is_Some (registration pkgdir pkg_name (shape e)).
Proof.
  destruct e as [[p dn] fs]. unfold registers, registration, shape. simpl.
  repeat case_bool_decide; split; try naive_solver; intros [x ?]; done.
Qed.

End steps.

(** X26: the package list [auto_packages] returns is the top-level package
    and the names the loop registers, duplicates kept, arranged in ascending
    order; every list of patterns is in ascending order too. *)
Theorem auto_packages_sorted (pkgdir : string) (tree : dir) :
  StronglySorted String.le (auto_packages pkgdir tree).1
  /\ (auto_packages pkgdir tree).1
     ≡ₚ pkg_name_of pkgdir
        :: omap (registration (os_path.normpath pkgdir) (pkg_name_of pkgdir))
                (shape <$> os_walk [] tree)
  /\ forall k l,
       (auto_packages pkgdir tree).2 !! k = Some l -> StronglySorted String.le l.
Proof.
  split; [|split].
  - apply StronglySorted_merge_sort; apply _.
  - unfold auto_packages. simpl. unfold Str.sorted.
    by rewrite merge_sort_Permutation, fold_packages_shape.
  - intros k l. unfold auto_packages. simpl. rewrite lookup_fmap.
    intros (l0 & _ & ->)%fmap_Some. apply StronglySorted_merge_sort; apply _.
Qed.

Lemma file_all_app m (l1 l2 : list (string * string)) :
  file_all m (l1 ++ l2) = file_all (file_all m l1) l2.
Proof. apply foldl_app. Qed.

(** The list under a key after [file_all]: the patterns filed under it
    come after those that were there, in order. *)
Lemma file_all_lookup m (l : list (string * string)) k :
  file_all m l !! k
  = if decide ((filter (fun kp => kp.1 = k) l) = []) then m !! k
    else Some ((m !!! k) ++ (filter (fun kp => kp.1 = k) l).*2).
Proof.
  revert m. induction l as [|[k' pat] l IH]; intros m; [done|].
  unfold file_all. simpl foldl. fold (file_all (<[k' := m !!! k' ++ [pat]]> m) l).
  rewrite IH, filter_cons. simpl.
  destruct (decide (k' = k)) as [->|Hne].
  - rewrite lookup_total_insert_eq, lookup_insert_eq.
    destruct (decide (filter _ l = [])) as [->|Hl].
    + by rewrite decide_False.
    + rewrite decide_False by done. simpl. by rewrite <-app_assoc.
  - by rewrite lookup_total_insert_ne, lookup_insert_ne.
Qed.

Lemma sorted_Permutation (l1 l2 : list string) :
  l1 ≡ₚ l2 -> Str.sorted l1 = Str.sorted l2.
Proof.
  intros Hp. unfold Str.sorted. apply (StronglySorted_unique String.le).
  - apply StronglySorted_merge_sort; apply _.
  - apply StronglySorted_merge_sort; apply _.
  - by rewrite !merge_sort_Permutation.
Qed.

Lemma file_all_Permutation m (l1 l2 : list (string * string)) :
  l1 ≡ₚ l2 -> Str.sorted <$> file_all m l1 = Str.sorted <$> file_all m l2.
Proof.
  intros Hp. apply map_eq. intros k. rewrite !lookup_fmap, !file_all_lookup.
  assert (filter (fun kp : string * string => kp.1 = k) l1
          ≡ₚ filter (fun kp : string * string => kp.1 = k) l2) as Hf by (by rewrite Hp).
  destruct (decide (filter _ l1 = [])) as [H1|H1], (decide (filter _ l2 = [])) as [H2|H2].
  - done.
  - rewrite H1 in Hf. by apply Permutation_nil_l in Hf.
  - rewrite H2 in Hf. by apply Permutation_nil_r in Hf.
  - simpl. f_equal. apply sorted_Permutation. by rewrite Hf.
Qed.

Section whole_walk.
Variables (pkgdir : string) (tree : dir).
Hypothesis Hwf : wf_dir tree = true.

(** A proper ancestor that the whole walk registers was registered before
    the directory was reached. *)
Lemma same_filed_data pre e post :
  os_walk [] tree = pre ++ e :: post ->
  filed_data (os.path_normpath pkgdir) (pkg_name_of pkgdir)
    (subpkg_paths (discovery_after pkgdir pre)) (shape e)
  = filed_data (os.path_normpath pkgdir) (pkg_name_of pkgdir)
      (subpkg_paths (discovery_after pkgdir (os_walk [] tree))) (shape e).
Proof.
  intros Hwalk. unfold filed_data.
  case_bool_decide as Hb; [done|]. case_bool_decide as Hr; [done|].
  destruct (shape e).2; [done|].
  assert (e ∈ os_walk [] tree) as He by (rewrite Hwalk; set_solver).
  pose proof (walk_entry_wf tree Hwf e He) as Hp.
  change (shape e).1 with e.1.1 in *.
  assert (e.1.1 <> []) as Hne by (by intros Hnil; rewrite Hnil in Hr).
  rewrite (find_nearest_pkg_ext _ _
             (subpkg_paths (discovery_after pkgdir (os_walk [] tree)))); [done|].
  rewrite split_relpath by done. intros j Hj.
  assert (take j e.1.1 <> []) as Htake.
  { intros Hnil%(f_equal length). rewrite length_take in Hnil. simpl in Hnil. lia. }
  split.
  - intros Hin. rewrite Hwalk. unfold discovery_after in *.
    apply fold_subpkg_paths in Hin as [Hin|(e' & Hin' & Hreg & Heq)].
    + by apply elem_of_empty in Hin.
    + apply fold_subpkg_paths. right. exists e'. split; [set_solver|done].
  - intros Hin. apply (boundaries_known pkgdir tree Hwf pre e post j Hwalk); [lia|].
    unfold discovery_after in Hin.
    apply fold_subpkg_paths in Hin as [Hin|(e' & Hin' & Hreg & Heq)].
    { by apply elem_of_empty in Hin. }
    destruct (registers_walk_entry pkgdir tree e' Hin' Hreg) as (Hne' & Hlast & Hinit).
    pose proof (walk_entry_wf tree Hwf e' Hin') as Hp'.
    assert (take j e.1.1 = e'.1.1) as Hsame.
    { apply (join_inj "/"); [done|done| |by apply wf_names_no_sep|].
      - apply wf_names_no_sep. by apply Forall_take.
      - rewrite Heq. by destruct (e'.1.1). }
    rewrite Hsame. split; [done|]. split; [done|].
    destruct e' as [[p' dn'] fs']. by exists dn', fs'.
Qed.

Lemma pkg_data_prefix pre post :
  os_walk [] tree = pre ++ post ->
  pkg_data (discovery_after pkgdir pre)
  = file_all {[ "" := ["*"] ]}
      (omap (filed_data (os.path_normpath pkgdir) (pkg_name_of pkgdir)
               (subpkg_paths (discovery_after pkgdir (os_walk [] tree))))
            (shape <$> pre)).
Proof.
  revert post. induction pre as [|e pre IH] using rev_ind; intros post Hwalk; [done|].
  rewrite <-app_assoc in Hwalk. simpl in Hwalk.
  assert (discovery_after pkgdir (pre ++ [e])
          = walk_step (os.path_normpath pkgdir) (pkg_name_of pkgdir)
              (discovery_after pkgdir pre) e) as ->.
  { unfold discovery_after. by rewrite foldl_app. }
  rewrite step_pkg_data_shape, (same_filed_data pre e post Hwalk), (IH _ Hwalk).
  rewrite fmap_app, omap_app, file_all_app. simpl.
  by destruct (filed_data _ _ _ _) as [[k pat]|].
Qed.

Lemma auto_packages_shapes :
  auto_packages pkgdir tree
  = (Str.sorted (pkg_name_of pkgdir
                 :: omap (registration (os.path_normpath pkgdir) (pkg_name_of pkgdir))
                      (shape <$> os_walk [] tree)),
     Str.sorted <$>
       file_all {[ "" := ["*"] ]}
         (omap (filed_data (os.path_normpath pkgdir) (pkg_name_of pkgdir)
                  (subpkg_paths (discovery_after pkgdir (os_walk [] tree))))
               (shape <$> os_walk [] tree))).
Proof.
  change (auto_packages pkgdir tree)
    with (Str.sorted (packages (discovery_after pkgdir (os_walk [] tree))),
          Str.sorted <$> pkg_data (discovery_after pkgdir (os_walk [] tree))).
  rewrite (pkg_data_prefix (os_walk [] tree) []) by (by rewrite app_nil_r).
  unfold discovery_after at 1. by rewrite fold_packages_shape.
Qed.

End whole_walk.

(** The sub-packages a walk registers, by the shapes of its entries. *)
Lemma subpkg_paths_shapes pkgdir (l : list walk_entry) x :
  x ∈ subpkg_paths (discovery_after pkgdir l) <->
  exists s, s ∈ shape <$> l
            /\ is_Some (registration (os.path_normpath pkgdir) (pkg_name_of pkgdir) s)
            /\ x = os_path.walk_relpath s.1.
Proof.
  unfold discovery_after. rewrite fold_subpkg_paths. split.
  - intros [Hin|(e & Hin & Hreg & ->)]; [by apply elem_of_empty in Hin|].
    exists (shape e). split; [by apply list_elem_of_fmap_2|].
    split; [|done]. by apply registers_shape.
  - intros (s & (e & -> & Hin)%list_elem_of_fmap & Hreg & ->). right.
    exists e. split; [done|]. split; [|done]. by eapply registers_shape.
Qed.

(** X27: two well-formed trees that list the same directories, each with
    or without [__init__.py] in both, give the same packages and the same
    package data, in whatever order the directories are listed. *)
Theorem auto_packages_listing_order (pkgdir : string) (tree1 tree2 : dir) :
  wf_dir tree1 = true -> wf_dir tree2 = true ->
  shape <$> os_walk [] tree1 ≡ₚ shape <$> os_walk [] tree2 ->
  auto_packages pkgdir tree1 = auto_packages pkgdir tree2.
Proof.
  intros Hwf1 Hwf2 Hshapes.
  rewrite (auto_packages_shapes pkgdir tree1 Hwf1), (auto_packages_shapes pkgdir tree2 Hwf2).
  assert (subpkg_paths (discovery_after pkgdir (os_walk [] tree1))
          = subpkg_paths (discovery_after pkgdir (os_walk [] tree2))) as ->.
  { apply set_eq. intros x. rewrite !subpkg_paths_shapes.
    by setoid_rewrite Hshapes. }
  f_equal.
  - apply sorted_Permutation. by rewrite Hshapes.
  - apply file_all_Permutation. by rewrite Hshapes.
Qed.

Lemma auto_packages_listing_order_witness :
  auto_packages "pkg" Sample.listed_tree = auto_packages "pkg" Sample.relisted_tree
  /\ auto_packages "pkg" Sample.listed_tree
     = (["pkg"; "pkg.a"], {[ "" := ["*"]; "pkg" := ["b/*"]; "pkg.a" := ["data/*"] ]}).
Proof.
  split; [|reflexivity].
  apply auto_packages_listing_order; [reflexivity|reflexivity|].
  change (shape <$> os_walk [] Sample.listed_tree)
    with ([([], true)] ++ [(["a"], true); (["a"; "data"], false)] ++ [(["b"], false)]).
  change (shape <$> os_walk [] Sample.relisted_tree)
    with ([([], true)] ++ [(["b"], false)] ++ [(["a"], true); (["a"; "data"], false)]).
  apply Permutation_app_head, Permutation_app_comm.
Defined.
